(** * Vigil batch drift-monitoring job: a shallow embedding of
      [api/monitoring_job.py] and the properties of one monitoring cycle.

    The job talks to four collaborators that are not part of the module:
    the file system (reference CSV), the SQL store (prediction log and
    metrics table), the Evidently report engine and the Slack webhook.
    Their answers are the fields of a [World]; what the job does to them
    is recorded in a [State]: the committed metrics table, the ORM session
    and a chronological trace of every external call and log line.

    Conventions of the model:
    - a [datetime] is a number of microseconds counted from 0001-01-01;
      building a duration and subtracting it from a date raise
      [OverflowError] outside the ranges of the Python types;
    - an integer column of a query result that holds a NULL is read as a
      column of floats;
    - exceptions are the subclasses of [Exception]; interrupts and
      [SystemExit] are not part of it;
    - the scalars of a report dictionary are [None], booleans, integers and
      floats;
    - log lines and the alert text are kept as structured values, not laid
      out as strings;
    - [rollback] and [close] on the session always succeed. *)

From Stdlib Require Import ZArith List String Bool Lia.
From Stdlib Require Import Floats.SpecFloat DecimalString.
Import ListNotations.
Open Scope string_scope.
Open Scope list_scope.
Open Scope Z_scope.

(** ** Python values used by the job *)

(** Python's [float] is IEEE-754 binary64; [spec_float] with [prec = 53] and
    [emax = 1024] is its bit-exact specification. *)
Definition float := spec_float.

Definition prec64 : Z := 53.
Definition emax64 : Z := 1024.

(** Exceptions the collaborators may raise. Every constructor stands for a
    subclass of Python's [Exception]. *)
Inductive exn :=
| OperationalError
| SQLAlchemyError
| ConnectionError
| Timeout
| IndexError
| TypeError
| ValueError
| OverflowError
| RuntimeError (what : string).

Inductive result (A : Type) :=
| Returned (a : A)
| Raised (e : exn).
Arguments Returned {A} a.
Arguments Raised {A} e.

(** [float(n)] for an [int]: round to nearest even, [OverflowError] when the
    integer is too large for a double. *)
Definition float_of_int (n : Z) : result float :=
  match binary_normalize prec64 emax64 n 0 false with
  | S754_infinity _ => Raised OverflowError
  | f => Returned f
  end.

Definition float_zero : float := S754_zero false.
Definition float_one : float :=
  Eval cbv in binary_normalize prec64 emax64 1 0 false.

(** The integer mantissa of a finite float, with its sign. *)
Definition signed_mantissa (s : bool) (m : positive) : Z :=
  if s then Z.neg m else Z.pos m.

(** Python compares an [int] with a [float] exactly (no conversion of the
    integer): [None] when the float is a NaN. *)
Definition int_compare_float (n : Z) (f : float) : option comparison :=
  match f with
  | S754_nan => None
  | S754_infinity s => Some (if s then Gt else Lt)
  | S754_zero _ => Some (n ?= 0)
  | S754_finite s m e =>
      if 0 <=? e
      then Some (n ?= signed_mantissa s m * 2 ^ e)
      else Some (n * 2 ^ (- e) ?= signed_mantissa s m)
  end.

(** [n > f] *)
Definition int_gt_float (n : Z) (f : float) : bool :=
  match int_compare_float n f with
  | Some Gt => true
  | _ => false
  end.

(** Scalars found in a report dictionary. *)
Inductive pyval :=
| VNone
| VBool (b : bool)
| VInt (n : Z)
| VFloat (f : float).

(** [bool(v)] *)
Definition py_bool (v : pyval) : bool :=
  match v with
  | VNone => false
  | VBool b => b
  | VInt n => negb (n =? 0)
  | VFloat (S754_zero _) => false
  | VFloat _ => true
  end.

(** [int(v)]: truncation toward zero for floats. *)
Definition py_int (v : pyval) : result Z :=
  match v with
  | VNone => Raised TypeError
  | VBool b => Returned (if b then 1 else 0)
  | VInt n => Returned n
  | VFloat S754_nan => Raised ValueError
  | VFloat (S754_infinity _) => Raised OverflowError
  | VFloat (S754_zero _) => Returned 0
  | VFloat (S754_finite s m e) =>
      if 0 <=? e
      then Returned (signed_mantissa s m * 2 ^ e)
      else Returned (Z.quot (signed_mantissa s m) (2 ^ (- e)))
  end.

(** A [dict] with string keys, and [d.get(key, default)]. *)
Definition pydict := list (string * pyval).

Fixpoint dict_get (d : pydict) (key : string) (default : pyval) : pyval :=
  match d with
  | [] => default
  | (k, v) :: d' => if String.eqb k key then v else dict_get d' key default
  end.

(** [report.as_dict()]: the list under ['metrics'], each entry reduced to
    its ['result'] dictionary. *)
Definition report_dict := list pydict.

(** [report_dict['metrics'][i]['result']] *)
Definition metric_result (r : report_dict) (i : nat) : result pydict :=
  match nth_error r i with
  | Some d => Returned d
  | None => Raised IndexError
  end.

(** ** Time *)

(** A [datetime] is counted in microseconds from 0001-01-01 00:00:00; a
    [timedelta] is a number of microseconds. *)
Definition datetime := Z.

(** [datetime.min] and [datetime.max], the latter being
    9999-12-31 23:59:59.999999. *)
Definition datetime_min : datetime := 0.
Definition datetime_max : datetime := 315537897599999999.

Definition timedelta_hours (hours : Z) : Z := hours * 3600000000.

(** [timedelta(hours=hours)]: a duration holds at most 999999999 days in
    either direction; beyond that the constructor raises [OverflowError]. *)
Definition timedelta (hours : Z) : result Z :=
  let days := hours / 24 in
  if (-999999999 <=? days) && (days <=? 999999999)
  then Returned (timedelta_hours hours)
  else Raised OverflowError.

(** [t - delta] on a [datetime]: [OverflowError] when the result is not a
    date of the years 1 to 9999. *)
Definition datetime_sub (t : datetime) (delta : Z) : result datetime :=
  let r := t - delta in
  if (datetime_min <=? r) && (r <=? datetime_max)
  then Returned r
  else Raised OverflowError.

(** ** Data frames *)

Inductive cell :=
| NA
| CInt (n : Z)
| CFloat (f : float)
| CTime (t : datetime).

(** A pandas frame: the length of its index and its labelled columns. *)
Record DataFrame := mkFrame {
  df_len : nat;
  df_data : list (string * list cell)
}.

(** [pd.DataFrame()] *)
Definition empty_frame : DataFrame := mkFrame 0 [].

Definition df_columns (df : DataFrame) : list string := map fst (df_data df).

(** [df.empty]: some axis has length zero. *)
Definition df_empty (df : DataFrame) : bool :=
  Nat.eqb (df_len df) 0 || Nat.eqb (List.length (df_data df)) 0.

(** [name in df.columns] *)
Definition has_column (df : DataFrame) (name : string) : bool :=
  existsb (String.eqb name) (df_columns df).

(** [df[name] = pd.NA] for a label the frame does not have yet. *)
Definition add_na_column (df : DataFrame) (name : string) : DataFrame :=
  mkFrame (df_len df) (df_data df ++ [(name, repeat NA (df_len df))]).

(** [df.drop(columns=[name], inplace=True)] *)
Definition drop_column (df : DataFrame) (name : string) : DataFrame :=
  mkFrame (df_len df)
          (filter (fun c => negb (String.eqb (fst c) name)) (df_data df)).

(** ** Store rows *)

(** A row of [prediction_logs], with the columns [dashboard/app.py] declares
    for the table. Every column but the key is nullable. *)
Record PredictionLog := mkLog {
  feature_1 : option float;
  feature_2 : option float;
  prediction : option Z;
  target : option Z;
  prediction_time : option datetime;
  log_model_version : option string
}.

(** The fields [process_and_log_metrics] gives a [MonitoringMetric]; the
    store assigns the id, which is the row's position in the table. *)
Record MonitoringMetric := mkMetric {
  timestamp : datetime;
  data_drift_score : float;
  num_drifted_features : Z;
  metric_name : string;
  metric_value : float;
  report_summary : option string;
  model_version : string;
  batch_start_time : datetime;
  batch_end_time : datetime
}.

(** ** Evidently and Slack interfaces *)

Record ColumnMapping := mkMapping {
  numerical_features : option (list string);
  cm_prediction : option string;
  cm_target : option string
}.

(** [ColumnMapping()] *)
Definition default_mapping : ColumnMapping :=
  mkMapping None (Some "prediction") (Some "target").

(** The alert text, before it is laid out as a string. *)
Record AlertText := mkAlert {
  alert_drifted_features : Z;
  alert_drift_score : float;
  alert_window_start : datetime;
  alert_window_end : datetime
}.

Record SlackPayload := mkPayload {
  username : string;
  icon_emoji : string;
  text : AlertText
}.

Record Response := mkResponse {
  ok : bool;
  status_code : Z;
  response_text : string
}.

(** ** Configuration (module-level constants) *)

Record Config := mkConfig {
  REFERENCE_DATA_PATH : string;
  MODEL_VERSION : string;
  BATCH_HOURS : Z;
  SLACK_WEBHOOK_URL : string;
  DRIFT_THRESHOLD : float
}.

(** The values taken when no environment variable is set;
    [DRIFT_THRESHOLD] is [float(0)]. *)
Definition default_config : Config :=
  mkConfig "/data/reference_data.csv" "v1.0" 24 EmptyString float_zero.

(** ** The world and the state *)

(** Where a transaction can break. *)
Inductive db_fault :=
| NoFault
| AddAllFails (e : exn)
| InsertFails (k : nat) (e : exn)
| CommitFails (e : exn).

Record World := mkWorld {
  (** [os.path.exists] *)
  path_exists : string -> bool;
  (** [pd.read_csv] *)
  read_csv : string -> result DataFrame;
  (** successive readings of [datetime.now()] *)
  clock : nat -> datetime;
  (** what goes wrong in [pd.read_sql], if anything *)
  read_sql_fault : option exn;
  (** [Report.run] followed by [as_dict] *)
  report_run : DataFrame -> DataFrame -> ColumnMapping -> result report_dict;
  (** what goes wrong in the metrics transaction, if anything *)
  metrics_fault : db_fault;
  (** [requests.post] *)
  http_post : string -> SlackPayload -> Z -> result Response
}.

Inductive log_line :=
| LogFetching (start_time end_time : datetime)
| LogFetched (n : nat)
| LogOperationalError (e : exn)
| LogUnexpectedError (e : exn)
| LogGenerating
| LogGenerated
| LogDriftSummary (score : float) (drifted : Z)
| LogMetricsLogged
| LogCommitFailed (e : exn)
| LogSlackNotConfigured
| LogSlackSent
| LogSlackFailed (status : Z) (body : string)
| LogSlackError (e : exn)
| LogJobStarting
| LogReferenceMissing (path : string)
| LogReferenceLoaded (n : nat)
| LogNoNewData
| LogJobFinished
| LogWaiting.

(** Everything the job does that is visible outside it. *)
Inductive event :=
| EvPrint (l : log_line)
| EvPathExists (path : string)
| EvReadCsv (path : string)
| EvSessionLocal
| EvReadSql (start_time end_time : datetime)
| EvReportRun (reference current : DataFrame) (cm : ColumnMapping)
| EvAddAll (rows : list MonitoringMetric)
| EvCommit
| EvRollback
| EvClose
| EvPost (url : string) (payload : SlackPayload) (timeout : Z)
| EvSleep (seconds : Z).

Record State := mkState {
  (** table [prediction_logs] *)
  prediction_logs : list PredictionLog;
  (** table [monitoring_metrics]: committed rows, oldest first *)
  monitoring_metrics : list MonitoringMetric;
  (** objects added to the session and not yet flushed *)
  session_new : list MonitoringMetric;
  (** rows inserted in the open transaction and not yet committed *)
  session_txn : list MonitoringMetric;
  (** number of clock readings so far *)
  ticks : nat;
  (** external calls and log lines, oldest first *)
  trace : list event
}.

(** ** Computations that change the state and may raise *)

(** A raised exception keeps the state reached so far: side effects are not
    undone by unwinding. *)
Definition M (A : Type) : Type := State -> result A * State.

Definition ret {A : Type} (a : A) : M A := fun s => (Returned a, s).

Definition bind {A B : Type} (c : M A) (k : A -> M B) : M B :=
  fun s =>
    match c s with
    | (Returned a, s') => k a s'
    | (Raised e, s') => (Raised e, s')
    end.

Definition raise {A : Type} (e : exn) : M A := fun s => (Raised e, s).

Definition lift {A : Type} (r : result A) : M A := fun s => (r, s).

(** [try: body / except Exception as e: handler e] *)
Definition try_except {A : Type} (body : M A) (handler : exn -> M A) : M A :=
  fun s =>
    match body s with
    | (Returned a, s') => (Returned a, s')
    | (Raised e, s') => handler e s'
    end.

(** [try: body / finally: final] *)
Definition try_finally {A : Type} (body : M A) (final : M unit) : M A :=
  fun s =>
    match body s with
    | (r, s') =>
        match final s' with
        | (Returned _, s'') => (r, s'')
        | (Raised e, s'') => (Raised e, s'')
        end
    end.

Declare Scope job_scope.
Delimit Scope job_scope with job.
Notation "x <- c ;; k" := (bind c (fun x => k))
  (at level 61, c at next level, right associativity) : job_scope.
Notation "c ;; k" := (bind c (fun _ => k))
  (at level 61, right associativity) : job_scope.
Open Scope job_scope.

(** *** State updates *)

Definition set_trace (s : State) (tr : list event) : State :=
  mkState (prediction_logs s) (monitoring_metrics s) (session_new s)
          (session_txn s) (ticks s) tr.

Definition set_ticks (s : State) (n : nat) : State :=
  mkState (prediction_logs s) (monitoring_metrics s) (session_new s)
          (session_txn s) n (trace s).

Definition set_session (s : State) (new txn : list MonitoringMetric) : State :=
  mkState (prediction_logs s) (monitoring_metrics s) new txn
          (ticks s) (trace s).

Definition set_metrics (s : State) (rows : list MonitoringMetric) : State :=
  mkState (prediction_logs s) rows (session_new s) (session_txn s)
          (ticks s) (trace s).

Definition emit (e : event) : M unit :=
  fun s => (Returned tt, set_trace s (trace s ++ [e])).

Definition print (l : log_line) : M unit := emit (EvPrint l).

(** *** The SQL side *)

(** [prediction_time BETWEEN :start_time AND :end_time]; a NULL timestamp
    does not satisfy the condition. *)
Definition between (start_time end_time : datetime) (r : PredictionLog) : bool :=
  match prediction_time r with
  | Some t => (start_time <=? t) && (t <=? end_time)
  | None => false
  end.

Definition select_window (table : list PredictionLog)
                         (start_time end_time : datetime) : list PredictionLog :=
  filter (between start_time end_time) table.

Definition float_cell (v : option float) : cell :=
  match v with
  | Some f => CFloat f
  | None => NA
  end.

Definition int_cell (v : option Z) : cell :=
  match v with
  | Some n => CInt n
  | None => NA
  end.

(** An integer column with a NULL in it comes back as floats. *)
Definition int_as_float_cell (v : option Z) : cell :=
  match v with
  | Some n => CFloat (binary_normalize prec64 emax64 n 0 false)
  | None => NA
  end.

Definition is_null {A : Type} (v : option A) : bool :=
  match v with
  | Some _ => false
  | None => true
  end.

(** The cells of an integer column: integers when no value is NULL, floats
    (and NA for NULL) otherwise. *)
Definition int_column (values : list (option Z)) : list cell :=
  if existsb is_null values
  then map int_as_float_cell values
  else map int_cell values.

Definition time_cell (v : option datetime) : cell :=
  match v with
  | Some t => CTime t
  | None => NA
  end.

(** The frame [pd.read_sql] builds from the selected rows:
    [SELECT feature_1, feature_2, prediction, target, prediction_time]. *)
Definition frame_of_logs (rows : list PredictionLog) : DataFrame :=
  mkFrame (List.length rows)
    [ ("feature_1", map (fun r => float_cell (feature_1 r)) rows);
      ("feature_2", map (fun r => float_cell (feature_2 r)) rows);
      ("prediction", int_column (map prediction rows));
      ("target", int_column (map target rows));
      ("prediction_time", map (fun r => time_cell (prediction_time r)) rows) ].

(** [SessionLocal()]: a session with nothing pending. *)
Definition SessionLocal : M unit :=
  emit EvSessionLocal ;;
  fun s => (Returned tt, set_session s [] []).

(** [db.rollback()]: the open transaction and the pending objects go. *)
Definition db_rollback : M unit :=
  emit EvRollback ;;
  fun s => (Returned tt, set_session s [] []).

(** [db.close()] releases the connection, which ends an open transaction
    without committing it. *)
Definition db_close : M unit :=
  emit EvClose ;;
  fun s => (Returned tt, set_session s [] []).

(** [json.dumps] of the summary dictionary. *)
Definition quote : string := String (Ascii.ascii_of_nat 34) EmptyString.

Definition str_of_int (n : Z) : string := NilZero.string_of_int (Z.to_int n).

Definition json_dumps_summary (rows_checked drifted_features : Z) : string :=
  ("{" ++ quote ++ "rows_checked" ++ quote ++ ": " ++ str_of_int rows_checked
       ++ ", " ++ quote ++ "drifted_features" ++ quote ++ ": "
       ++ str_of_int drifted_features ++ "}")%string.

(** [not s] for a string. *)
Definition str_falsy (s : string) : bool :=
  match s with
  | EmptyString => true
  | String _ _ => false
  end.

Section Job.

Variable cfg : Config.
Variable w : World.

(** *** Calls into the world *)

Definition datetime_now : M datetime :=
  fun s => (Returned (clock w (ticks s)), set_ticks s (S (ticks s))).

Definition os_path_exists (path : string) : M bool :=
  emit (EvPathExists path) ;;
  ret (path_exists w path).

Definition pd_read_csv (path : string) : M DataFrame :=
  emit (EvReadCsv path) ;;
  lift (read_csv w path).

Definition pd_read_sql (start_time end_time : datetime) : M DataFrame :=
  emit (EvReadSql start_time end_time) ;;
  match read_sql_fault w with
  | Some e => raise e
  | None =>
      fun s => (Returned (frame_of_logs
                            (select_window (prediction_logs s) start_time end_time)), s)
  end.

Definition Report_run (reference current : DataFrame) (cm : ColumnMapping)
  : M report_dict :=
  emit (EvReportRun reference current cm) ;;
  lift (report_run w reference current cm).

Definition requests_post (url : string) (json : SlackPayload) (timeout : Z)
  : M Response :=
  emit (EvPost url json timeout) ;;
  lift (http_post w url json timeout).

(** [db.add_all(rows)] *)
Definition db_add_all (rows : list MonitoringMetric) : M unit :=
  emit (EvAddAll rows) ;;
  match metrics_fault w with
  | AddAllFails e => raise e
  | _ => fun s => (Returned tt, set_session s (session_new s ++ rows) (session_txn s))
  end.

(** [db.commit()]: the pending objects are inserted one after the other in
    the transaction, then the transaction is committed. A fault leaves the
    rows inserted so far in the open transaction; only a commit makes rows
    part of the table. *)
Definition db_commit : M unit :=
  emit EvCommit ;;
  fun s =>
    let pending := session_new s in
    let done := (Returned tt,
                 set_session
                   (set_metrics s (monitoring_metrics s ++ session_txn s ++ pending))
                   [] []) in
    match metrics_fault w with
    | InsertFails k e =>
        if (k <? List.length pending)%nat
        then (Raised e,
              set_session s (skipn k pending) (session_txn s ++ firstn k pending))
        else done
    | CommitFails e => (Raised e, set_session s [] (session_txn s ++ pending))
    | _ => done
    end.

(** *** The job *)

(** The session argument of the source function is not used by its body
    (the query goes through the engine), so the model does not take it. The
    bounds are computed before the [try]: an [OverflowError] of the duration
    or of the subtraction is not caught here. *)
Definition fetch_data_from_db (lookback_hours : Z)
  : M (DataFrame * datetime * datetime) :=
  end_time <- datetime_now ;;
  delta <- lift (timedelta lookback_hours) ;;
  start_time <- lift (datetime_sub end_time delta) ;;
  print (LogFetching start_time end_time) ;;
  try_except
    (df <- pd_read_sql start_time end_time ;;
     print (LogFetched (df_len df)) ;;
     ret (df, start_time, end_time))
    (fun e =>
       match e with
       | OperationalError =>
           print (LogOperationalError e) ;;
           ret (empty_frame, start_time, end_time)
       | _ =>
           print (LogUnexpectedError e) ;;
           ret (empty_frame, start_time, end_time)
       end).

Definition required_features : list string := ["feature_1"; "feature_2"].

(** [if column_name not in df.columns: df[column_name] = pd.NA] *)
Definition ensure_column (df : DataFrame) (column_name : string) : DataFrame :=
  if has_column df column_name then df else add_na_column df column_name.

(** One turn of the first loop of [run_evidently_report]. *)
Definition ensure_feature (frames : DataFrame * DataFrame) (column_name : string)
  : DataFrame * DataFrame :=
  let (reference_data, current_data) := frames in
  (ensure_column reference_data column_name,
   ensure_column current_data column_name).

Definition drop_prediction (df : DataFrame) : DataFrame :=
  if has_column df "prediction" then drop_column df "prediction" else df.

(** The frames and the column mapping [run_evidently_report] hands to
    [report.run]. *)
Definition drift_inputs (reference_data current_data : DataFrame)
  : DataFrame * DataFrame * ColumnMapping :=
  let (reference_data, current_data) :=
    fold_left ensure_feature required_features (reference_data, current_data) in
  let reference_data := drop_prediction reference_data in
  let current_data := drop_prediction current_data in
  let column_mapping := default_mapping in
  let column_mapping :=
    mkMapping (Some ["feature_1"; "feature_2"])
              (cm_prediction column_mapping) (cm_target column_mapping) in
  let column_mapping :=
    mkMapping (numerical_features column_mapping) None (cm_target column_mapping) in
  let column_mapping :=
    mkMapping (numerical_features column_mapping) (cm_prediction column_mapping) None in
  (reference_data, current_data, column_mapping).

Definition run_evidently_report (reference_data current_data : DataFrame)
  : M report_dict :=
  let '(reference_data, current_data, column_mapping) :=
    drift_inputs reference_data current_data in
  print LogGenerating ;;
  report <- Report_run reference_data current_data column_mapping ;;
  print LogGenerated ;;
  ret report.

Definition send_slack_alert (text : AlertText) : M unit :=
  if str_falsy (SLACK_WEBHOOK_URL cfg)
  then print LogSlackNotConfigured
  else
    let payload := mkPayload "Vigil Drift Bot" ":warning:" text in
    try_except
      (response <- requests_post (SLACK_WEBHOOK_URL cfg) payload 5 ;;
       if ok response
       then print LogSlackSent
       else print (LogSlackFailed (status_code response) (response_text response)))
      (fun e => print (LogSlackError e)).

Definition check_for_drift_and_alert (drift_score : float) (num_drifted : Z)
                                     (start_time end_time : datetime) : M unit :=
  if int_gt_float num_drifted (DRIFT_THRESHOLD cfg)
  then
    let message := mkAlert num_drifted drift_score start_time end_time in
    send_slack_alert message
  else ret tt.

Definition process_and_log_metrics (report : report_dict)
                                   (start_time end_time : datetime) : M unit :=
  drift_metric <- lift (metric_result report 0) ;;
  let dataset_drift_flag :=
    py_bool (dict_get drift_metric "dataset_drift" (VBool false)) in
  let drift_score := if dataset_drift_flag then float_one else float_zero in
  num_drifted <-
    lift (py_int (dict_get drift_metric "number_of_drifted_features" (VInt 0))) ;;
  quality_metric_section <- lift (metric_result report 1) ;;
  rows_count <- lift (py_int (dict_get quality_metric_section "rows_count" (VInt 0))) ;;
  print (LogDriftSummary drift_score num_drifted) ;;
  drift_time <- datetime_now ;;
  let drift_log :=
    mkMetric drift_time drift_score num_drifted "data_drift_summary" drift_score
             (Some (json_dumps_summary rows_count num_drifted))
             (MODEL_VERSION cfg) start_time end_time in
  count_time <- datetime_now ;;
  count_value <- lift (float_of_int rows_count) ;;
  let count_log :=
    mkMetric count_time float_zero 0 "prediction_count" count_value None
             (MODEL_VERSION cfg) start_time end_time in
  try_except
    (db_add_all [drift_log; count_log] ;;
     db_commit ;;
     print LogMetricsLogged)
    (fun e =>
       db_rollback ;;
       print (LogCommitFailed e)) ;;
  check_for_drift_and_alert drift_score num_drifted start_time end_time.

Definition main_monitoring_job : M unit :=
  print LogJobStarting ;;
  found <- os_path_exists (REFERENCE_DATA_PATH cfg) ;;
  if negb found
  then print (LogReferenceMissing (REFERENCE_DATA_PATH cfg))
  else
    reference_data <- pd_read_csv (REFERENCE_DATA_PATH cfg) ;;
    print (LogReferenceLoaded (df_len reference_data)) ;;
    SessionLocal ;;
    try_finally
      (fetched <- fetch_data_from_db (BATCH_HOURS cfg) ;;
       let '(current_data, start_time, end_time) := fetched in
       if df_empty current_data
       then print LogNoNewData
       else
         report_data <- run_evidently_report reference_data current_data ;;
         process_and_log_metrics report_data start_time end_time)
      (db_close ;;
       print LogJobFinished).

(** The [__main__] block. *)
Definition script : M unit :=
  print LogWaiting ;;
  emit (EvSleep 15) ;;
  main_monitoring_job.

End Job.

(** The exit status of the interpreter: 0 when the script runs to its end,
    1 when an exception escapes it. *)
Definition exit_status {A : Type} (r : result A) : Z :=
  match r with
  | Returned _ => 0
  | Raised _ => 1
  end.

(** ** Observations on a run *)

Definition is_post (e : event) : bool :=
  match e with
  | EvPost _ _ _ => true
  | _ => false
  end.

(** The webhook calls of a trace. *)
Definition posts (tr : list event) : list event := filter is_post tr.

Definition is_store_write (e : event) : bool :=
  match e with
  | EvAddAll _ | EvCommit | EvRollback => true
  | _ => false
  end.

(** The calls of a trace that open, commit or abandon a metrics transaction. *)
Definition store_writes (tr : list event) : list event := filter is_store_write tr.

Definition is_report_run (e : event) : bool :=
  match e with
  | EvReportRun _ _ _ => true
  | _ => false
  end.

Definition is_read_sql (e : event) : bool :=
  match e with
  | EvReadSql _ _ => true
  | _ => false
  end.

(** What a run added to the trace it started from. *)
Definition events_since (s s' : State) : list event :=
  skipn (List.length (trace s)) (trace s').

(** [end_time - timedelta(hours=lookback_hours)], the lower bound of the
    window, when it can be represented. *)
Definition window_start (end_time : datetime) (lookback_hours : Z) : result datetime :=
  match timedelta lookback_hours with
  | Returned delta => datetime_sub end_time delta
  | Raised e => Raised e
  end.

(** Whether the bounds of a window can be held: the lookback is a duration
    [timedelta] accepts and the start of the window is a date of the
    calendar. *)
Definition window_representable (end_time : datetime) (lookback_hours : Z) : bool :=
  (-999999999 <=? lookback_hours / 24) && (lookback_hours / 24 <=? 999999999)
  && ((datetime_min <=? end_time - timedelta_hours lookback_hours)
      && (end_time - timedelta_hours lookback_hours <=? datetime_max)).

(** The frame a fetch started in state [s] hands back; a fetch that raises
    hands back no frame, which counts as the empty one. *)
Definition fetched_frame (w : World) (lookback_hours : Z) (s : State) : DataFrame :=
  match fst (fetch_data_from_db w lookback_hours s) with
  | Returned (df, _, _) => df
  | Raised _ => empty_frame
  end.

(** The summary [process_and_log_metrics] reads off a report before it
    builds the rows: drift score, number of drifted features, row count and
    the row count as a float. *)
Definition read_summary (report : report_dict) : result (float * Z * Z * float) :=
  match metric_result report 0 with
  | Raised e => Raised e
  | Returned drift_metric =>
      let flag := py_bool (dict_get drift_metric "dataset_drift" (VBool false)) in
      match py_int (dict_get drift_metric "number_of_drifted_features" (VInt 0)) with
      | Raised e => Raised e
      | Returned num_drifted =>
          match metric_result report 1 with
          | Raised e => Raised e
          | Returned quality =>
              match py_int (dict_get quality "rows_count" (VInt 0)) with
              | Raised e => Raised e
              | Returned rows_count =>
                  match float_of_int rows_count with
                  | Raised e => Raised e
                  | Returned v =>
                      Returned (if flag then float_one else float_zero,
                                num_drifted, rows_count, v)
                  end
              end
          end
      end
  end.

(** An alert attempt is a call of [send_slack_alert]: its first visible
    step is either the webhook call or the line that says no webhook is
    configured. *)
Definition is_alert_attempt (e : event) : bool :=
  match e with
  | EvPost _ _ _ => true
  | EvPrint LogSlackNotConfigured => true
  | _ => false
  end.

Definition alert_attempts (tr : list event) : list event :=
  filter is_alert_attempt tr.

(** Whether a fault breaks a transaction that adds [pending] rows in one
    [add_all] and commits once. *)
Definition fault_strikes (f : db_fault) (pending : nat) : bool :=
  match f with
  | NoFault => false
  | AddAllFails _ => true
  | InsertFails k _ => (k <? pending)%nat
  | CommitFails _ => true
  end.

(** The same world with another fault in the metrics transaction. *)
Definition with_fault (w : World) (f : db_fault) : World :=
  mkWorld (path_exists w) (read_csv w) (clock w) (read_sql_fault w)
          (report_run w) f (http_post w).

(** A cycle started in [s] loads the reference, fetches a window with rows
    and gets [report] from the detector. *)
Definition reaches_recorder (cfg : Config) (w : World) (s : State)
                            (report : report_dict) : Prop :=
  path_exists w (REFERENCE_DATA_PATH cfg) = true
  /\ exists reference,
       read_csv w (REFERENCE_DATA_PATH cfg) = Returned reference
       /\ df_empty (fetched_frame w (BATCH_HOURS cfg) s) = false
       /\ (let '(r, c, cm) :=
             drift_inputs reference (fetched_frame w (BATCH_HOURS cfg) s) in
           report_run w r c cm) = Returned report.


(** [float(2)] *)
Definition float_two : float :=
  Eval cbv in binary_normalize prec64 emax64 2 0 false.

(** The payload [send_slack_alert] posts for a summary. *)
Definition alert_post (cfg : Config) (score : float) (n : Z)
                      (start_time end_time : datetime) : event :=
  EvPost (SLACK_WEBHOOK_URL cfg)
         (mkPayload "Vigil Drift Bot" ":warning:"
                    (mkAlert n score start_time end_time)) 5.

(** ** Sample inputs *)

Definition sample_reference : DataFrame :=
  mkFrame 2
    [ ("feature_1", [CFloat float_one; CFloat float_zero]);
      ("feature_2", [CFloat float_zero; CFloat float_two]);
      ("target", [CInt 1; CInt 0]) ].

(** A report with [drifted] drifted features over [rows] rows. *)
Definition sample_report (drifted rows : Z) : report_dict :=
  [ [("dataset_drift", VBool true); ("number_of_drifted_features", VInt drifted)];
    [("rows_count", VInt rows)] ].

(** The clock of the samples starts on 2026-01-01 00:00:00. *)
Definition sample_clock (n : nat) : datetime := 63902822400000000 + Z.of_nat n.

(** Everything works: the reference is there, the store answers, the
    detector finds two drifted features, the webhook accepts the alert. *)
Definition sample_world : World :=
  mkWorld (fun _ => true) (fun _ => Returned sample_reference) sample_clock None
          (fun _ _ _ => Returned (sample_report 2 1)) NoFault
          (fun _ _ _ => Returned (mkResponse true 200 "ok")).

(** The reference file is missing. *)
Definition no_reference_world : World :=
  mkWorld (fun _ => false) (fun _ => Raised (RuntimeError "no such file"))
          sample_clock None (fun _ _ _ => Returned (sample_report 2 1)) NoFault
          (fun _ _ _ => Returned (mkResponse true 200 "ok")).

(** The store refuses the window query. *)
Definition store_down_world : World :=
  mkWorld (fun _ => true) (fun _ => Returned sample_reference) sample_clock
          (Some OperationalError) (fun _ _ _ => Returned (sample_report 2 1))
          NoFault (fun _ _ _ => Returned (mkResponse true 200 "ok")).

(** The metrics transaction fails at commit and the webhook times out. *)
Definition flaky_world : World :=
  mkWorld (fun _ => true) (fun _ => Returned sample_reference) sample_clock None
          (fun _ _ _ => Returned (sample_report 2 1)) (CommitFails OperationalError)
          (fun _ _ _ => Raised Timeout).

Definition sample_log (t : datetime) : PredictionLog :=
  mkLog (Some float_one) (Some float_two) (Some 1) None (Some t) (Some "v1.0").

(** One production record, logged a second before the cycle starts. *)
Definition sample_state : State :=
  mkState [sample_log (sample_clock 0 - 1000000)] [] [] [] 0 [].

(** One production record, stamped with the very instant the fetch reads
    the clock. *)
Definition boundary_state : State :=
  mkState [sample_log (sample_clock 0)] [] [] [] 0 [].

(** No production record at all. *)
Definition idle_state : State := mkState [] [] [] [] 0 [].

(** The default configuration with a webhook. *)
Definition hook_config : Config :=
  mkConfig "/data/reference_data.csv" "v1.0" 24 "https://hooks.example/drift"
           float_zero.

(** A lookback of twenty million hours, some 2283 years. *)
Definition far_config : Config :=
  mkConfig "/data/reference_data.csv" "v1.0" 20000000 "https://hooks.example/drift"
           float_zero.

(** A webhook, and an alert only above two drifted features. *)
Definition strict_config : Config :=
  mkConfig "/data/reference_data.csv" "v1.0" 24 "https://hooks.example/drift"
           float_two.

From Stdlib Require Import Permutation Sorted.

(** ** Further observations on the job *)

(** [key in d] *)
Definition dict_has (d : pydict) (key : string) : bool :=
  existsb (fun kv => String.eqb (fst kv) key) d.

Definition is_session_open (e : event) : bool :=
  match e with
  | EvSessionLocal => true
  | _ => false
  end.

Definition is_session_close (e : event) : bool :=
  match e with
  | EvClose => true
  | _ => false
  end.

(** Neither the opening nor the closing of a session. *)
Definition not_session_event (e : event) : bool :=
  negb (is_session_open e || is_session_close e).

(** A computation only adds events that satisfy [p] to the trace, and
    leaves the production table alone. *)
Definition emits {A : Type} (p : event -> bool) (c : M A) : Prop :=
  forall s,
    prediction_logs (snd (c s)) = prediction_logs s
    /\ exists evs, trace (snd (c s)) = trace s ++ evs /\ forallb p evs = true.

(** The metrics table is a sequence of pairs: a data_drift_summary row
    followed by a prediction_count row. *)
Fixpoint paired (table : list MonitoringMetric) : bool :=
  match table with
  | [] => true
  | d :: c :: rest =>
      String.eqb (metric_name d) "data_drift_summary"
      && String.eqb (metric_name c) "prediction_count"
      && paired rest
  | _ => false
  end.

(** Successive invocations of the job, one world per invocation; what an
    invocation returns or raises does not reach the next one. *)
Fixpoint run_cycles (cfg : Config) (ws : list World) (s : State) : State :=
  match ws with
  | [] => s
  | w :: ws' => run_cycles cfg ws' (snd (main_monitoring_job cfg w s))
  end.

(** The frames [run_evidently_report] hands to the drift test. *)
Definition prepared_frame (df : DataFrame) : DataFrame :=
  drop_prediction (fold_left ensure_column required_features df).

(** The NA columns the first loop of [run_evidently_report] adds to a frame. *)
Definition added_columns (df : DataFrame) : list (string * list cell) :=
  (if has_column df "feature_1" then []
   else [("feature_1", repeat NA (df_len df))])
  ++ (if has_column df "feature_2" then []
      else [("feature_2", repeat NA (df_len df))]).

(** A detector that answers with a report of one section only. *)
Definition short_report_world : World :=
  mkWorld (fun _ => true) (fun _ => Returned sample_reference) sample_clock None
          (fun _ _ _ => Returned [[("dataset_drift", VBool true)]]) NoFault
          (fun _ _ _ => Returned (mkResponse true 200 "ok")).

(** A detector whose report has the two sections but none of the keys the
    recorder asks for. *)
Definition keyless_report : report_dict :=
  [ [("number_of_drifted_columns", VInt 2); ("share_of_drifted_columns", VInt 1)];
    [("number_of_columns", VInt 2)] ].

Definition keyless_world : World :=
  mkWorld (fun _ => true) (fun _ => Returned sample_reference) sample_clock None
          (fun _ _ _ => Returned keyless_report) NoFault
          (fun _ _ _ => Returned (mkResponse true 200 "ok")).

(** A negative lookback. *)
Definition backwards_config : Config :=
  mkConfig "/data/reference_data.csv" "v1.0" (-24) "https://hooks.example/drift"
           float_zero.

(** ** The dashboard's reading of the metrics table ([dashboard/app.py]) *)

Module Dashboard.

(** [df[df['metric_name'] == name]] on the rows of the metrics query. *)
Definition select_metric (metrics_df : list MonitoringMetric) (name : string)
  : list MonitoringMetric :=
  filter (fun r => String.eqb (metric_name r) name) metrics_df.

(** [rows.iloc[0]] *)
Definition iloc0 {A : Type} (rows : list A) : result A :=
  match rows with
  | [] => Raised IndexError
  | r :: _ => Returned r
  end.

(** [latest_drift] and [latest_count] of [main], read when the frame of the
    metrics query is not empty. *)
Definition latest_drift (metrics_df : list MonitoringMetric) : result MonitoringMetric :=
  iloc0 (select_metric metrics_df "data_drift_summary").

Definition latest_count (metrics_df : list MonitoringMetric) : result MonitoringMetric :=
  iloc0 (select_metric metrics_df "prediction_count").

(** What [ORDER BY timestamp DESC] guarantees of the rows it returns. *)
Definition newest_first (rows : list MonitoringMetric) : Prop :=
  StronglySorted (fun a b => timestamp b <= timestamp a) rows.

(** The [API_URL] computed from [API_HOST] when the module is loaded. *)
Definition API_URL (API_HOST : string) : string :=
  if negb (String.prefix "http://" API_HOST)
     && negb (String.prefix "https://" API_HOST)
  then ("http://" ++ API_HOST ++ ":8000")%string
  else API_HOST.

Definition has_scheme (url : string) : bool :=
  String.prefix "http://" url || String.prefix "https://" url.

(** A row of the metrics table with a name and a timestamp. *)
Definition sample_metric (name : string) (t : datetime) : MonitoringMetric :=
  mkMetric t float_zero 0 name float_zero None "v1.0" 0 1.

(** The rows of two cycles, newest first. *)
Definition sample_metrics : list MonitoringMetric :=
  [ sample_metric "prediction_count" 4; sample_metric "data_drift_summary" 3;
    sample_metric "prediction_count" 2; sample_metric "data_drift_summary" 1 ].

End Dashboard.

(** ** Creating the tables ([data-feeder/create_db.py]) *)

Module CreateDb.

Definition MAX_RETRIES : nat := 10.
Definition RETRY_DELAY : Z := 5.

Inductive log_line :=
| LogStarting
| LogAttempt (number max : nat)
| LogConnected
| LogTablesCreated
| LogNotReady (delay : Z)
| LogGivingUp
| LogErrorDetails (e : exn)
| LogUnexpected (e : exn).

Inductive event :=
| Print (l : log_line)
| CreateAll
| Sleep (seconds : Z).

(** The turns of the loop over [range(MAX_RETRIES)] that are left to run.
    [create_all attempt] is what [Base.metadata.create_all] does when it is
    called in turn [attempt]. A re-raise leaves the function. *)
Fixpoint attempts (create_all : nat -> result unit) (range : list nat)
  : result unit * list event :=
  match range with
  | [] => (Returned tt, [])
  | attempt :: rest =>
      let tried := [Print (LogAttempt (attempt + 1) MAX_RETRIES); CreateAll] in
      match create_all attempt with
      | Returned _ =>
          (Returned tt, tried ++ [Print LogConnected; Print LogTablesCreated])
      | Raised OperationalError =>
          if (attempt <? MAX_RETRIES - 1)%nat
          then
            let (r, evs) := attempts create_all rest in
            (r, tried ++ [Print (LogNotReady RETRY_DELAY); Sleep RETRY_DELAY] ++ evs)
          else
            (Raised OperationalError,
             tried ++ [Print LogGivingUp; Print (LogErrorDetails OperationalError)])
      | Raised e => (Raised e, tried ++ [Print (LogUnexpected e)])
      end
  end.

Definition create_database_tables (create_all : nat -> result unit)
  : result unit * list event :=
  let (r, evs) := attempts create_all (seq 0 MAX_RETRIES) in
  (r, Print LogStarting :: evs).

(** The number of connection attempts in a trace. *)
Definition calls (evs : list event) : nat :=
  List.length (filter (fun e => match e with CreateAll => true | _ => false end) evs).

(** The pauses of a trace, in seconds. *)
Definition waits (evs : list event) : list Z :=
  flat_map (fun e => match e with Sleep n => [n] | _ => [] end) evs.


End CreateDb.

(** ** Feeding production traffic ([data-feeder/feeder.py]) *)

Module Feeder.

(** The constants of the module. *)
Record Settings := mkSettings {
  API_URL : string;
  NUM_RECORDS_TO_SEND : nat;
  BATCH_SIZE : nat;
  DELAY_PER_BATCH : Z
}.

(** The values the module gives them, with the default [API_HOST]. *)
Definition default_settings : Settings :=
  mkSettings "http://api:8000" 500 10 1.

Definition PREDICT_ENDPOINT (cfg : Settings) : string :=
  (API_URL cfg ++ "/predict")%string.

Record ProductionRecord := mkRecord {
  record_feature_1 : float;
  record_feature_2 : float
}.

Record World := mkWorld {
  (** the k-th call of [random.uniform], with its bounds *)
  uniform : nat -> float -> float -> float;
  (** the builtin [round(x, ndigits)] *)
  round_ndigits : float -> Z -> float;
  (** the n-th call of [requests.post] *)
  api_post : nat -> string -> ProductionRecord -> Z -> result Response
}.

Inductive log_line :=
| LogApiError (status : Z) (body : string)
| LogConnectionFailed (url : string)
| LogTimedOut
| LogUnexpected (e : exn)
| LogStarting
| LogTarget (endpoint : string)
| LogTotalRecords (n : nat)
| LogSendingBatch (batch_num size : nat)
| LogWaiting (delay : Z)
| LogComplete
| LogTotalSuccessful (n : nat)
| LogTotalFailed (n : nat)
| LogLoggingSuccessful
| LogLoggingFailed.

Inductive event :=
| Print (l : log_line)
| Post (url : string) (json : ProductionRecord) (timeout : Z)
| Sleep (seconds : Z).

(** A float literal with an integral value. *)
Definition float_lit (n : Z) : float := binary_normalize prec64 emax64 n 0 false.

(** [generate_production_data]: record [i] takes the draws [2 i] and [2 i + 1]. *)
Definition generate_production_data (w : World) (num_records : nat)
  : list ProductionRecord :=
  map (fun i =>
         mkRecord
           (round_ndigits w (uniform w (2 * i) (float_lit 5) (float_lit 15)) 3)
           (round_ndigits w (uniform w (2 * i + 1) (float_lit 10) (float_lit 30)) 3))
      (seq 0 num_records).

(** The loop of [send_batch_to_api] over the records left in the batch;
    [sent] counts the requests made so far. *)
Fixpoint send_records (w : World) (cfg : Settings) (batch : list ProductionRecord)
         (sent success_count failure_count : nat)
  : nat * nat * nat * list event :=
  match batch with
  | [] => (success_count, failure_count, sent, [])
  | record :: rest =>
      let '(success_count', failure_count', said) :=
        match api_post w sent (PREDICT_ENDPOINT cfg) record 5 with
        | Returned response =>
            if status_code response =? 200
            then (S success_count, failure_count, [])
            else (success_count, S failure_count,
                  [Print (LogApiError (status_code response) (response_text response))])
        | Raised ConnectionError =>
            (success_count, S failure_count, [Print (LogConnectionFailed (API_URL cfg))])
        | Raised Timeout => (success_count, S failure_count, [Print LogTimedOut])
        | Raised e => (success_count, S failure_count, [Print (LogUnexpected e)])
        end in
      let '(s, f, n, more) :=
        send_records w cfg rest (S sent) success_count' failure_count' in
      (s, f, n, Post (PREDICT_ENDPOINT cfg) record 5 :: said ++ more)
  end.

Definition send_batch_to_api (w : World) (cfg : Settings)
           (batch : list ProductionRecord) (sent : nat)
  : nat * nat * nat * list event :=
  send_records w cfg batch sent 0 0.

(** [range(i, stop, step)] for a positive step; [fuel] bounds its length. *)
Fixpoint py_range (fuel i stop step : nat) : list nat :=
  match fuel with
  | O => []
  | S fuel' =>
      if (i <? stop)%nat then i :: py_range fuel' (i + step) stop step else []
  end.

(** The loop of [simulate_production_traffic] over the batch offsets left. *)
Fixpoint traffic_loop (w : World) (cfg : Settings)
         (all_data : list ProductionRecord) (offsets : list nat)
         (sent total_successful total_failed : nat)
  : nat * nat * list event :=
  match offsets with
  | [] => (total_successful, total_failed, [])
  | i :: rest =>
      let batch := firstn (BATCH_SIZE cfg) (skipn i all_data) in
      let batch_num := (i / BATCH_SIZE cfg + 1)%nat in
      let '(success, failure, sent', said) := send_batch_to_api w cfg batch sent in
      let pause :=
        if (i + BATCH_SIZE cfg <? NUM_RECORDS_TO_SEND cfg)%nat
        then [Print (LogWaiting (DELAY_PER_BATCH cfg)); Sleep (DELAY_PER_BATCH cfg)]
        else [] in
      let '(s, f, more) :=
        traffic_loop w cfg all_data rest sent'
                     (total_successful + success) (total_failed + failure) in
      (s, f,
       Print (LogSendingBatch batch_num (List.length batch)) :: said ++ pause ++ more)
  end.

(** [range] refuses a zero step. *)
Definition simulate_production_traffic (w : World) (cfg : Settings)
  : result unit * list event :=
  let head := [Print LogStarting; Print (LogTarget (PREDICT_ENDPOINT cfg));
               Print (LogTotalRecords (NUM_RECORDS_TO_SEND cfg))] in
  let all_data := generate_production_data w (NUM_RECORDS_TO_SEND cfg) in
  if Nat.eqb (BATCH_SIZE cfg) 0
  then (Raised ValueError, head)
  else
    let '(total_successful, total_failed, said) :=
      traffic_loop w cfg all_data
        (py_range (NUM_RECORDS_TO_SEND cfg) 0 (NUM_RECORDS_TO_SEND cfg) (BATCH_SIZE cfg))
        0 0 0 in
    (Returned tt,
     head ++ said
     ++ [Print LogComplete; Print (LogTotalSuccessful total_successful);
         Print (LogTotalFailed total_failed);
         Print (if (0 <? total_successful)%nat
                then LogLoggingSuccessful else LogLoggingFailed)]).

(** The requests of a trace, in order. *)
Definition posted (evs : list event) : list ProductionRecord :=
  flat_map (fun e => match e with Post _ r _ => [r] | _ => [] end) evs.

(** The pauses of a trace, in seconds. *)
Definition pauses (evs : list event) : list Z :=
  flat_map (fun e => match e with Sleep n => [n] | _ => [] end) evs.

(** The sizes of the batches announced in a trace. *)
Definition batch_sizes (evs : list event) : list nat :=
  flat_map (fun e => match e with
                     | Print (LogSendingBatch _ size) => [size]
                     | _ => []
                     end) evs.

(** A request was answered with status 200. *)
Definition accepted (r : result Response) : bool :=
  match r with
  | Returned response => status_code response =? 200
  | Raised _ => false
  end.

(** The answers the service gives to the records of a batch, in the order of
    the requests, the first of which is request number [sent]. *)
Fixpoint answers (w : World) (cfg : Settings) (batch : list ProductionRecord)
         (sent : nat) : list (result Response) :=
  match batch with
  | [] => []
  | record :: rest =>
      api_post w sent (PREDICT_ENDPOINT cfg) record 5 :: answers w cfg rest (S sent)
  end.

(** The sizes of the batches that [n] records make when cut every [b]
    records: full batches, then what is left, if anything. *)
Definition full_batches (n b : nat) : list nat :=
  repeat b (n / b)%nat
  ++ (if Nat.eqb (n mod b) 0 then [] else [(n mod b)%nat]).

(** A service that accepts every other request. *)
Definition alternating_world : World :=
  mkWorld (fun _ _ _ => float_lit 7) (fun x _ => x)
          (fun k _ _ _ => if Nat.even k
                          then Returned (mkResponse true 200 "ok")
                          else Returned (mkResponse false 503 "busy")).

(** A service that accepts every request, and draws that are all 7.0. *)
Definition steady_world : World :=
  mkWorld (fun _ _ _ => float_lit 7) (fun x _ => x)
          (fun _ _ _ _ => Returned (mkResponse true 200 "ok")).

(** A service that cannot be reached. *)
Definition unreachable_world : World :=
  mkWorld (fun _ _ _ => float_lit 7) (fun x _ => x)
          (fun _ _ _ _ => Raised ConnectionError).

End Feeder.

(** ** Serving predictions ([api/main.py]) *)

Module Api.

Record PredictionRequest := mkRequest {
  request_feature_1 : float;
  request_feature_2 : float
}.

Record PredictionResponse := mkPrediction {
  response_prediction : Z;
  response_model_version : string
}.

(** What the endpoint hands to the framework: a response, an
    [HTTPException], or another exception that escapes the function. *)
Inductive outcome :=
| Responded (r : PredictionResponse)
| HTTPException (status : Z) (detail : string)
| Escaped (e : exn).

(** Where the logging of a prediction can break. *)
Inductive log_fault :=
| NoFault
| AddFails (e : exn)
| CommitFails (e : exn)
| RefreshFails (e : exn).

Record World := mkWorld {
  (** the loaded model, as [int(model.predict(data_df)[0])] of a request;
      [None] when no model was loaded *)
  model : option (PredictionRequest -> result Z);
  logging_fault : log_fault;
  (** the value the table gives [prediction_time] when a row does not set
      it (declared in [db_models], which is not among the sources) *)
  default_prediction_time : option datetime
}.

Inductive log_line :=
| LogPredictionError (e : exn)
| LogPlaceholder
| LogLogged (prediction : Z)
| LogLoggingFailed (e : exn).

Inductive event :=
| Print (l : log_line)
| Add (row : PredictionLog)
| Commit
| Refresh
| Rollback.

Record State := mkState {
  (** table [prediction_logs]: committed rows, oldest first *)
  logs : list PredictionLog;
  (** objects added to the session and not yet committed *)
  pending : list PredictionLog;
  trace : list event
}.

(** [isinstance(e, SQLAlchemyError)] *)
Definition is_sqlalchemy_error (e : exn) : bool :=
  match e with
  | OperationalError | SQLAlchemyError => true
  | _ => false
  end.

Definition say (s : State) (evs : list event) : State :=
  mkState (logs s) (pending s) (trace s ++ evs).

(** The body of the second [try] of [predict_and_log]: the exception it
    raises, if any, and the state it leaves. *)
Definition log_prediction (w : World) (new_log : PredictionLog) (s : State)
  : option exn * State :=
  match logging_fault w with
  | AddFails e => (Some e, say s [Add new_log])
  | CommitFails e =>
      (Some e, mkState (logs s) (pending s ++ [new_log])
                       (trace s ++ [Add new_log; Commit]))
  | RefreshFails e =>
      (Some e, mkState (logs s ++ pending s ++ [new_log]) []
                       (trace s ++ [Add new_log; Commit; Refresh]))
  | NoFault =>
      (None, mkState (logs s ++ pending s ++ [new_log]) []
                     (trace s ++ [Add new_log; Commit; Refresh;
                                  Print (LogLogged
                                           (match prediction new_log with
                                            | Some p => p
                                            | None => 0
                                            end))]))
  end.

(** Steps 3 and 4 of [predict_and_log]. *)
Definition log_and_respond (MODEL_VERSION : string) (w : World)
           (request : PredictionRequest) (prediction_result : Z) (s : State)
  : outcome * State :=
  let new_log :=
    mkLog (Some (request_feature_1 request)) (Some (request_feature_2 request))
          (Some prediction_result) None (default_prediction_time w)
          (Some MODEL_VERSION) in
  match log_prediction w new_log s with
  | (None, s') => (Responded (mkPrediction prediction_result MODEL_VERSION), s')
  | (Some e, s') =>
      if is_sqlalchemy_error e
      then (Responded (mkPrediction prediction_result MODEL_VERSION),
            mkState (logs s') [] (trace s' ++ [Rollback; Print (LogLoggingFailed e)]))
      else (Escaped e, s')
  end.

Definition predict_and_log (MODEL_VERSION : string) (w : World)
           (request : PredictionRequest) (s : State) : outcome * State :=
  match model w with
  | Some predict =>
      match predict request with
      | Returned prediction_result =>
          log_and_respond MODEL_VERSION w request prediction_result s
      | Raised e =>
          (HTTPException 500 "Internal Model Prediction Error.",
           say s [Print (LogPredictionError e)])
      end
  | None =>
      log_and_respond MODEL_VERSION w request 0 (say s [Print LogPlaceholder])
  end.

(** The prediction the endpoint computes, when it computes one. *)
Definition predicted (w : World) (request : PredictionRequest) : option Z :=
  match model w with
  | Some predict =>
      match predict request with
      | Returned p => Some p
      | Raised _ => None
      end
  | None => Some 0
  end.

Definition is_session_call (e : event) : bool :=
  match e with
  | Add _ | Commit | Refresh | Rollback => true
  | Print _ => false
  end.

(** The same world with another logging fault. *)
Definition with_fault (w : World) (f : log_fault) : World :=
  mkWorld (model w) f (default_prediction_time w).

(** The exception a fault raises. *)
Definition fault_exn (f : log_fault) : option exn :=
  match f with
  | NoFault => None
  | AddFails e | CommitFails e | RefreshFails e => Some e
  end.

(** What a trace added to the one it started from. *)
Definition events_since (s s' : State) : list event :=
  skipn (List.length (trace s)) (trace s').

(** A model that answers 1, a store that loses the connection at commit. *)
Definition sample_world : World :=
  mkWorld (Some (fun _ => Returned 1)) (CommitFails OperationalError)
          (Some 1700000000000000).

(** A model that cannot score the request. *)
Definition broken_model_world : World :=
  mkWorld (Some (fun _ => Raised ValueError)) NoFault (Some 1700000000000000).

Definition sample_request : PredictionRequest := mkRequest float_one float_two.

Definition empty_state : State := mkState [] [] [].

End Api.

(** ** Proof automation *)

(** Normal form of a trace: the starting trace followed by one explicit list. *)
Ltac trace_nf :=
  cbn [set_trace set_ticks set_session set_metrics trace];
  rewrite <- ?app_assoc; cbn [app].

(** Run the monadic plumbing of a computation applied to a state. *)
Ltac run_step :=
  cbv beta iota delta [bind ret raise lift emit print try_except try_finally];
  cbn [set_trace set_ticks set_session set_metrics
       prediction_logs monitoring_metrics session_new session_txn ticks trace
       fst snd].

(** Filters over a normalised trace. *)
Ltac filters :=
  unfold alert_attempts, posts, store_writes in *;
  cbn [filter is_alert_attempt is_post is_store_write is_report_run is_read_sql];
  rewrite ?filter_app;
  cbn [filter is_alert_attempt is_post is_store_write is_report_run is_read_sql].

(** * Properties *)

(** ** Sample runs *)

Example float_of_int_one : float_of_int 1 = Returned float_one.
Proof. reflexivity. Qed.

Example json_dumps_summary_sample :
  json_dumps_summary 100 2
  = ("{" ++ quote ++ "rows_checked" ++ quote ++ ": 100, "
         ++ quote ++ "drifted_features" ++ quote ++ ": 2}")%string.
Proof. reflexivity. Qed.

Example threshold_two_is_strict :
  int_gt_float 2 float_two = false /\ int_gt_float 3 float_two = true.
Proof. split; reflexivity. Qed.

Example nan_threshold_never_alerts :
  int_gt_float 1000 S754_nan = false.
Proof. reflexivity. Qed.

(** A cycle in which everything works writes the two rows and posts once. *)
Example sample_cycle :
  let s' := snd (main_monitoring_job hook_config sample_world sample_state) in
  map metric_name (monitoring_metrics s') = ["data_drift_summary"; "prediction_count"]
  /\ map metric_value (monitoring_metrics s') = [float_one; float_one]
  /\ List.length (posts (trace s')) = 1%nat
  /\ store_writes (trace s')
     = [EvAddAll (monitoring_metrics s'); EvCommit].
Proof. vm_compute. repeat split; reflexivity. Qed.

(** A failed commit and a webhook that times out: no row, one post, and the
    cycle still returns. *)
Example flaky_cycle :
  let run := main_monitoring_job hook_config flaky_world sample_state in
  fst run = Returned tt
  /\ monitoring_metrics (snd run) = []
  /\ List.length (posts (trace (snd run))) = 1%nat
  /\ In EvRollback (trace (snd run))
  /\ In (EvPrint (LogSlackError Timeout)) (trace (snd run)).
Proof. vm_compute. repeat split; auto 20. Qed.

(** The first insert goes through and the second fails: still no row. *)
Example half_inserted_cycle :
  monitoring_metrics
    (snd (main_monitoring_job hook_config
            (with_fault sample_world (InsertFails 1 SQLAlchemyError))
            sample_state)) = [].
Proof. reflexivity. Qed.

(** The detector raises: the session is closed and the exception escapes. *)
Example detector_failure_escapes :
  let w := mkWorld (fun _ => true) (fun _ => Returned sample_reference)
                   sample_clock None (fun _ _ _ => Raised ValueError) NoFault
                   (fun _ _ _ => Returned (mkResponse true 200 "ok")) in
  fst (main_monitoring_job hook_config w sample_state) = Raised ValueError
  /\ exit_status (fst (script hook_config w sample_state)) = 1.
Proof. split; reflexivity. Qed.

(** ** Traces *)

Lemma events_since_app (s s' : State) (evs : list event) :
  trace s' = trace s ++ evs -> events_since s s' = evs.
Proof.
  intros H. unfold events_since. rewrite H.
  rewrite skipn_app, skipn_all, Nat.sub_diag. reflexivity.
Qed.

(** ** The window fetcher *)

Lemma window_start_inv (end_time : datetime) (h : Z) (start_time : datetime) :
  window_start end_time h = Returned start_time ->
  start_time = end_time - timedelta_hours h
  /\ datetime_min <= start_time <= datetime_max.
Proof.
  unfold window_start, timedelta, datetime_sub.
  destruct ((-999999999 <=? h / 24) && (h / 24 <=? 999999999)); [|discriminate].
  destruct ((datetime_min <=? end_time - timedelta_hours h)
            && (end_time - timedelta_hours h <=? datetime_max)) eqn:Hr;
    [|discriminate].
  intros H; inversion H; subst.
  apply andb_true_iff in Hr. rewrite !Z.leb_le in Hr. auto.
Qed.

Lemma window_start_raises (end_time : datetime) (h : Z) (e : exn) :
  window_start end_time h = Raised e -> e = OverflowError.
Proof.
  unfold window_start, timedelta, datetime_sub.
  destruct ((-999999999 <=? h / 24) && (h / 24 <=? 999999999));
    [|intros H; inversion H; reflexivity].
  destruct ((datetime_min <=? end_time - timedelta_hours h)
            && (end_time - timedelta_hours h <=? datetime_max));
    [discriminate|intros H; inversion H; reflexivity].
Qed.

Lemma window_start_eq (end_time : datetime) (h : Z) :
  window_start end_time h
  = if window_representable end_time h
    then Returned (end_time - timedelta_hours h)
    else Raised OverflowError.
Proof.
  unfold window_start, window_representable, timedelta, datetime_sub.
  destruct ((-999999999 <=? h / 24) && (h / 24 <=? 999999999)); reflexivity.
Qed.

Lemma window_start_representable (end_time : datetime) (h : Z) :
  window_representable end_time h = true ->
  window_start end_time h = Returned (end_time - timedelta_hours h).
Proof. intros H. rewrite window_start_eq, H. reflexivity. Qed.

Lemma fetched_frame_eq (w : World) (h : Z) (s : State) :
  fetched_frame w h s =
  match window_start (clock w (ticks s)) h with
  | Raised _ => empty_frame
  | Returned start_time =>
      match read_sql_fault w with
      | Some _ => empty_frame
      | None => frame_of_logs
                  (select_window (prediction_logs s) start_time (clock w (ticks s)))
      end
  end.
Proof.
  unfold fetched_frame, fetch_data_from_db, pd_read_sql, datetime_now, window_start.
  run_step.
  destruct (timedelta h) as [delta|e0]; run_step; [|reflexivity].
  destruct (datetime_sub (clock w (ticks s)) delta) as [st|e0]; run_step;
    [|reflexivity].
  destruct (read_sql_fault w) as [e|]; run_step; [destruct e|]; reflexivity.
Qed.

Lemma fetched_frame_ext (w : World) (h : Z) (s s' : State) :
  prediction_logs s' = prediction_logs s ->
  ticks s' = ticks s ->
  fetched_frame w h s' = fetched_frame w h s.
Proof. intros Hl Ht. rewrite !fetched_frame_eq, Hl, Ht. reflexivity. Qed.

(** A fetch whose frame has rows did compute its bounds. *)
Lemma fetched_rows_window (w : World) (h : Z) (s : State) :
  df_empty (fetched_frame w h s) = false ->
  window_start (clock w (ticks s)) h
    = Returned (clock w (ticks s) - timedelta_hours h).
Proof.
  rewrite fetched_frame_eq.
  destruct (window_start (clock w (ticks s)) h) as [st|e] eqn:Hst;
    [|discriminate].
  intros _. destruct (window_start_inv _ _ _ Hst) as (-> & _). reflexivity.
Qed.

(** With representable bounds the fetch returns, whatever the query does. *)
Lemma fetch_run (w : World) (h : Z) (s : State) (start_time : datetime) :
  window_start (clock w (ticks s)) h = Returned start_time ->
  exists evs,
    fetch_data_from_db w h s =
      (Returned (fetched_frame w h s, start_time, clock w (ticks s)),
       mkState (prediction_logs s) (monitoring_metrics s) (session_new s)
               (session_txn s) (S (ticks s)) (trace s ++ evs))
    /\ alert_attempts evs = [] /\ posts evs = [] /\ store_writes evs = []
    /\ filter is_report_run evs = []
    /\ filter is_read_sql evs = [EvReadSql start_time (clock w (ticks s))].
Proof.
  intros Hst. rewrite fetched_frame_eq, Hst. revert Hst.
  unfold fetch_data_from_db, pd_read_sql, datetime_now, window_start.
  run_step.
  destruct (timedelta h) as [delta|e0]; run_step; [|discriminate].
  intros Hst. rewrite Hst. run_step.
  destruct (read_sql_fault w) as [e|]; run_step; [destruct e|]; run_step;
    trace_nf; eexists; (split; [reflexivity|]); cbn; auto 6.
Qed.

(** Without them it raises before it prints or queries anything. *)
Lemma fetch_raises (w : World) (h : Z) (s : State) (e : exn) :
  window_start (clock w (ticks s)) h = Raised e ->
  fetch_data_from_db w h s = (Raised e, set_ticks s (S (ticks s))).
Proof.
  unfold fetch_data_from_db, datetime_now, window_start.
  run_step.
  destruct (timedelta h) as [delta|e0]; run_step.
  - intros Hst. rewrite Hst. reflexivity.
  - intros Hst. inversion Hst. reflexivity.
Qed.

(** What a returned fetch says about its bounds and its frame. *)
Lemma fetch_returned (w : World) (h : Z) (s : State)
      (df : DataFrame) (start_time end_time : datetime) :
  fst (fetch_data_from_db w h s) = Returned (df, start_time, end_time) ->
  window_start (clock w (ticks s)) h = Returned start_time
  /\ end_time = clock w (ticks s)
  /\ df = fetched_frame w h s.
Proof.
  intros Hret.
  destruct (window_start (clock w (ticks s)) h) as [st|e] eqn:Hst.
  - destruct (fetch_run w h s st Hst) as (evs & Hrun & _).
    rewrite Hrun in Hret. cbn [fst] in Hret. inversion Hret; subst. auto.
  - rewrite (fetch_raises w h s e Hst) in Hret. discriminate Hret.
Qed.

(** ** The alert dispatcher *)

Lemma set_trace_nil (s : State) : set_trace s (trace s ++ []) = s.
Proof. destruct s; unfold set_trace; cbn. rewrite app_nil_r. reflexivity. Qed.

Lemma send_slack_alert_run (cfg : Config) (w : World) (msg : AlertText) (s : State) :
  exists evs,
    send_slack_alert cfg w msg s = (Returned tt, set_trace s (trace s ++ evs))
    /\ List.length (alert_attempts evs) = 1%nat
    /\ store_writes evs = []
    /\ filter is_report_run evs = []
    /\ posts evs =
         if str_falsy (SLACK_WEBHOOK_URL cfg) then []
         else [EvPost (SLACK_WEBHOOK_URL cfg)
                      (mkPayload "Vigil Drift Bot" ":warning:" msg) 5].
Proof.
  unfold send_slack_alert, requests_post.
  destruct (str_falsy (SLACK_WEBHOOK_URL cfg)); run_step.
  - eexists; split; [reflexivity|]. cbn. auto.
  - destruct (http_post w _ _ _) as [resp|e]; run_step.
    + destruct (ok resp); run_step; trace_nf;
        (eexists; split; [reflexivity|]); cbn; auto.
    + trace_nf. eexists; split; [reflexivity|]. cbn. auto.
Qed.

Lemma check_for_drift_and_alert_run (cfg : Config) (w : World) (score : float)
      (n : Z) (st en : datetime) (s : State) :
  exists evs,
    check_for_drift_and_alert cfg w score n st en s
      = (Returned tt, set_trace s (trace s ++ evs))
    /\ List.length (alert_attempts evs) =
         (if int_gt_float n (DRIFT_THRESHOLD cfg) then 1%nat else 0%nat)
    /\ store_writes evs = []
    /\ filter is_report_run evs = []
    /\ posts evs =
         if int_gt_float n (DRIFT_THRESHOLD cfg)
            && negb (str_falsy (SLACK_WEBHOOK_URL cfg))
         then [alert_post cfg score n st en]
         else [].
Proof.
  unfold check_for_drift_and_alert, alert_post.
  destruct (int_gt_float n (DRIFT_THRESHOLD cfg)).
  - destruct (send_slack_alert_run cfg w (mkAlert n score st en) s)
      as (evs & Hrun & Hne & Hw & Hr & Hp).
    exists evs. rewrite Hrun, Hp. cbn [andb].
    destruct (str_falsy (SLACK_WEBHOOK_URL cfg)); cbn [negb]; auto.
  - exists []. unfold ret. rewrite set_trace_nil. cbn [andb]. auto.
Qed.

(** ** The metrics recorder *)

Lemma read_summary_inv (report : report_dict) (score : float) (n rows : Z) (v : float) :
  read_summary report = Returned (score, n, rows, v) ->
  exists drift_metric quality,
    metric_result report 0 = Returned drift_metric
    /\ score = (if py_bool (dict_get drift_metric "dataset_drift" (VBool false))
                then float_one else float_zero)
    /\ py_int (dict_get drift_metric "number_of_drifted_features" (VInt 0)) = Returned n
    /\ metric_result report 1 = Returned quality
    /\ py_int (dict_get quality "rows_count" (VInt 0)) = Returned rows
    /\ float_of_int rows = Returned v.
Proof.
  unfold read_summary.
  destruct (metric_result report 0) as [dm|] eqn:Hdm; [|discriminate].
  destruct (py_int (dict_get dm _ _)) as [n'|] eqn:Hn; [|discriminate].
  destruct (metric_result report 1) as [q|] eqn:Hq; [|discriminate].
  destruct (py_int (dict_get q _ _)) as [rows'|] eqn:Hrows; [|discriminate].
  destruct (float_of_int rows') as [v'|] eqn:Hv; [|discriminate].
  intros H; inversion H; subst. exists dm, q. repeat split; assumption.
Qed.

(** With a readable report the recorder runs its transaction, leaves the
    session clean, and hands over to the alert check in every case. *)
Lemma process_and_log_metrics_run (cfg : Config) (w : World) (report : report_dict)
      (st en : datetime) (s : State) (score : float) (n rows : Z) (v : float) :
  read_summary report = Returned (score, n, rows, v) ->
  session_new s = [] ->
  session_txn s = [] ->
  let drift_log :=
    mkMetric (clock w (ticks s)) score n "data_drift_summary" score
             (Some (json_dumps_summary rows n)) (MODEL_VERSION cfg) st en in
  let count_log :=
    mkMetric (clock w (S (ticks s))) float_zero 0 "prediction_count" v None
             (MODEL_VERSION cfg) st en in
  exists s1 evs,
    process_and_log_metrics cfg w report st en s
      = check_for_drift_and_alert cfg w score n st en s1
    /\ trace s1 = trace s ++ evs
    /\ alert_attempts evs = [] /\ posts evs = []
    /\ filter is_report_run evs = []
    /\ prediction_logs s1 = prediction_logs s
    /\ session_new s1 = [] /\ session_txn s1 = []
    /\ monitoring_metrics s1 =
         (if fault_strikes (metrics_fault w) 2 then monitoring_metrics s
          else monitoring_metrics s ++ [drift_log; count_log])
    /\ store_writes evs =
         EvAddAll [drift_log; count_log]
         :: match metrics_fault w with
            | AddAllFails _ => [EvRollback]
            | f => if fault_strikes f 2 then [EvCommit; EvRollback] else [EvCommit]
            end.
Proof.
  intros Hsum Hnew Htxn drift_log count_log.
  destruct (read_summary_inv _ _ _ _ _ Hsum)
    as (dm & q & Hdm & Hscore & Hn & Hq & Hrows & Hv).
  unfold process_and_log_metrics, datetime_now, db_add_all, db_commit, db_rollback.
  rewrite Hdm; run_step. rewrite Hn; run_step. rewrite Hq; run_step.
  rewrite Hrows; run_step. rewrite Hv; run_step. rewrite <- Hscore.
  fold drift_log count_log.
  destruct (metrics_fault w) as [|e|k e|e]; run_step; rewrite ?Hnew, ?Htxn;
    cbn [app List.length fault_strikes].
  - trace_nf. eexists; eexists; split; [reflexivity|]. cbn. auto 10.
  - trace_nf. eexists; eexists; split; [reflexivity|]. cbn. auto 10.
  - destruct (k <? 2)%nat; run_step; trace_nf;
      (eexists; eexists; split; [reflexivity|]); cbn; auto 10.
  - trace_nf. eexists; eexists; split; [reflexivity|]. cbn. auto 10.
Qed.

(** With an unreadable report the recorder raises before it touches the
    store or the webhook. *)
Lemma process_and_log_metrics_raises (cfg : Config) (w : World)
      (report : report_dict) (st en : datetime) (s : State) (e : exn) :
  read_summary report = Raised e ->
  exists s1 evs,
    process_and_log_metrics cfg w report st en s = (Raised e, s1)
    /\ trace s1 = trace s ++ evs
    /\ alert_attempts evs = [] /\ posts evs = [] /\ store_writes evs = []
    /\ filter is_report_run evs = []
    /\ monitoring_metrics s1 = monitoring_metrics s.
Proof.
  unfold read_summary, process_and_log_metrics, datetime_now.
  destruct (metric_result report 0) as [dm|e0]; run_step;
    [|intros H; inversion H; subst; exists s, []; rewrite app_nil_r; cbn; auto 10].
  destruct (py_int (dict_get dm _ _)) as [n|e0]; run_step;
    [|intros H; inversion H; subst; exists s, []; rewrite app_nil_r; cbn; auto 10].
  destruct (metric_result report 1) as [q|e0]; run_step;
    [|intros H; inversion H; subst; exists s, []; rewrite app_nil_r; cbn; auto 10].
  destruct (py_int (dict_get q _ _)) as [rows|e0]; run_step;
    [|intros H; inversion H; subst; exists s, []; rewrite app_nil_r; cbn; auto 10].
  destruct (float_of_int rows) as [v|e0]; run_step; [discriminate|].
  intros H; inversion H; subst.
  eexists; eexists; split; [reflexivity|]. cbn. auto 10.
Qed.

(** ** The orchestrator *)

Lemma main_reaches_recorder (cfg : Config) (w : World) (s : State)
      (report : report_dict) :
  reaches_recorder cfg w s report ->
  exists s0 pre,
    main_monitoring_job cfg w s =
      try_finally
        (process_and_log_metrics cfg w report
           (clock w (ticks s) - timedelta_hours (BATCH_HOURS cfg))
           (clock w (ticks s)))
        (db_close ;; print LogJobFinished) s0
    /\ trace s0 = trace s ++ pre
    /\ alert_attempts pre = [] /\ posts pre = [] /\ store_writes pre = []
    /\ monitoring_metrics s0 = monitoring_metrics s
    /\ prediction_logs s0 = prediction_logs s
    /\ session_new s0 = [] /\ session_txn s0 = []
    /\ ticks s0 = S (ticks s).
Proof.
  intros (Hpath & reference & Hcsv & Hrows & Hrep).
  pose proof (fetched_rows_window w (BATCH_HOURS cfg) s Hrows) as Hst.
  unfold main_monitoring_job, os_path_exists, pd_read_csv, SessionLocal.
  run_step. rewrite Hpath. cbn [negb]. run_step. rewrite Hcsv. run_step.
  match goal with
  | |- context [fetch_data_from_db ?w ?h ?s0] =>
      destruct (fetch_run w h s0 _ Hst) as (evs & Hrun & Ha & Hp & Hw & _);
      rewrite Hrun; clear Hrun;
      rewrite (fetched_frame_ext w h s s0) by reflexivity
  end.
  cbn [set_trace set_ticks set_session set_metrics
       prediction_logs monitoring_metrics session_new session_txn ticks trace].
  rewrite Hrows.
  unfold run_evidently_report, Report_run.
  destruct (drift_inputs reference (fetched_frame w (BATCH_HOURS cfg) s))
    as [[r c] cm].
  run_step. rewrite Hrep. run_step. trace_nf.
  eexists; eexists; split; [reflexivity|].
  cbn [trace monitoring_metrics prediction_logs session_new session_txn ticks].
  split; [reflexivity|].
  filters. rewrite Ha, Hp, Hw. cbn. auto 10.
Qed.

Lemma reaches_recorder_dec (cfg : Config) (w : World) (s : State) :
  (exists report, reaches_recorder cfg w s report)
  \/ (forall report, ~ reaches_recorder cfg w s report).
Proof.
  unfold reaches_recorder.
  destruct (path_exists w (REFERENCE_DATA_PATH cfg)) eqn:Hpath;
    [|right; intros report (H & _); discriminate].
  destruct (read_csv w (REFERENCE_DATA_PATH cfg)) as [reference|e] eqn:Hcsv;
    [|right; intros report (_ & r & H & _); discriminate].
  destruct (df_empty (fetched_frame w (BATCH_HOURS cfg) s)) eqn:Hrows;
    [right; intros report (_ & r & _ & H & _); discriminate|].
  destruct (let '(r, c, cm) :=
              drift_inputs reference (fetched_frame w (BATCH_HOURS cfg) s) in
            report_run w r c cm) as [report|e] eqn:Hrep.
  - left. exists report. split; [reflexivity|]. exists reference. auto.
  - right. intros report (_ & r & Hr & _ & H). inversion Hr; subst r.
    rewrite Hrep in H. discriminate.
Qed.

(** A cycle that does not get a report from the detector writes nothing and
    alerts nobody. *)
Lemma main_without_recorder (cfg : Config) (w : World) (s : State) :
  (forall report, ~ reaches_recorder cfg w s report) ->
  exists evs,
    trace (snd (main_monitoring_job cfg w s)) = trace s ++ evs
    /\ alert_attempts evs = [] /\ posts evs = [] /\ store_writes evs = []
    /\ monitoring_metrics (snd (main_monitoring_job cfg w s)) = monitoring_metrics s.
Proof.
  intros Hno.
  unfold main_monitoring_job, os_path_exists, pd_read_csv, SessionLocal, db_close.
  run_step.
  destruct (path_exists w (REFERENCE_DATA_PATH cfg)) eqn:Hpath; cbn [negb]; run_step;
    [|trace_nf; eexists; split; [reflexivity|]; cbn; auto].
  destruct (read_csv w (REFERENCE_DATA_PATH cfg)) as [reference|e] eqn:Hcsv; run_step;
    [|trace_nf; eexists; split; [reflexivity|]; cbn; auto].
  destruct (window_start (clock w (ticks s)) (BATCH_HOURS cfg)) as [st|e] eqn:Hst;
    [|match goal with
      | |- context [fetch_data_from_db ?w ?h ?s0] =>
          rewrite (fetch_raises w h s0 e Hst)
      end;
      run_step; trace_nf; eexists; split; [reflexivity|]; cbn; auto].
  match goal with
  | |- context [fetch_data_from_db ?w ?h ?s0] =>
      destruct (fetch_run w h s0 st Hst) as (evs & Hrun & Ha & Hp & Hw & _);
      rewrite Hrun; clear Hrun;
      rewrite (fetched_frame_ext w h s s0) by reflexivity
  end.
  cbn [set_trace set_ticks set_session set_metrics
       prediction_logs monitoring_metrics session_new session_txn ticks trace].
  destruct (df_empty (fetched_frame w (BATCH_HOURS cfg) s)) eqn:Hrows; run_step.
  - trace_nf. eexists; split; [reflexivity|].
    filters. rewrite Ha, Hp, Hw. cbn. auto.
  - unfold run_evidently_report, Report_run.
    destruct (drift_inputs reference (fetched_frame w (BATCH_HOURS cfg) s))
      as [[r c] cm] eqn:Hin.
    run_step.
    destruct (report_run w r c cm) as [report|e] eqn:Hrep; run_step.
    + exfalso. apply (Hno report). split; [assumption|].
      exists reference. rewrite Hin. auto.
    + trace_nf. eexists; split; [reflexivity|].
      filters. rewrite Ha, Hp, Hw. cbn. auto.
Qed.

(** A cycle with a readable report: the recorder's transaction, then the
    alert check, then the session is closed; the cycle returns normally
    whatever the store and the webhook do. *)
Lemma cycle_run (cfg : Config) (w : World) (s : State) (report : report_dict)
      (score : float) (n rows : Z) (v : float) :
  reaches_recorder cfg w s report ->
  read_summary report = Returned (score, n, rows, v) ->
  let st := clock w (ticks s) - timedelta_hours (BATCH_HOURS cfg) in
  let en := clock w (ticks s) in
  let drift_log :=
    mkMetric (clock w (S (ticks s))) score n "data_drift_summary" score
             (Some (json_dumps_summary rows n)) (MODEL_VERSION cfg) st en in
  let count_log :=
    mkMetric (clock w (S (S (ticks s)))) float_zero 0 "prediction_count" v None
             (MODEL_VERSION cfg) st en in
  exists before after,
    fst (main_monitoring_job cfg w s) = Returned tt
    /\ trace (snd (main_monitoring_job cfg w s))
         = trace s ++ (before ++ after) ++ [EvClose; EvPrint LogJobFinished]
    /\ monitoring_metrics (snd (main_monitoring_job cfg w s)) =
         (if fault_strikes (metrics_fault w) 2 then monitoring_metrics s
          else monitoring_metrics s ++ [drift_log; count_log])
    /\ store_writes before =
         EvAddAll [drift_log; count_log]
         :: match metrics_fault w with
            | AddAllFails _ => [EvRollback]
            | f => if fault_strikes f 2 then [EvCommit; EvRollback] else [EvCommit]
            end
    /\ alert_attempts before = [] /\ posts before = []
    /\ store_writes after = []
    /\ List.length (alert_attempts after) =
         (if int_gt_float n (DRIFT_THRESHOLD cfg) then 1%nat else 0%nat)
    /\ posts after =
         if int_gt_float n (DRIFT_THRESHOLD cfg)
            && negb (str_falsy (SLACK_WEBHOOK_URL cfg))
         then [alert_post cfg score n st en]
         else [].
Proof.
  intros Hreach Hsum st en drift_log count_log.
  destruct (main_reaches_recorder cfg w s report Hreach)
    as (s0 & pre & Hmain & Htr0 & Ha0 & Hp0 & Hw0 & Hm0 & _ & Hnew & Htxn & Htick).
  destruct (process_and_log_metrics_run cfg w report st en s0 score n rows v
              Hsum Hnew Htxn)
    as (s1 & evs1 & Hproc & Htr1 & Ha1 & Hp1 & _ & _ & _ & _ & Hm1 & Hw1).
  destruct (check_for_drift_and_alert_run cfg w score n st en s1)
    as (evs2 & Hcheck & Ha2 & Hw2 & _ & Hp2).
  rewrite Htick in Hm1, Hw1. fold drift_log count_log in Hm1, Hw1.
  exists (pre ++ evs1), evs2.
  rewrite Hmain. unfold try_finally. fold st en. rewrite Hproc, Hcheck.
  unfold db_close. run_step. rewrite Htr1, Htr0, Hm1, Hm0.
  split; [reflexivity|].
  split; [rewrite <- !app_assoc; reflexivity|].
  split; [reflexivity|].
  unfold alert_attempts, posts, store_writes in *.
  rewrite !filter_app, Hw0, Hw1, Ha0, Ha1, Hp0, Hp1. cbn [app].
  auto 10.
Qed.

(** A cycle whose report cannot be read stops before the store and the
    webhook are used. *)
Lemma cycle_unreadable (cfg : Config) (w : World) (s : State)
      (report : report_dict) (e : exn) :
  reaches_recorder cfg w s report ->
  read_summary report = Raised e ->
  exists evs,
    fst (main_monitoring_job cfg w s) = Raised e
    /\ trace (snd (main_monitoring_job cfg w s)) = trace s ++ evs
    /\ alert_attempts evs = [] /\ posts evs = [] /\ store_writes evs = []
    /\ monitoring_metrics (snd (main_monitoring_job cfg w s)) = monitoring_metrics s.
Proof.
  intros Hreach Hsum.
  destruct (main_reaches_recorder cfg w s report Hreach)
    as (s0 & pre & Hmain & Htr0 & Ha0 & Hp0 & Hw0 & Hm0 & _).
  destruct (process_and_log_metrics_raises cfg w report
              (clock w (ticks s) - timedelta_hours (BATCH_HOURS cfg))
              (clock w (ticks s)) s0 e Hsum)
    as (s1 & evs1 & Hproc & Htr1 & Ha1 & Hp1 & Hw1 & _ & Hm1).
  exists (pre ++ evs1 ++ [EvClose; EvPrint LogJobFinished]).
  rewrite Hmain. unfold try_finally. rewrite Hproc.
  unfold db_close. run_step. rewrite Htr1, Htr0, Hm1, Hm0.
  split; [reflexivity|].
  split; [rewrite <- !app_assoc; reflexivity|].
  unfold alert_attempts, posts, store_writes in *.
  rewrite !filter_app, Hw0, Hw1, Ha0, Ha1, Hp0, Hp1. cbn. auto.
Qed.

(** A cycle that loads the reference and fetches an empty frame returns
    right after the fetch. *)
Lemma main_skips_empty (cfg : Config) (w : World) (s : State)
      (reference : DataFrame) (start_time : datetime) :
  path_exists w (REFERENCE_DATA_PATH cfg) = true ->
  read_csv w (REFERENCE_DATA_PATH cfg) = Returned reference ->
  window_start (clock w (ticks s)) (BATCH_HOURS cfg) = Returned start_time ->
  df_empty (fetched_frame w (BATCH_HOURS cfg) s) = true ->
  fst (main_monitoring_job cfg w s) = Returned tt
  /\ exists pre,
       trace (snd (main_monitoring_job cfg w s))
         = trace s ++ pre ++ [EvPrint LogNoNewData; EvClose; EvPrint LogJobFinished]
       /\ filter is_read_sql pre = [EvReadSql start_time (clock w (ticks s))]
       /\ filter is_report_run pre = [].
Proof.
  intros Hpath Hcsv Hst Hempty.
  unfold main_monitoring_job, os_path_exists, pd_read_csv, SessionLocal, db_close.
  run_step. rewrite Hpath. cbn [negb]. run_step. rewrite Hcsv. run_step.
  match goal with
  | |- context [fetch_data_from_db ?w ?h ?s0] =>
      destruct (fetch_run w h s0 start_time Hst)
        as (fevs & Hrun & _ & _ & _ & Hrep & Hsql);
      rewrite Hrun; clear Hrun;
      rewrite (fetched_frame_ext w h s s0) by reflexivity
  end.
  cbn [set_trace set_ticks set_session set_metrics
       prediction_logs monitoring_metrics session_new session_txn ticks trace] in *.
  rewrite Hempty. run_step. trace_nf.
  split; [reflexivity|].
  exists ([EvPrint LogJobStarting; EvPathExists (REFERENCE_DATA_PATH cfg);
           EvReadCsv (REFERENCE_DATA_PATH cfg);
           EvPrint (LogReferenceLoaded (df_len reference)); EvSessionLocal] ++ fevs).
  split; [rewrite <- app_assoc; reflexivity|].
  rewrite !filter_app, Hrep, Hsql. split; reflexivity.
Qed.

(** The state in which the [__main__] block calls the job. *)
Lemma script_run (cfg : Config) (w : World) (s : State) :
  script cfg w s =
  main_monitoring_job cfg w
    (set_trace s (trace s ++ [EvPrint LogWaiting; EvSleep 15])).
Proof. unfold script. run_step. trace_nf. reflexivity. Qed.

Lemma reaches_recorder_ext (cfg : Config) (w : World) (s s' : State)
      (report : report_dict) :
  prediction_logs s' = prediction_logs s ->
  ticks s' = ticks s ->
  reaches_recorder cfg w s report ->
  reaches_recorder cfg w s' report.
Proof.
  intros Hl Ht. unfold reaches_recorder.
  rewrite (fetched_frame_ext w (BATCH_HOURS cfg) s s' Hl Ht). tauto.
Qed.

(** * The claims *)

(** ** Empty windows *)

(** C1. A cycle whose fetch returns a window of zero rows leaves the metrics
    table as it was, opens no metrics transaction and makes no alert attempt;
    when the reference was loaded, the cycle returns right after the fetch,
    its last steps being the no-new-data line and the closing of the
    session. *)
Theorem empty_window_no_side_effects (cfg : Config) (w : World) (s : State)
        (df : DataFrame) (start_time end_time : datetime) :
  fst (fetch_data_from_db w (BATCH_HOURS cfg) s) = Returned (df, start_time, end_time) ->
  df_len df = 0%nat ->
  let s' := snd (main_monitoring_job cfg w s) in
  monitoring_metrics s' = monitoring_metrics s
  /\ store_writes (events_since s s') = []
  /\ alert_attempts (events_since s s') = []
  /\ posts (events_since s s') = []
  /\ (forall reference,
        path_exists w (REFERENCE_DATA_PATH cfg) = true ->
        read_csv w (REFERENCE_DATA_PATH cfg) = Returned reference ->
        fst (main_monitoring_job cfg w s) = Returned tt
        /\ exists pre,
             events_since s s'
               = pre ++ [EvPrint LogNoNewData; EvClose; EvPrint LogJobFinished]
             /\ filter is_read_sql pre =
                  [EvReadSql (clock w (ticks s) - timedelta_hours (BATCH_HOURS cfg))
                             (clock w (ticks s))]
             /\ filter is_report_run pre = []).
Proof.
  intros Hfetch Hlen s'.
  destruct (fetch_returned w (BATCH_HOURS cfg) s df start_time end_time Hfetch)
    as (Hst & _ & Hdf).
  destruct (window_start_inv _ _ _ Hst) as (Hstart & _).
  rewrite Hdf in Hlen. rewrite Hstart in Hst. clear Hfetch Hdf Hstart.
  assert (Hempty : df_empty (fetched_frame w (BATCH_HOURS cfg) s) = true)
    by (unfold df_empty; rewrite Hlen; reflexivity).
  assert (Hno : forall report, ~ reaches_recorder cfg w s report).
  { intros report (_ & r & _ & H & _). rewrite Hempty in H. discriminate. }
  destruct (main_without_recorder cfg w s Hno) as (evs & Htr & Ha & Hp & Hw & Hm).
  fold s' in Htr, Hm.
  rewrite (events_since_app s s' evs Htr) at 1 2 3.
  repeat (split; [assumption|]).
  intros reference Hpath Hcsv.
  destruct (main_skips_empty cfg w s reference _ Hpath Hcsv Hst Hempty)
    as (Hret & pre & Hpre & Hsql & Hrep).
  split; [exact Hret|]. exists pre.
  rewrite (events_since_app s s' _ Hpre). auto.
Qed.

Lemma empty_window_no_side_effects_witness :
  fst (fetch_data_from_db sample_world (BATCH_HOURS hook_config) idle_state)
    = Returned (frame_of_logs [], sample_clock 0 - timedelta_hours 24, sample_clock 0)
  /\ df_len (frame_of_logs []) = 0%nat
  /\ monitoring_metrics (snd (main_monitoring_job hook_config sample_world idle_state))
     = monitoring_metrics idle_state
  /\ posts (events_since idle_state
              (snd (main_monitoring_job hook_config sample_world idle_state))) = [].
Proof.
  assert (H : fst (fetch_data_from_db sample_world (BATCH_HOURS hook_config) idle_state)
              = Returned (frame_of_logs [], sample_clock 0 - timedelta_hours 24,
                          sample_clock 0)) by reflexivity.
  split; [exact H|]. split; [reflexivity|].
  pose proof (empty_window_no_side_effects hook_config sample_world idle_state
                _ _ _ H eq_refl)
    as (Hm & _ & _ & Hp & _).
  split; assumption.
Defined.

(** ** The window fetcher *)

(** C4, counterexample. A record stamped with the very instant the fetch
    reads the clock is part of the returned window. *)
Lemma fetch_includes_end_time :
  fst (fetch_data_from_db sample_world 24 boundary_state)
    = Returned (frame_of_logs [sample_log (sample_clock 0)],
                sample_clock 0 - timedelta_hours 24, sample_clock 0)
  /\ prediction_time (sample_log (sample_clock 0)) = Some (sample_clock 0)
  /\ ~ (sample_clock 0 < sample_clock 0).
Proof.
  split; [vm_compute; reflexivity|].
  split; [reflexivity|]. lia.
Qed.

Lemma between_spec (start_time end_time : datetime) (r : PredictionLog) :
  between start_time end_time r = true
  <-> exists t, prediction_time r = Some t /\ start_time <= t <= end_time.
Proof.
  unfold between. destruct (prediction_time r) as [t|].
  - rewrite andb_true_iff, !Z.leb_le. split.
    + intros H. exists t. split; [reflexivity|lia].
    + intros (t' & Ht & H). inversion Ht; subst. lia.
  - split; [discriminate|]. intros (t & Ht & _). discriminate.
Qed.

(** C4, amended. For a lookback whose bounds can be represented, when the
    query runs the fetch returns exactly the records whose timestamp lies in
    the closed interval from [start_time] to [end_time], in table order, with
    [end_time] the clock reading and [start_time] the lookback before it; a
    record stamped [end_time] is included. *)
Theorem fetch_closed_window (w : World) (lookback_hours : Z) (s : State) :
  window_representable (clock w (ticks s)) lookback_hours = true ->
  read_sql_fault w = None ->
  let end_time := clock w (ticks s) in
  let start_time := end_time - timedelta_hours lookback_hours in
  exists rows,
    fst (fetch_data_from_db w lookback_hours s)
      = Returned (frame_of_logs rows, start_time, end_time)
    /\ rows = select_window (prediction_logs s) start_time end_time
    /\ (forall r, In r rows <->
                  In r (prediction_logs s)
                  /\ exists t, prediction_time r = Some t
                               /\ start_time <= t <= end_time)
    /\ (forall r, In r (prediction_logs s) ->
                  prediction_time r = Some end_time ->
                  0 <= lookback_hours -> In r rows).
Proof.
  intros Hrep Hok end_time start_time.
  pose proof (window_start_representable _ _ Hrep) as Hst.
  exists (select_window (prediction_logs s) start_time end_time).
  destruct (fetch_run w lookback_hours s _ Hst) as (evs & Hrun & _).
  rewrite Hrun, fetched_frame_eq, Hst, Hok. cbn [fst].
  split; [reflexivity|]. split; [reflexivity|].
  assert (Hin : forall r,
             In r (select_window (prediction_logs s) start_time end_time) <->
             In r (prediction_logs s)
             /\ exists t, prediction_time r = Some t /\ start_time <= t <= end_time).
  { intros r. unfold select_window. rewrite filter_In, between_spec. reflexivity. }
  split; [exact Hin|].
  intros r Hr Ht Hpos. apply Hin. split; [assumption|].
  exists end_time. split; [assumption|].
  unfold start_time, timedelta_hours. lia.
Qed.

Lemma fetch_closed_window_witness :
  window_representable (clock sample_world (ticks boundary_state)) 24 = true
  /\ read_sql_fault sample_world = None
  /\ exists rows,
       fst (fetch_data_from_db sample_world 24 boundary_state)
         = Returned (frame_of_logs rows,
                     clock sample_world (ticks boundary_state) - timedelta_hours 24,
                     clock sample_world (ticks boundary_state))
       /\ In (sample_log (sample_clock 0)) rows.
Proof.
  split; [reflexivity|]. split; [reflexivity|].
  destruct (fetch_closed_window sample_world 24 boundary_state eq_refl eq_refl)
    as (rows & Hrun & _ & _ & Hend).
  exists rows. split; [exact Hrun|].
  apply Hend; [left; reflexivity|reflexivity|lia].
Defined.

(** C5, counterexample. With a lookback of twenty million hours the window
    would start before the year 1: the fetch raises [OverflowError], with a
    store that answers as with one that is down, and the process ends with
    status 1. *)
Lemma fetch_overflow_escapes :
  read_sql_fault sample_world = None
  /\ fst (fetch_data_from_db sample_world 20000000 sample_state) = Raised OverflowError
  /\ fst (fetch_data_from_db store_down_world 20000000 sample_state)
     = Raised OverflowError
  /\ BATCH_HOURS far_config = 20000000
  /\ exit_status (fst (script far_config sample_world sample_state)) = 1.
Proof. repeat split; reflexivity. Qed.

(** C5, amended. For a lookback whose bounds can be represented, the fetch
    returns normally whatever the query does, with the bounds it sent to the
    store; when the query fails, whatever the failure, the frame is empty,
    and the cycle that called the fetch returns normally too, so the process
    ends with status 0. *)
Theorem fetch_absorbs_query_failures (w : World) (lookback_hours : Z) (s : State) :
  window_representable (clock w (ticks s)) lookback_hours = true ->
  let end_time := clock w (ticks s) in
  let start_time := end_time - timedelta_hours lookback_hours in
  (exists df,
     fst (fetch_data_from_db w lookback_hours s)
       = Returned (df, start_time, end_time))
  /\ filter is_read_sql
       (events_since s (snd (fetch_data_from_db w lookback_hours s)))
     = [EvReadSql start_time end_time]
  /\ (forall e,
        read_sql_fault w = Some e ->
        fst (fetch_data_from_db w lookback_hours s)
          = Returned (empty_frame, start_time, end_time))
  /\ (forall cfg e reference,
        BATCH_HOURS cfg = lookback_hours ->
        read_sql_fault w = Some e ->
        path_exists w (REFERENCE_DATA_PATH cfg) = true ->
        read_csv w (REFERENCE_DATA_PATH cfg) = Returned reference ->
        fst (main_monitoring_job cfg w s) = Returned tt
        /\ exit_status (fst (script cfg w s)) = 0).
Proof.
  intros Hrep end_time start_time.
  pose proof (window_start_representable _ _ Hrep) as Hst.
  destruct (fetch_run w lookback_hours s _ Hst)
    as (evs & Hrun & _ & _ & _ & _ & Hsql).
  rewrite Hrun. cbn [fst snd].
  split; [eexists; reflexivity|].
  split; [erewrite events_since_app by reflexivity; exact Hsql|].
  split.
  - intros e He. rewrite fetched_frame_eq, Hst, He. reflexivity.
  - intros cfg e reference Hcfg He Hpath Hcsv. subst lookback_hours.
    assert (Hempty : forall s0, df_empty (fetched_frame w (BATCH_HOURS cfg) s0) = true).
    { intros s0. rewrite fetched_frame_eq, He.
      destruct (window_start (clock w (ticks s0)) (BATCH_HOURS cfg)); reflexivity. }
    split.
    + apply (main_skips_empty cfg w s reference _ Hpath Hcsv Hst (Hempty s)).
    + rewrite script_run.
      match goal with
      | |- context [main_monitoring_job cfg w ?s0] =>
          destruct (main_skips_empty cfg w s0 reference _ Hpath Hcsv Hst (Hempty s0))
            as (Hret & _)
      end.
      rewrite Hret. reflexivity.
Qed.

Lemma fetch_absorbs_query_failures_witness :
  window_representable (clock store_down_world (ticks sample_state)) 24 = true
  /\ read_sql_fault store_down_world = Some OperationalError
  /\ fst (fetch_data_from_db store_down_world 24 sample_state)
     = Returned (empty_frame,
                 clock store_down_world (ticks sample_state) - timedelta_hours 24,
                 clock store_down_world (ticks sample_state))
  /\ exit_status (fst (script hook_config store_down_world sample_state)) = 0.
Proof.
  split; [reflexivity|]. split; [reflexivity|].
  pose proof (fetch_absorbs_query_failures store_down_world 24 sample_state eq_refl)
    as (_ & _ & Hfail & Hcycle).
  split.
  - exact (Hfail OperationalError eq_refl).
  - exact (proj2 (Hcycle hook_config OperationalError sample_reference
                         eq_refl eq_refl eq_refl eq_refl)).
Defined.

(** ** The alert dispatcher *)

(** C7. The dispatcher returns normally whatever the webhook does and calls
    it at most once; without a webhook it only logs that none is
    configured. A cycle calls the webhook at most once, and a cycle that
    reaches the alert check returns normally whatever the delivery does. *)
Theorem alert_delivery_best_effort (cfg : Config) (w : World) (msg : AlertText)
        (s : State) :
  fst (send_slack_alert cfg w msg s) = Returned tt
  /\ (List.length (posts (events_since s (snd (send_slack_alert cfg w msg s)))) <= 1)%nat
  /\ (SLACK_WEBHOOK_URL cfg = EmptyString ->
      snd (send_slack_alert cfg w msg s)
        = set_trace s (trace s ++ [EvPrint LogSlackNotConfigured]))
  /\ (List.length (posts (events_since s (snd (main_monitoring_job cfg w s)))) <= 1)%nat
  /\ (forall report score n rows v,
        reaches_recorder cfg w s report ->
        read_summary report = Returned (score, n, rows, v) ->
        fst (main_monitoring_job cfg w s) = Returned tt).
Proof.
  split; [|split; [|split; [|split]]].
  - destruct (send_slack_alert_run cfg w msg s) as (evs & Hrun & _).
    rewrite Hrun. reflexivity.
  - destruct (send_slack_alert_run cfg w msg s) as (evs & Hrun & _ & _ & _ & Hp).
    rewrite Hrun. cbn [snd]. erewrite events_since_app by reflexivity.
    rewrite Hp. destruct (str_falsy (SLACK_WEBHOOK_URL cfg)); cbn; lia.
  - intros Hurl. unfold send_slack_alert. rewrite Hurl. reflexivity.
  - destruct (reaches_recorder_dec cfg w s) as [(report & Hreach)|Hno].
    + destruct (read_summary report) as [[[[score n] rows] v]|e] eqn:Hsum.
      * destruct (cycle_run cfg w s report score n rows v Hreach Hsum)
          as (before & after & _ & Htr & _ & _ & _ & Hp1 & _ & _ & Hp2).
        rewrite (events_since_app _ _ _ Htr).
        unfold posts in *. rewrite !filter_app, Hp1, Hp2.
        destruct (int_gt_float n (DRIFT_THRESHOLD cfg)
                  && negb (str_falsy (SLACK_WEBHOOK_URL cfg))); cbn; lia.
      * destruct (cycle_unreadable cfg w s report e Hreach Hsum)
          as (evs & _ & Htr & _ & Hp & _).
        rewrite (events_since_app _ _ _ Htr), Hp. cbn; lia.
    + destruct (main_without_recorder cfg w s Hno) as (evs & Htr & _ & Hp & _).
      rewrite (events_since_app _ _ _ Htr), Hp. cbn; lia.
  - intros report score n rows v Hreach Hsum.
    destruct (cycle_run cfg w s report score n rows v Hreach Hsum)
      as (before & after & Hret & _).
    exact Hret.
Qed.

Lemma alert_delivery_best_effort_witness :
  SLACK_WEBHOOK_URL default_config = EmptyString
  /\ reaches_recorder hook_config flaky_world sample_state (sample_report 2 1)
  /\ read_summary (sample_report 2 1) = Returned (float_one, 2, 1, float_one)
  /\ snd (send_slack_alert default_config flaky_world
            (mkAlert 2 float_one 0 1) sample_state)
     = set_trace sample_state
         (trace sample_state ++ [EvPrint LogSlackNotConfigured])
  /\ fst (main_monitoring_job hook_config flaky_world sample_state) = Returned tt.
Proof.
  assert (Hreach : reaches_recorder hook_config flaky_world sample_state
                                    (sample_report 2 1)).
  { split; [reflexivity|]. exists sample_reference.
    split; [reflexivity|]. split; reflexivity. }
  split; [reflexivity|]. split; [exact Hreach|]. split; [reflexivity|].
  split.
  - pose proof (alert_delivery_best_effort default_config flaky_world
                  (mkAlert 2 float_one 0 1) sample_state) as (_ & _ & Hquiet & _).
    exact (Hquiet eq_refl).
  - pose proof (alert_delivery_best_effort hook_config flaky_world
                  (mkAlert 2 float_one 0 1) sample_state) as (_ & _ & _ & _ & Hcycle).
    exact (Hcycle (sample_report 2 1) float_one 2 1 float_one Hreach eq_refl).
Defined.

(** ** The metrics recorder *)

Lemma sample_reaches_recorder :
  reaches_recorder hook_config sample_world sample_state (sample_report 2 1).
Proof.
  split; [reflexivity|]. exists sample_reference.
  split; [reflexivity|]. split; reflexivity.
Defined.

(** C2. In a cycle that reaches the recorder, the two rows, named
    data_drift_summary and prediction_count, go to the session in one
    [add_all] followed by at most one commit. Without a fault the table
    grows by exactly these two rows; with a fault the transaction is rolled
    back and the table is what it was. The table never grows by one row. *)
Theorem recorder_two_rows_or_none (cfg : Config) (w : World) (s : State)
        (report : report_dict) (score : float) (n rows : Z) (v : float) :
  reaches_recorder cfg w s report ->
  read_summary report = Returned (score, n, rows, v) ->
  let s' := snd (main_monitoring_job cfg w s) in
  exists drift_log count_log,
    metric_name drift_log = "data_drift_summary"
    /\ metric_name count_log = "prediction_count"
    /\ (fault_strikes (metrics_fault w) 2 = false ->
        monitoring_metrics s' = monitoring_metrics s ++ [drift_log; count_log]
        /\ store_writes (events_since s s')
           = [EvAddAll [drift_log; count_log]; EvCommit])
    /\ (fault_strikes (metrics_fault w) 2 = true ->
        monitoring_metrics s' = monitoring_metrics s
        /\ (store_writes (events_since s s')
              = [EvAddAll [drift_log; count_log]; EvCommit; EvRollback]
            \/ store_writes (events_since s s')
                 = [EvAddAll [drift_log; count_log]; EvRollback]))
    /\ (forall r, monitoring_metrics s' <> monitoring_metrics s ++ [r]).
Proof.
  intros Hreach Hsum s'.
  destruct (cycle_run cfg w s report score n rows v Hreach Hsum)
    as (before & after & _ & Htr & Hm & Hw1 & _ & _ & Hw2 & _).
  fold s' in Htr, Hm. rewrite (events_since_app s s' _ Htr).
  unfold store_writes in *. rewrite !filter_app, Hw1, Hw2. cbn [filter is_store_write app].
  exists (mkMetric (clock w (S (ticks s))) score n "data_drift_summary" score
                   (Some (json_dumps_summary rows n)) (MODEL_VERSION cfg)
                   (clock w (ticks s) - timedelta_hours (BATCH_HOURS cfg))
                   (clock w (ticks s))),
         (mkMetric (clock w (S (S (ticks s)))) float_zero 0 "prediction_count" v None
                   (MODEL_VERSION cfg)
                   (clock w (ticks s) - timedelta_hours (BATCH_HOURS cfg))
                   (clock w (ticks s))).
  split; [reflexivity|]. split; [reflexivity|].
  rewrite Hm.
  assert (Hone : forall (m : list MonitoringMetric) r,
             m <> m ++ [r]).
  { intros m r Hr. apply (f_equal (@List.length _)) in Hr.
    rewrite length_app in Hr. cbn in Hr. lia. }
  assert (Htwo : forall (m : list MonitoringMetric) a b r,
             m ++ [a; b] <> m ++ [r]).
  { intros m a b r Hr. apply app_inv_head in Hr. discriminate Hr. }
  destruct (metrics_fault w) as [|e|k e|e]; cbn [fault_strikes].
  - split; [intros _; split; reflexivity|].
    split; [discriminate|]. intros r. apply Htwo.
  - split; [discriminate|].
    split; [intros _; split; [reflexivity|right; reflexivity]|].
    intros r. apply Hone.
  - destruct (k <? 2)%nat.
    + split; [discriminate|].
      split; [intros _; split; [reflexivity|left; reflexivity]|].
      intros r. apply Hone.
    + split; [intros _; split; reflexivity|].
      split; [discriminate|]. intros r. apply Htwo.
  - split; [discriminate|].
    split; [intros _; split; [reflexivity|left; reflexivity]|].
    intros r. apply Hone.
Qed.

Lemma recorder_two_rows_or_none_witness :
  reaches_recorder hook_config sample_world sample_state (sample_report 2 1)
  /\ read_summary (sample_report 2 1) = Returned (float_one, 2, 1, float_one)
  /\ exists drift_log count_log,
       metric_name drift_log = "data_drift_summary"
       /\ metric_name count_log = "prediction_count"
       /\ monitoring_metrics
            (snd (main_monitoring_job hook_config sample_world sample_state))
          = monitoring_metrics sample_state ++ [drift_log; count_log].
Proof.
  split; [exact sample_reaches_recorder|]. split; [reflexivity|].
  destruct (recorder_two_rows_or_none hook_config sample_world sample_state
              (sample_report 2 1) float_one 2 1 float_one
              sample_reaches_recorder eq_refl)
    as (drift_log & count_log & Hd & Hc & Hok & _).
  exists drift_log, count_log.
  split; [exact Hd|]. split; [exact Hc|].
  exact (proj1 (Hok eq_refl)).
Defined.

(** [d.get(key, default)] gives the default for a key the dictionary lacks. *)
Lemma dict_get_absent (d : pydict) (key : string) (default : pyval) :
  dict_has d key = false -> dict_get d key default = default.
Proof.
  unfold dict_has. induction d as [|[k v] d IH]; [reflexivity|].
  cbn [existsb dict_get fst]. destruct (String.eqb k key); [discriminate|].
  exact IH.
Qed.

(** C10, counterexample. The detector's report has no rows_count entry and
    the window has one row: the prediction_count row is written with value
    0.0, not 1.0. *)
Lemma count_row_ignores_window :
  let s' := snd (main_monitoring_job hook_config keyless_world sample_state) in
  df_len (fetched_frame keyless_world (BATCH_HOURS hook_config) sample_state) = 1%nat
  /\ report_run keyless_world sample_reference
       (fetched_frame keyless_world (BATCH_HOURS hook_config) sample_state)
       (mkMapping (Some ["feature_1"; "feature_2"]) None None)
     = Returned keyless_report
  /\ map metric_name (monitoring_metrics s') = ["data_drift_summary"; "prediction_count"]
  /\ map metric_value (monitoring_metrics s') = [float_zero; float_zero]
  /\ float_of_int 1 = Returned float_one
  /\ float_one <> float_zero.
Proof. vm_compute. repeat split; discriminate. Qed.

(** C10, amended. In a cycle whose transaction commits, the prediction_count
    row has drift score 0.0 and no drifted feature whatever the detector
    found; its value is the float of the rows_count entry of the second
    section of the detector's report, and 0.0 when the section has no such
    entry, whatever the window holds. The score and the number of drifted
    features are on the data_drift_summary row. *)
Theorem count_row_reads_report (cfg : Config) (w : World) (s : State)
        (report : report_dict) (score : float) (n rows : Z) (v : float) :
  reaches_recorder cfg w s report ->
  read_summary report = Returned (score, n, rows, v) ->
  fault_strikes (metrics_fault w) 2 = false ->
  exists drift_log count_log quality,
    monitoring_metrics (snd (main_monitoring_job cfg w s))
      = monitoring_metrics s ++ [drift_log; count_log]
    /\ metric_name count_log = "prediction_count"
    /\ data_drift_score count_log = float_zero
    /\ num_drifted_features count_log = 0
    /\ report_summary count_log = None
    /\ metric_result report 1 = Returned quality
    /\ py_int (dict_get quality "rows_count" (VInt 0)) = Returned rows
    /\ float_of_int rows = Returned (metric_value count_log)
    /\ (dict_has quality "rows_count" = false -> metric_value count_log = float_zero)
    /\ metric_name drift_log = "data_drift_summary"
    /\ data_drift_score drift_log = score
    /\ num_drifted_features drift_log = n
    /\ metric_value drift_log = score.
Proof.
  intros Hreach Hsum Hok.
  destruct (cycle_run cfg w s report score n rows v Hreach Hsum)
    as (before & after & _ & _ & Hm & _).
  rewrite Hok in Hm.
  destruct (read_summary_inv _ _ _ _ _ Hsum)
    as (dm & quality & _ & _ & _ & Hq & Hrows & Hv).
  eexists; eexists; exists quality. split; [exact Hm|]. cbn.
  repeat (split; [reflexivity || assumption|]).
  split; [|auto].
  intros Hkey. rewrite (dict_get_absent _ _ _ Hkey) in Hrows.
  cbn in Hrows. inversion Hrows; subst rows.
  cbn in Hv. inversion Hv. reflexivity.
Qed.

Lemma count_row_reads_report_witness :
  reaches_recorder hook_config sample_world sample_state (sample_report 2 1)
  /\ read_summary (sample_report 2 1) = Returned (float_one, 2, 1, float_one)
  /\ fault_strikes (metrics_fault sample_world) 2 = false
  /\ exists drift_log count_log,
       monitoring_metrics
         (snd (main_monitoring_job hook_config sample_world sample_state))
         = monitoring_metrics sample_state ++ [drift_log; count_log]
       /\ data_drift_score count_log = float_zero
       /\ num_drifted_features count_log = 0
       /\ num_drifted_features drift_log = 2.
Proof.
  split; [exact sample_reaches_recorder|]. split; [reflexivity|].
  split; [reflexivity|].
  destruct (count_row_reads_report hook_config sample_world sample_state
              (sample_report 2 1) float_one 2 1 float_one
              sample_reaches_recorder eq_refl eq_refl)
    as (drift_log & count_log & quality & Hm & _ & Hs & Hn & _ & _ & _ & _ & _ & _
        & _ & Hd & _).
  exists drift_log, count_log. auto.
Defined.

(** ** The alert threshold *)

Lemma int_gt_float_zero (n : Z) : int_gt_float n float_zero = (0 <? n).
Proof.
  unfold int_gt_float, int_compare_float, float_zero.
  destruct (Z.compare_spec n 0); destruct (Z.ltb_spec 0 n); try reflexivity; lia.
Qed.

Lemma int_gt_float_two (n : Z) : int_gt_float n float_two = (2 <? n).
Proof.
  unfold int_gt_float, int_compare_float, float_two, signed_mantissa.
  cbn [Z.leb Z.compare Z.opp].
  change (2 ^ 51) with 2251799813685248.
  destruct (Z.compare_spec (n * 2251799813685248) 4503599627370496);
    destruct (Z.ltb_spec 2 n); try reflexivity; lia.
Qed.

Lemma length_one_not_nil {A : Type} (l : list A) : List.length l = 1%nat -> l <> [].
Proof. destruct l; [discriminate|]. intros _ H. discriminate H. Qed.

(** C3. In a cycle that reaches the recorder, an alert is attempted exactly
    when the number of drifted features is greater than the threshold, and
    at most once; with a webhook configured this is exactly when the webhook
    is called. With threshold 2.0 an alert needs more than two drifted
    features, so two of them raise none; with the default threshold 0.0 any
    positive number of drifted features raises one. *)
Theorem alert_iff_above_threshold (cfg : Config) (w : World) (s : State)
        (report : report_dict) (score : float) (n rows : Z) (v : float) :
  reaches_recorder cfg w s report ->
  read_summary report = Returned (score, n, rows, v) ->
  let evs := events_since s (snd (main_monitoring_job cfg w s)) in
  (alert_attempts evs <> [] <-> int_gt_float n (DRIFT_THRESHOLD cfg) = true)
  /\ (List.length (alert_attempts evs) <= 1)%nat
  /\ (str_falsy (SLACK_WEBHOOK_URL cfg) = false ->
      (posts evs <> [] <-> int_gt_float n (DRIFT_THRESHOLD cfg) = true)
      /\ (int_gt_float n (DRIFT_THRESHOLD cfg) = true ->
          posts evs =
            [alert_post cfg score n
               (clock w (ticks s) - timedelta_hours (BATCH_HOURS cfg))
               (clock w (ticks s))]))
  /\ (DRIFT_THRESHOLD cfg = float_two -> (alert_attempts evs <> [] <-> 2 < n))
  /\ (DRIFT_THRESHOLD cfg = float_two -> n = 2 -> alert_attempts evs = [])
  /\ (DRIFT_THRESHOLD cfg = float_zero -> (alert_attempts evs <> [] <-> 0 < n)).
Proof.
  intros Hreach Hsum evs.
  destruct (cycle_run cfg w s report score n rows v Hreach Hsum)
    as (before & after & _ & Htr & _ & _ & Ha1 & Hp1 & _ & Ha2 & Hp2).
  assert (Hatt : alert_attempts evs = alert_attempts after).
  { unfold evs. rewrite (events_since_app _ _ _ Htr).
    unfold alert_attempts in *. rewrite !filter_app, Ha1. cbn. apply app_nil_r. }
  assert (Hposts : posts evs = posts after).
  { unfold evs. rewrite (events_since_app _ _ _ Htr).
    unfold posts in *. rewrite !filter_app, Hp1. cbn. apply app_nil_r. }
  rewrite Hatt, Hposts, Hp2. clear Hatt Hposts Htr Ha1 Hp1 Hp2 evs.
  assert (Hiff : alert_attempts after <> []
                 <-> int_gt_float n (DRIFT_THRESHOLD cfg) = true).
  { destruct (int_gt_float n (DRIFT_THRESHOLD cfg)).
    - split; [reflexivity|]. intros _. apply length_one_not_nil, Ha2.
    - apply length_zero_iff_nil in Ha2. rewrite Ha2.
      split; [intros H; contradiction H; reflexivity|discriminate]. }
  split; [exact Hiff|].
  split; [rewrite Ha2; destruct (int_gt_float n (DRIFT_THRESHOLD cfg)); lia|].
  split; [|split; [|split]].
  - intros Hurl. rewrite Hurl. cbn [negb]. rewrite andb_true_r.
    destruct (int_gt_float n (DRIFT_THRESHOLD cfg)).
    + split; [split; [reflexivity|discriminate]|reflexivity].
    + split; [split; [intros H; contradiction H; reflexivity|discriminate]
             |discriminate].
  - intros Hthr. rewrite Hiff, Hthr, int_gt_float_two. apply Z.ltb_lt.
  - intros Hthr Hn. rewrite Hthr, Hn in Ha2. apply length_zero_iff_nil, Ha2.
  - intros Hthr. rewrite Hiff, Hthr, int_gt_float_zero. apply Z.ltb_lt.
Qed.

Lemma strict_reaches_recorder :
  reaches_recorder strict_config sample_world sample_state (sample_report 2 1).
Proof.
  split; [reflexivity|]. exists sample_reference.
  split; [reflexivity|]. split; reflexivity.
Defined.

Lemma alert_iff_above_threshold_witness :
  reaches_recorder hook_config sample_world sample_state (sample_report 2 1)
  /\ reaches_recorder strict_config sample_world sample_state (sample_report 2 1)
  /\ read_summary (sample_report 2 1) = Returned (float_one, 2, 1, float_one)
  /\ alert_attempts
       (events_since sample_state
          (snd (main_monitoring_job hook_config sample_world sample_state))) <> []
  /\ alert_attempts
       (events_since sample_state
          (snd (main_monitoring_job strict_config sample_world sample_state))) = [].
Proof.
  split; [exact sample_reaches_recorder|].
  split; [exact strict_reaches_recorder|].
  split; [reflexivity|]. split.
  - pose proof (alert_iff_above_threshold hook_config sample_world sample_state
                  (sample_report 2 1) float_one 2 1 float_one
                  sample_reaches_recorder eq_refl)
      as (_ & _ & _ & _ & _ & Hzero).
    apply (Hzero eq_refl). lia.
  - pose proof (alert_iff_above_threshold strict_config sample_world sample_state
                  (sample_report 2 1) float_one 2 1 float_one
                  strict_reaches_recorder eq_refl)
      as (_ & _ & _ & _ & Htwo & _).
    exact (Htwo eq_refl eq_refl).
Defined.

(** ** Persistence failures *)

Lemma reaches_recorder_with_fault (cfg : Config) (w : World) (s : State)
      (report : report_dict) (f : db_fault) :
  reaches_recorder cfg w s report ->
  reaches_recorder cfg (with_fault w f) s report.
Proof.
  unfold reaches_recorder. rewrite !fetched_frame_eq. cbn. tauto.
Qed.

(** C6. When the metrics transaction of a cycle fails, the cycle still
    returns normally: the transaction is rolled back, the table is left as it
    was, and then the alert check runs on the summary read from the report.
    The webhook calls are the ones of the same cycle with a store that does
    not fail. *)
Theorem persistence_failure_keeps_alert (cfg : Config) (w : World) (s : State)
        (report : report_dict) (score : float) (n rows : Z) (v : float)
        (f : db_fault) :
  reaches_recorder cfg w s report ->
  read_summary report = Returned (score, n, rows, v) ->
  fault_strikes f 2 = true ->
  let failed := main_monitoring_job cfg (with_fault w f) s in
  let clean := main_monitoring_job cfg (with_fault w NoFault) s in
  fst failed = Returned tt
  /\ monitoring_metrics (snd failed) = monitoring_metrics s
  /\ posts (events_since s (snd failed)) = posts (events_since s (snd clean))
  /\ List.length (alert_attempts (events_since s (snd failed)))
     = List.length (alert_attempts (events_since s (snd clean)))
  /\ (alert_attempts (events_since s (snd failed)) <> []
      <-> int_gt_float n (DRIFT_THRESHOLD cfg) = true)
  /\ exists before after,
       events_since s (snd failed)
         = (before ++ after) ++ [EvClose; EvPrint LogJobFinished]
       /\ In EvRollback before
       /\ alert_attempts before = []
       /\ store_writes after = []
       /\ alert_attempts (events_since s (snd failed)) = alert_attempts after.
Proof.
  intros Hreach Hsum Hf failed clean.
  destruct (cycle_run cfg (with_fault w f) s report score n rows v
              (reaches_recorder_with_fault cfg w s report f Hreach) Hsum)
    as (b1 & a1 & Hret1 & Htr1 & Hm1 & Hw1 & Hab1 & Hpb1 & Hwa1 & Haa1 & Hpa1).
  destruct (cycle_run cfg (with_fault w NoFault) s report score n rows v
              (reaches_recorder_with_fault cfg w s report NoFault Hreach) Hsum)
    as (b2 & a2 & _ & Htr2 & _ & _ & Hab2 & Hpb2 & _ & Haa2 & Hpa2).
  fold failed in Hret1, Htr1, Hm1. fold clean in Htr2.
  cbn [metrics_fault with_fault clock] in *.
  rewrite Hf in Hm1.
  rewrite (events_since_app _ _ _ Htr1), (events_since_app _ _ _ Htr2).
  assert (Hatt1 : alert_attempts ((b1 ++ a1) ++ [EvClose; EvPrint LogJobFinished])
                  = alert_attempts a1).
  { unfold alert_attempts in *. rewrite !filter_app, Hab1. cbn. apply app_nil_r. }
  assert (Hatt2 : alert_attempts ((b2 ++ a2) ++ [EvClose; EvPrint LogJobFinished])
                  = alert_attempts a2).
  { unfold alert_attempts in *. rewrite !filter_app, Hab2. cbn. apply app_nil_r. }
  assert (Hpost1 : posts ((b1 ++ a1) ++ [EvClose; EvPrint LogJobFinished]) = posts a1).
  { unfold posts in *. rewrite !filter_app, Hpb1. cbn. apply app_nil_r. }
  assert (Hpost2 : posts ((b2 ++ a2) ++ [EvClose; EvPrint LogJobFinished]) = posts a2).
  { unfold posts in *. rewrite !filter_app, Hpb2. cbn. apply app_nil_r. }
  rewrite Hatt1, Hatt2, Hpost1, Hpost2, Hpa1, Hpa2, Haa1, Haa2.
  repeat (split; [reflexivity || assumption|]).
  split.
  - destruct (int_gt_float n (DRIFT_THRESHOLD cfg)).
    + split; [reflexivity|]. intros _. apply length_one_not_nil, Haa1.
    + apply length_zero_iff_nil in Haa1. rewrite Haa1.
      split; [intros H; contradiction H; reflexivity|discriminate].
  - exists b1, a1. split; [reflexivity|].
    split; [|auto].
    assert (Hin : In EvRollback (store_writes b1)).
    { rewrite Hw1. destruct f as [|e|k e|e]; cbn [fault_strikes] in *;
        try discriminate Hf; try rewrite Hf; cbn; auto. }
    unfold store_writes in Hin. apply filter_In in Hin. apply Hin.
Qed.

Lemma persistence_failure_keeps_alert_witness :
  reaches_recorder hook_config sample_world sample_state (sample_report 2 1)
  /\ read_summary (sample_report 2 1) = Returned (float_one, 2, 1, float_one)
  /\ fault_strikes (CommitFails OperationalError) 2 = true
  /\ monitoring_metrics
       (snd (main_monitoring_job hook_config
               (with_fault sample_world (CommitFails OperationalError))
               sample_state))
     = monitoring_metrics sample_state
  /\ alert_attempts
       (events_since sample_state
          (snd (main_monitoring_job hook_config
                  (with_fault sample_world (CommitFails OperationalError))
                  sample_state))) <> [].
Proof.
  split; [exact sample_reaches_recorder|]. split; [reflexivity|].
  split; [reflexivity|].
  pose proof (persistence_failure_keeps_alert hook_config sample_world sample_state
                (sample_report 2 1) float_one 2 1 float_one
                (CommitFails OperationalError)
                sample_reaches_recorder eq_refl eq_refl)
    as (_ & Hm & _ & _ & Hiff & _).
  split; [exact Hm|]. apply Hiff. reflexivity.
Defined.

(** ** The missing reference *)

(** C8, counterexample. With the reference file missing, the process still
    ends with status 0. *)
Lemma missing_reference_exit_zero :
  path_exists no_reference_world (REFERENCE_DATA_PATH default_config) = false
  /\ exit_status (fst (script default_config no_reference_world idle_state)) = 0.
Proof. split; reflexivity. Qed.

Lemma script_events (cfg : Config) (w : World) (s : State) (evs : list event) :
  trace (snd (main_monitoring_job cfg w
                (set_trace s (trace s ++ [EvPrint LogWaiting; EvSleep 15]))))
    = trace (set_trace s (trace s ++ [EvPrint LogWaiting; EvSleep 15])) ++ evs ->
  events_since s (snd (script cfg w s))
    = [EvPrint LogWaiting; EvSleep 15] ++ evs.
Proof.
  intros H. apply events_since_app. rewrite script_run, H.
  cbn [set_trace trace]. rewrite <- app_assoc. reflexivity.
Qed.

(** C8, amended. With the reference file missing, the job logs that it is
    missing and returns before any fetch, comparison, metric write or alert;
    the process ends with status 0 and the job-finished line is not logged.
    A fetch that returns an empty frame (the query failed or found nothing),
    a failed metrics transaction and a failed alert delivery all end with
    the session closed, the job-finished line logged and status 0. *)
Theorem missing_reference_returns_quietly (cfg : Config) (w : World) (s : State) :
  (path_exists w (REFERENCE_DATA_PATH cfg) = false ->
   script cfg w s
     = (Returned tt,
        set_trace s
          (trace s ++ [EvPrint LogWaiting; EvSleep 15; EvPrint LogJobStarting;
                       EvPathExists (REFERENCE_DATA_PATH cfg);
                       EvPrint (LogReferenceMissing (REFERENCE_DATA_PATH cfg))]))
   /\ exit_status (fst (script cfg w s)) = 0)
  /\ (forall reference df start_time end_time,
        path_exists w (REFERENCE_DATA_PATH cfg) = true ->
        read_csv w (REFERENCE_DATA_PATH cfg) = Returned reference ->
        fst (fetch_data_from_db w (BATCH_HOURS cfg) s)
          = Returned (df, start_time, end_time) ->
        df_empty df = true ->
        exit_status (fst (script cfg w s)) = 0
        /\ exists pre,
             events_since s (snd (script cfg w s))
               = pre ++ [EvClose; EvPrint LogJobFinished])
  /\ (forall report score n rows v,
        reaches_recorder cfg w s report ->
        read_summary report = Returned (score, n, rows, v) ->
        exit_status (fst (script cfg w s)) = 0
        /\ exists pre,
             events_since s (snd (script cfg w s))
               = pre ++ [EvClose; EvPrint LogJobFinished]).
Proof.
  split; [|split].
  - intros Hpath.
    assert (Hrun : script cfg w s
                   = (Returned tt,
                      set_trace s
                        (trace s ++ [EvPrint LogWaiting; EvSleep 15;
                                     EvPrint LogJobStarting;
                                     EvPathExists (REFERENCE_DATA_PATH cfg);
                                     EvPrint (LogReferenceMissing
                                                (REFERENCE_DATA_PATH cfg))]))).
    { unfold script, main_monitoring_job, os_path_exists. run_step.
      rewrite Hpath. cbn [negb]. run_step. trace_nf. reflexivity. }
    rewrite Hrun. split; reflexivity.
  - intros reference df start_time end_time Hpath Hcsv Hfetch Hempty.
    destruct (fetch_returned w (BATCH_HOURS cfg) s df start_time end_time Hfetch)
      as (Hst & _ & Hdf).
    rewrite Hdf in Hempty.
    set (s0 := set_trace s (trace s ++ [EvPrint LogWaiting; EvSleep 15])).
    assert (Hempty0 : df_empty (fetched_frame w (BATCH_HOURS cfg) s0) = true).
    { rewrite (fetched_frame_ext w (BATCH_HOURS cfg) s s0) by reflexivity.
      exact Hempty. }
    destruct (main_skips_empty cfg w s0 reference start_time Hpath Hcsv Hst Hempty0)
      as (Hret & pre & Htr & _).
    split; [rewrite script_run; fold s0; rewrite Hret; reflexivity|].
    exists ([EvPrint LogWaiting; EvSleep 15] ++ pre ++ [EvPrint LogNoNewData]).
    rewrite (script_events cfg w s _ Htr).
    rewrite <- !app_assoc. reflexivity.
  - intros report score n rows v Hreach Hsum.
    set (s0 := set_trace s (trace s ++ [EvPrint LogWaiting; EvSleep 15])).
    assert (Hreach0 : reaches_recorder cfg w s0 report).
    { apply (reaches_recorder_ext cfg w s s0); [reflexivity|reflexivity|exact Hreach]. }
    destruct (cycle_run cfg w s0 report score n rows v Hreach0 Hsum)
      as (before & after & Hret & Htr & _).
    split; [rewrite script_run; fold s0; rewrite Hret; reflexivity|].
    exists ([EvPrint LogWaiting; EvSleep 15] ++ before ++ after).
    rewrite (script_events cfg w s _ Htr).
    rewrite <- !app_assoc. reflexivity.
Qed.

Lemma missing_reference_returns_quietly_witness :
  path_exists no_reference_world (REFERENCE_DATA_PATH default_config) = false
  /\ script default_config no_reference_world idle_state
     = (Returned tt,
        set_trace idle_state
          (trace idle_state
           ++ [EvPrint LogWaiting; EvSleep 15; EvPrint LogJobStarting;
               EvPathExists (REFERENCE_DATA_PATH default_config);
               EvPrint (LogReferenceMissing (REFERENCE_DATA_PATH default_config))]))
  /\ reaches_recorder hook_config flaky_world sample_state (sample_report 2 1)
  /\ read_summary (sample_report 2 1) = Returned (float_one, 2, 1, float_one)
  /\ exit_status (fst (script hook_config flaky_world sample_state)) = 0
  /\ fst (fetch_data_from_db store_down_world (BATCH_HOURS hook_config) sample_state)
     = Returned (empty_frame, sample_clock 0 - timedelta_hours 24, sample_clock 0)
  /\ df_empty empty_frame = true
  /\ exit_status (fst (script hook_config store_down_world sample_state)) = 0.
Proof.
  assert (Hreach : reaches_recorder hook_config flaky_world sample_state
                                    (sample_report 2 1)).
  { split; [reflexivity|]. exists sample_reference.
    split; [reflexivity|]. split; reflexivity. }
  split; [reflexivity|]. split.
  - pose proof (missing_reference_returns_quietly default_config no_reference_world
                  idle_state) as (Hmiss & _).
    exact (proj1 (Hmiss eq_refl)).
  - split; [exact Hreach|]. split; [reflexivity|].
    pose proof (missing_reference_returns_quietly hook_config flaky_world
                  sample_state) as (_ & _ & Hfail).
    split; [exact (proj1 (Hfail (sample_report 2 1) float_one 2 1 float_one
                                Hreach eq_refl))|].
    split; [reflexivity|]. split; [reflexivity|].
    pose proof (missing_reference_returns_quietly hook_config store_down_world
                  sample_state) as (_ & Hskip & _).
    exact (proj1 (Hskip sample_reference empty_frame
                        (sample_clock 0 - timedelta_hours 24) (sample_clock 0)
                        eq_refl eq_refl eq_refl eq_refl)).
Defined.

(** ** The inputs of the drift test *)

Lemma has_column_drop_same (df : DataFrame) (name : string) :
  has_column (drop_column df name) name = false.
Proof.
  unfold has_column, df_columns, drop_column. cbn [df_data].
  induction (df_data df) as [|[k col] cols IH]; [reflexivity|].
  cbn [filter fst]. destruct (String.eqb k name) eqn:Hk; cbn [negb].
  - exact IH.
  - cbn [map existsb fst]. rewrite String.eqb_sym, Hk. exact IH.
Qed.

Lemma has_column_drop_other (df : DataFrame) (name other : string) :
  String.eqb other name = false ->
  has_column (drop_column df name) other = has_column df other.
Proof.
  intros Hne. unfold has_column, df_columns, drop_column. cbn [df_data].
  induction (df_data df) as [|[k col] cols IH]; [reflexivity|].
  cbn [filter fst map existsb]. destruct (String.eqb k name) eqn:Hk; cbn [negb].
  - apply String.eqb_eq in Hk. subst k. rewrite Hne. exact IH.
  - cbn [map existsb fst]. rewrite IH. reflexivity.
Qed.

Lemma has_column_add (df : DataFrame) (name other : string) :
  has_column (add_na_column df name) other
  = has_column df other || String.eqb other name.
Proof.
  unfold has_column, df_columns, add_na_column. cbn [df_data].
  rewrite map_app, existsb_app. cbn. rewrite orb_false_r. reflexivity.
Qed.

Lemma has_column_ensure (df : DataFrame) (name : string) :
  has_column (ensure_column df name) name = true.
Proof.
  unfold ensure_column. destruct (has_column df name) eqn:H; [exact H|].
  rewrite has_column_add, String.eqb_refl. apply orb_true_r.
Qed.

Lemma has_column_ensure_mono (df : DataFrame) (name other : string) :
  has_column df other = true ->
  has_column (ensure_column df name) other = true.
Proof.
  intros H. unfold ensure_column. destruct (has_column df name); [exact H|].
  rewrite has_column_add, H. reflexivity.
Qed.

Lemma drop_prediction_no_prediction (df : DataFrame) :
  has_column (drop_prediction df) "prediction" = false.
Proof.
  unfold drop_prediction. destruct (has_column df "prediction") eqn:H;
    [apply has_column_drop_same|exact H].
Qed.

Lemma drop_prediction_keeps (df : DataFrame) (other : string) :
  String.eqb other "prediction" = false ->
  has_column (drop_prediction df) other = has_column df other.
Proof.
  intros Hne. unfold drop_prediction. destruct (has_column df "prediction");
    [apply has_column_drop_other, Hne|reflexivity].
Qed.

(** The frames after both loops of [run_evidently_report] carry the two
    declared features and no prediction column. *)
Lemma prepared_frame_columns (df : DataFrame) :
  let df' := drop_prediction
               (ensure_column (ensure_column df "feature_1") "feature_2") in
  has_column df' "prediction" = false
  /\ has_column df' "feature_1" = true
  /\ has_column df' "feature_2" = true.
Proof.
  intros df'. unfold df'.
  split; [apply drop_prediction_no_prediction|].
  split; rewrite drop_prediction_keeps by reflexivity.
  - apply has_column_ensure_mono, has_column_ensure.
  - apply has_column_ensure.
Qed.

Lemma drift_inputs_frames (reference current : DataFrame) :
  fst (fst (drift_inputs reference current)) = prepared_frame reference
  /\ snd (fst (drift_inputs reference current)) = prepared_frame current.
Proof. split; reflexivity. Qed.


Lemma filter_no_prediction (cols : list (string * list cell)) :
  existsb (String.eqb "prediction") (map fst cols) = false ->
  filter (fun c => negb (String.eqb (fst c) "prediction")) cols = cols.
Proof.
  induction cols as [|[k col] cols IH]; [reflexivity|].
  cbn [map existsb fst filter]. rewrite orb_false_iff. intros (Hk & Hrest).
  rewrite String.eqb_sym, Hk. cbn [negb]. rewrite IH by assumption. reflexivity.
Qed.

Lemma drop_prediction_data (df : DataFrame) :
  df_data (drop_prediction df)
  = filter (fun c => negb (String.eqb (fst c) "prediction")) (df_data df).
Proof.
  unfold drop_prediction. destruct (has_column df "prediction") eqn:H;
    [reflexivity|].
  symmetry. apply filter_no_prediction. exact H.
Qed.

Lemma drop_prediction_len (df : DataFrame) :
  df_len (drop_prediction df) = df_len df.
Proof. unfold drop_prediction. destruct (has_column df "prediction"); reflexivity. Qed.

Lemma ensure_features_data (df : DataFrame) :
  df_data (fold_left ensure_column required_features df)
  = df_data df ++ added_columns df
  /\ df_len (fold_left ensure_column required_features df) = df_len df.
Proof.
  cbn [fold_left required_features]. unfold added_columns.
  assert (H2 : has_column (add_na_column df "feature_1") "feature_2"
               = has_column df "feature_2").
  { rewrite has_column_add. cbn. apply orb_false_r. }
  unfold ensure_column.
  destruct (has_column df "feature_1") eqn:H1; rewrite ?H2;
    destruct (has_column df "feature_2") eqn:Hf2;
    cbn [add_na_column df_data df_len app]; rewrite ?app_nil_r, <- ?app_assoc;
    split; reflexivity.
Qed.

(** The rows and the columns of a prepared frame. *)
Lemma prepared_frame_data (df : DataFrame) :
  df_len (prepared_frame df) = df_len df
  /\ df_data (prepared_frame df)
     = filter (fun col => negb (String.eqb (fst col) "prediction")) (df_data df)
       ++ added_columns df.
Proof.
  unfold prepared_frame.
  destruct (ensure_features_data df) as (Hdata & Hlen).
  rewrite drop_prediction_len, drop_prediction_data, Hdata, Hlen, filter_app.
  split; [reflexivity|]. f_equal.
  unfold added_columns.
  destruct (has_column df "feature_1"), (has_column df "feature_2"); reflexivity.
Qed.




(** * Further properties of the monitoring job *)

(** ** What a computation adds to the trace *)

Lemma emits_ret {A : Type} (p : event -> bool) (a : A) : emits p (ret a).
Proof. intros s. split; [reflexivity|]. exists []. rewrite app_nil_r. auto. Qed.

Lemma emits_raise {A : Type} (p : event -> bool) (e : exn) : emits p (@raise A e).
Proof. intros s. split; [reflexivity|]. exists []. rewrite app_nil_r. auto. Qed.

Lemma emits_lift {A : Type} (p : event -> bool) (r : result A) : emits p (lift r).
Proof. intros s. split; [reflexivity|]. exists []. rewrite app_nil_r. auto. Qed.

Lemma emits_emit (p : event -> bool) (e : event) : p e = true -> emits p (emit e).
Proof.
  intros H s. split; [reflexivity|]. exists [e]. cbn. rewrite H. auto.
Qed.

Lemma emits_print (p : event -> bool) (l : log_line) :
  p (EvPrint l) = true -> emits p (print l).
Proof. apply emits_emit. Qed.

Lemma emits_bind {A B : Type} (p : event -> bool) (c : M A) (k : A -> M B) :
  emits p c -> (forall a, emits p (k a)) -> emits p (bind c k).
Proof.
  intros Hc Hk s. unfold bind. destruct (Hc s) as (Hl & evs & Htr & Hp).
  destruct (c s) as [[a|e] s1]; cbn [snd] in *.
  - destruct (Hk a s1) as (Hl2 & evs2 & Htr2 & Hp2).
    split; [congruence|]. exists (evs ++ evs2).
    rewrite Htr2, Htr, app_assoc, forallb_app, Hp, Hp2. auto.
  - split; [assumption|]. exists evs. auto.
Qed.

Lemma emits_try_except {A : Type} (p : event -> bool) (c : M A)
      (handler : exn -> M A) :
  emits p c -> (forall e, emits p (handler e)) -> emits p (try_except c handler).
Proof.
  intros Hc Hh s. unfold try_except. destruct (Hc s) as (Hl & evs & Htr & Hp).
  destruct (c s) as [[a|e] s1]; cbn [snd] in *.
  - split; [assumption|]. exists evs. auto.
  - destruct (Hh e s1) as (Hl2 & evs2 & Htr2 & Hp2).
    split; [congruence|]. exists (evs ++ evs2).
    rewrite Htr2, Htr, app_assoc, forallb_app, Hp, Hp2. auto.
Qed.

Lemma emits_session_reset (p : event -> bool) :
  emits p (fun s => (Returned tt, set_session s [] [])).
Proof. intros s. split; [reflexivity|]. exists []. cbn. rewrite app_nil_r. auto. Qed.

Create HintDb emits.
#[local] Hint Resolve emits_ret emits_raise emits_lift emits_bind emits_try_except
  emits_session_reset : emits.
#[local] Hint Extern 1 (emits _ (emit _)) => apply emits_emit; reflexivity : emits.
#[local] Hint Extern 1 (emits _ (print _)) => apply emits_print; reflexivity : emits.

Lemma emits_pd_read_sql (w : World) (st en : datetime) :
  emits not_session_event (pd_read_sql w st en).
Proof.
  unfold pd_read_sql. apply emits_bind; [auto with emits|]. intros _.
  destruct (read_sql_fault w); [auto with emits|].
  intros s. split; [reflexivity|]. exists []. cbn. rewrite app_nil_r. auto.
Qed.

Lemma emits_datetime_now (p : event -> bool) (w : World) : emits p (datetime_now w).
Proof. intros s. split; [reflexivity|]. exists []. cbn. rewrite app_nil_r. auto. Qed.

Lemma emits_fetch (w : World) (h : Z) :
  emits not_session_event (fetch_data_from_db w h).
Proof.
  unfold fetch_data_from_db.
  apply emits_bind; [apply emits_datetime_now|]. intros en.
  apply emits_bind; [auto with emits|]. intros delta.
  apply emits_bind; [auto with emits|]. intros st.
  apply emits_bind; [auto with emits|]. intros _.
  apply emits_try_except.
  - apply emits_bind; [apply emits_pd_read_sql|]. auto with emits.
  - intros e. destruct e; auto with emits.
Qed.

Lemma emits_send_slack_alert (cfg : Config) (w : World) (msg : AlertText) :
  emits not_session_event (send_slack_alert cfg w msg).
Proof.
  unfold send_slack_alert, requests_post.
  destruct (str_falsy (SLACK_WEBHOOK_URL cfg)); auto with emits.
  apply emits_try_except; [|auto with emits].
  apply emits_bind; [auto with emits|].
  intros resp. destruct (ok resp); auto with emits.
Qed.

Lemma emits_check (cfg : Config) (w : World) (score : float) (n : Z)
      (st en : datetime) :
  emits not_session_event (check_for_drift_and_alert cfg w score n st en).
Proof.
  unfold check_for_drift_and_alert.
  destruct (int_gt_float n (DRIFT_THRESHOLD cfg));
    [apply emits_send_slack_alert|auto with emits].
Qed.

Lemma emits_db_add_all (w : World) (rows : list MonitoringMetric) :
  emits not_session_event (db_add_all w rows).
Proof.
  unfold db_add_all. apply emits_bind; [auto with emits|]. intros _.
  destruct (metrics_fault w); auto with emits;
    intros s; (split; [reflexivity|]); exists []; cbn; rewrite app_nil_r; auto.
Qed.

Lemma emits_db_commit (w : World) : emits not_session_event (db_commit w).
Proof.
  unfold db_commit. apply emits_bind; [auto with emits|]. intros _ s.
  destruct (metrics_fault w) as [|e|k e|e];
    try destruct (k <? List.length (session_new s))%nat;
    (split; [reflexivity|]); exists []; cbn; rewrite app_nil_r; auto.
Qed.

Lemma emits_db_rollback : emits not_session_event db_rollback.
Proof. unfold db_rollback. auto with emits. Qed.

Lemma emits_process (cfg : Config) (w : World) (report : report_dict)
      (st en : datetime) :
  emits not_session_event (process_and_log_metrics cfg w report st en).
Proof.
  unfold process_and_log_metrics.
  do 8 (apply emits_bind; [solve [auto using emits_datetime_now with emits]|]; intros ?).
  apply emits_bind; [|intros; apply emits_check].
  apply emits_try_except.
  - apply emits_bind; [apply emits_db_add_all|]. intros _.
    apply emits_bind; [apply emits_db_commit|]. auto with emits.
  - intros e. apply emits_bind; [apply emits_db_rollback|]. auto with emits.
Qed.

Lemma emits_run_evidently_report (w : World) (reference current : DataFrame) :
  emits not_session_event (run_evidently_report w reference current).
Proof.
  unfold run_evidently_report, Report_run.
  destruct (drift_inputs reference current) as [[r c] cm].
  auto 10 with emits.
Qed.

(** The part of the job that runs inside [try ... finally]. *)
Lemma emits_cycle_body (cfg : Config) (w : World) (reference : DataFrame) :
  emits not_session_event
    (fetched <- fetch_data_from_db w (BATCH_HOURS cfg) ;;
     let '(current_data, start_time, end_time) := fetched in
     if df_empty current_data
     then print LogNoNewData
     else
       report_data <- run_evidently_report w reference current_data ;;
       process_and_log_metrics cfg w report_data start_time end_time).
Proof.
  apply emits_bind; [apply emits_fetch|].
  intros [[current st] en]. destruct (df_empty current); [auto with emits|].
  apply emits_bind; [apply emits_run_evidently_report|].
  intros report. apply emits_process.
Qed.

(** ** The metrics table only grows, by pairs *)

(** Whatever the world does, a cycle leaves the rows already in the metrics
    table in place and adds either nothing or one data_drift_summary row
    followed by one prediction_count row. *)
Lemma main_appends_pair (cfg : Config) (w : World) (s : State) :
  exists suffix,
    monitoring_metrics (snd (main_monitoring_job cfg w s))
      = monitoring_metrics s ++ suffix
    /\ (suffix = []
        \/ exists d c,
             suffix = [d; c]
             /\ metric_name d = "data_drift_summary"
             /\ metric_name c = "prediction_count"
             /\ store_writes (events_since s (snd (main_monitoring_job cfg w s)))
                = [EvAddAll [d; c]; EvCommit]).
Proof.
  destruct (reaches_recorder_dec cfg w s) as [(report & Hreach)|Hno].
  - destruct (read_summary report) as [[[[score n] rows] v]|e] eqn:Hsum.
    + destruct (cycle_run cfg w s report score n rows v Hreach Hsum)
        as (before & after & _ & Htr & Hm & Hw1 & _ & _ & Hw2 & _).
      rewrite Hm. destruct (fault_strikes (metrics_fault w) 2) eqn:Hf.
      * exists []. rewrite app_nil_r. auto.
      * eexists. split; [reflexivity|]. right. eexists; eexists.
        split; [reflexivity|]. split; [reflexivity|]. split; [reflexivity|].
        rewrite (events_since_app _ _ _ Htr).
        assert (Hrest : match metrics_fault w with
                        | AddAllFails _ => [EvRollback]
                        | f => if fault_strikes f 2 then [EvCommit; EvRollback]
                               else [EvCommit]
                        end = [EvCommit]).
        { destruct (metrics_fault w) as [|e|k e|e]; cbn [fault_strikes] in *;
            try discriminate Hf; try rewrite Hf; reflexivity. }
        rewrite Hrest in Hw1.
        unfold store_writes in *. rewrite !filter_app, Hw1, Hw2. reflexivity.
    + destruct (cycle_unreadable cfg w s report e Hreach Hsum)
        as (evs & _ & _ & _ & _ & _ & Hm).
      exists []. rewrite app_nil_r. auto.
  - destruct (main_without_recorder cfg w s Hno) as (evs & _ & _ & _ & _ & Hm).
    exists []. rewrite app_nil_r. auto.
Qed.

(** ** The session is closed on every path *)

Lemma no_session_events (evs : list event) :
  forallb not_session_event evs = true ->
  filter is_session_open evs = [] /\ filter is_session_close evs = [].
Proof.
  induction evs as [|e evs IH]; [auto|].
  cbn [forallb filter]. rewrite andb_true_iff. intros (He & Hevs).
  destruct (IH Hevs) as (Ho & Hc). rewrite Ho, Hc.
  destruct e; try discriminate He; auto; destruct l; auto.
Qed.

Lemma try_finally_close {A : Type} (body : M A) (s0 : State) :
  try_finally body (db_close ;; print LogJobFinished) s0
  = (fst (body s0),
     mkState (prediction_logs (snd (body s0))) (monitoring_metrics (snd (body s0)))
             [] [] (ticks (snd (body s0)))
             (trace (snd (body s0)) ++ [EvClose; EvPrint LogJobFinished])).
Proof.
  unfold try_finally, db_close. destruct (body s0) as [r s1].
  run_step. trace_nf. reflexivity.
Qed.

(** A cycle that finds and loads the reference runs its body between the
    opening of a session and [finally]. *)
Lemma main_loaded (cfg : Config) (w : World) (s : State) (reference : DataFrame) :
  path_exists w (REFERENCE_DATA_PATH cfg) = true ->
  read_csv w (REFERENCE_DATA_PATH cfg) = Returned reference ->
  main_monitoring_job cfg w s
  = try_finally
      (fetched <- fetch_data_from_db w (BATCH_HOURS cfg) ;;
       let '(current_data, start_time, end_time) := fetched in
       if df_empty current_data
       then print LogNoNewData
       else
         report_data <- run_evidently_report w reference current_data ;;
         process_and_log_metrics cfg w report_data start_time end_time)
      (db_close ;; print LogJobFinished)
      (mkState (prediction_logs s) (monitoring_metrics s) [] [] (ticks s)
               (trace s ++ [EvPrint LogJobStarting;
                            EvPathExists (REFERENCE_DATA_PATH cfg);
                            EvReadCsv (REFERENCE_DATA_PATH cfg);
                            EvPrint (LogReferenceLoaded (df_len reference));
                            EvSessionLocal])).
Proof.
  intros Hpath Hcsv.
  unfold main_monitoring_job, os_path_exists, pd_read_csv, SessionLocal.
  unfold bind at 1. unfold print at 1, emit at 1.
  unfold bind at 1. unfold bind at 1. unfold emit at 1, ret at 1.
  cbn [set_trace trace]. rewrite Hpath. cbn [negb].
  unfold bind at 1. unfold bind at 1. unfold emit at 1, lift at 1.
  rewrite Hcsv.
  unfold bind at 1. unfold print at 1, emit at 1.
  unfold bind at 1. unfold bind at 1. unfold emit at 1.
  cbn [set_trace set_session trace prediction_logs monitoring_metrics
       session_new session_txn ticks].
  rewrite <- !app_assoc. reflexivity.
Qed.

(** X2. Every session a cycle opens is closed, whether the cycle returns or
    an exception escapes it: once the reference is loaded, the cycle ends
    with the closing of its one session and the job-finished line, and its
    result is the result of the work done in between. *)
Theorem session_always_closed (cfg : Config) (w : World) (s : State) :
  let run := main_monitoring_job cfg w s in
  let evs := events_since s (snd run) in
  List.length (filter is_session_open evs) = List.length (filter is_session_close evs)
  /\ (forall reference,
        path_exists w (REFERENCE_DATA_PATH cfg) = true ->
        read_csv w (REFERENCE_DATA_PATH cfg) = Returned reference ->
        filter is_session_open evs = [EvSessionLocal]
        /\ filter is_session_close evs = [EvClose]
        /\ session_new (snd run) = [] /\ session_txn (snd run) = []
        /\ exists body, evs = body ++ [EvClose; EvPrint LogJobFinished]).
Proof.
  intros run evs.
  assert (Hloaded : forall reference,
             path_exists w (REFERENCE_DATA_PATH cfg) = true ->
             read_csv w (REFERENCE_DATA_PATH cfg) = Returned reference ->
             filter is_session_open evs = [EvSessionLocal]
             /\ filter is_session_close evs = [EvClose]
             /\ session_new (snd run) = [] /\ session_txn (snd run) = []
             /\ exists body, evs = body ++ [EvClose; EvPrint LogJobFinished]).
  { intros reference Hpath Hcsv. unfold evs, run.
    rewrite (main_loaded cfg w s reference Hpath Hcsv), try_finally_close.
    cbn [snd session_new session_txn].
    match goal with
    | |- context [snd (?body ?s0)] =>
        destruct (emits_cycle_body cfg w reference s0) as (_ & bevs & Htr & Hp)
    end.
    rewrite Htr. cbn [trace].
    erewrite events_since_app by (rewrite <- !app_assoc; reflexivity).
    destruct (no_session_events bevs Hp) as (Ho & Hc).
    cbn [app filter is_session_open is_session_close].
    rewrite !filter_app, Ho, Hc. cbn.
    repeat (split; [reflexivity|]).
    eexists ([_; _; _; _; _] ++ bevs). rewrite <- app_assoc. reflexivity. }
  split; [|exact Hloaded].
  destruct (path_exists w (REFERENCE_DATA_PATH cfg)) eqn:Hpath.
  - destruct (read_csv w (REFERENCE_DATA_PATH cfg)) as [reference|e] eqn:Hcsv.
    + destruct (Hloaded reference eq_refl eq_refl) as (Ho & Hc & _).
      rewrite Ho, Hc. reflexivity.
    + unfold evs, run, main_monitoring_job, os_path_exists, pd_read_csv.
      run_step. rewrite Hpath. cbn [negb]. run_step. rewrite Hcsv. run_step.
      trace_nf. erewrite events_since_app by reflexivity. reflexivity.
  - unfold evs, run, main_monitoring_job, os_path_exists.
    run_step. rewrite Hpath. cbn [negb]. run_step.
    trace_nf. erewrite events_since_app by reflexivity. reflexivity.
Qed.

Lemma session_always_closed_witness :
  path_exists flaky_world (REFERENCE_DATA_PATH hook_config) = true
  /\ read_csv flaky_world (REFERENCE_DATA_PATH hook_config) = Returned sample_reference
  /\ filter is_session_close
       (events_since sample_state
          (snd (main_monitoring_job hook_config flaky_world sample_state)))
     = [EvClose].
Proof.
  split; [reflexivity|]. split; [reflexivity|].
  pose proof (session_always_closed hook_config flaky_world sample_state)
    as (_ & Hloaded).
  exact (proj1 (proj2 (Hloaded sample_reference eq_refl eq_refl))).
Defined.

(** ** Reports the recorder cannot read *)

(** X3. When a count of the report cannot be read (a metric section is
    missing, or a count is [None], infinite or not a number), the exception
    escapes the cycle and the process ends with status 1; nothing has been
    added to the session, the table is unchanged and no alert is attempted. *)
Theorem unreadable_report_stops_cycle (cfg : Config) (w : World) (s : State)
        (report : report_dict) (e : exn) :
  reaches_recorder cfg w s report ->
  read_summary report = Raised e ->
  fst (main_monitoring_job cfg w s) = Raised e
  /\ exit_status (fst (script cfg w s)) = 1
  /\ monitoring_metrics (snd (main_monitoring_job cfg w s)) = monitoring_metrics s
  /\ store_writes (events_since s (snd (main_monitoring_job cfg w s))) = []
  /\ alert_attempts (events_since s (snd (main_monitoring_job cfg w s))) = [].
Proof.
  intros Hreach Hsum.
  destruct (cycle_unreadable cfg w s report e Hreach Hsum)
    as (evs & Hret & Htr & Ha & _ & Hw & Hm).
  rewrite (events_since_app _ _ _ Htr).
  split; [exact Hret|]. split; [|auto].
  rewrite script_run.
  match goal with
  | |- context [main_monitoring_job cfg w ?s0] =>
      assert (Hreach0 : reaches_recorder cfg w s0 report)
        by (apply (reaches_recorder_ext cfg w s s0); auto);
      destruct (cycle_unreadable cfg w s0 report e Hreach0 Hsum) as (evs0 & Hret0 & _)
  end.
  rewrite Hret0. reflexivity.
Qed.

Lemma short_report_reaches_recorder :
  reaches_recorder hook_config short_report_world sample_state
                   [[("dataset_drift", VBool true)]].
Proof.
  split; [reflexivity|]. exists sample_reference.
  split; [reflexivity|]. split; reflexivity.
Defined.

Lemma unreadable_report_stops_cycle_witness :
  reaches_recorder hook_config short_report_world sample_state
                   [[("dataset_drift", VBool true)]]
  /\ read_summary [[("dataset_drift", VBool true)]] = Raised IndexError
  /\ fst (main_monitoring_job hook_config short_report_world sample_state)
     = Raised IndexError
  /\ monitoring_metrics
       (snd (main_monitoring_job hook_config short_report_world sample_state))
     = monitoring_metrics sample_state.
Proof.
  split; [exact short_report_reaches_recorder|]. split; [reflexivity|].
  pose proof (unreadable_report_stops_cycle hook_config short_report_world
                sample_state [[("dataset_drift", VBool true)]] IndexError
                short_report_reaches_recorder eq_refl)
    as (Hret & _ & Hm & _).
  split; assumption.
Defined.

(** ** Keys the report does not have *)

(** X4. A report whose sections lack the keys the recorder asks for is not
    an error: the missing drift flag counts as no drift, the missing counts
    as zero. The cycle then records a summary row with score 0.0 and no
    drifted feature and a count row with value 0.0, and, unless the
    threshold is negative, attempts no alert. *)
Theorem missing_keys_default_to_zero (cfg : Config) (w : World) (s : State)
        (drift_metric quality : pydict) (rest : report_dict) :
  reaches_recorder cfg w s (drift_metric :: quality :: rest) ->
  dict_has drift_metric "dataset_drift" = false ->
  dict_has drift_metric "number_of_drifted_features" = false ->
  dict_has quality "rows_count" = false ->
  fault_strikes (metrics_fault w) 2 = false ->
  let run := main_monitoring_job cfg w s in
  fst run = Returned tt
  /\ (exists d c,
        monitoring_metrics (snd run) = monitoring_metrics s ++ [d; c]
        /\ data_drift_score d = float_zero
        /\ num_drifted_features d = 0
        /\ metric_value d = float_zero
        /\ report_summary d = Some (json_dumps_summary 0 0)
        /\ metric_value c = float_zero)
  /\ (int_gt_float 0 (DRIFT_THRESHOLD cfg) = false ->
      alert_attempts (events_since s (snd run)) = []).
Proof.
  intros Hreach Hflag Hn Hrows Hok run.
  assert (Hsum : read_summary (drift_metric :: quality :: rest)
                 = Returned (float_zero, 0, 0, float_zero)).
  { unfold read_summary, metric_result. cbn [nth_error].
    rewrite !dict_get_absent by assumption. reflexivity. }
  destruct (cycle_run cfg w s _ _ _ _ _ Hreach Hsum)
    as (before & after & Hret & Htr & Hm & _ & Ha1 & _ & _ & Ha2 & _).
  fold run in Hret, Htr, Hm. rewrite Hok in Hm.
  split; [exact Hret|]. split.
  - eexists; eexists. split; [exact Hm|]. cbn. auto.
  - intros Hthr. rewrite Hthr in Ha2. apply length_zero_iff_nil in Ha2.
    rewrite (events_since_app _ _ _ Htr).
    unfold alert_attempts in *. rewrite !filter_app, Ha1, Ha2. reflexivity.
Qed.

Lemma keyless_reaches_recorder :
  reaches_recorder hook_config keyless_world sample_state keyless_report.
Proof.
  split; [reflexivity|]. exists sample_reference.
  split; [reflexivity|]. split; reflexivity.
Defined.

Lemma missing_keys_default_to_zero_witness :
  reaches_recorder hook_config keyless_world sample_state keyless_report
  /\ fault_strikes (metrics_fault keyless_world) 2 = false
  /\ int_gt_float 0 (DRIFT_THRESHOLD hook_config) = false
  /\ alert_attempts
       (events_since sample_state
          (snd (main_monitoring_job hook_config keyless_world sample_state))) = [].
Proof.
  split; [exact keyless_reaches_recorder|]. split; [reflexivity|].
  split; [reflexivity|].
  pose proof (missing_keys_default_to_zero hook_config keyless_world sample_state
                _ _ _ keyless_reaches_recorder eq_refl eq_refl eq_refl eq_refl)
    as (_ & _ & Hquiet).
  exact (Hquiet eq_refl).
Defined.

(** ** What the two rows say about their cycle *)

(** X5. Both rows of a committed cycle carry the bounds of the fetched
    window, which are [BATCH_HOURS] hours apart, and the configured model
    version; their drift score is 0.0 or 1.0. The rows are stamped by two
    clock readings taken after the fetch, so with a positive lookback the
    window starts before it ends, and with a clock that does not go back no
    row is stamped before the end of its window. *)
Theorem metric_rows_carry_window (cfg : Config) (w : World) (s : State)
        (report : report_dict) (score : float) (n rows : Z) (v : float) :
  reaches_recorder cfg w s report ->
  read_summary report = Returned (score, n, rows, v) ->
  fault_strikes (metrics_fault w) 2 = false ->
  exists d c,
    monitoring_metrics (snd (main_monitoring_job cfg w s))
      = monitoring_metrics s ++ [d; c]
    /\ timestamp d = clock w (S (ticks s))
    /\ timestamp c = clock w (S (S (ticks s)))
    /\ forall r, In r [d; c] ->
         batch_end_time r = clock w (ticks s)
         /\ batch_end_time r - batch_start_time r = BATCH_HOURS cfg * 3600000000
         /\ model_version r = MODEL_VERSION cfg
         /\ (data_drift_score r = float_zero \/ data_drift_score r = float_one)
         /\ (0 < BATCH_HOURS cfg -> batch_start_time r < batch_end_time r)
         /\ ((forall i j, (i <= j)%nat -> clock w i <= clock w j) ->
             batch_end_time r <= timestamp r).
Proof.
  intros Hreach Hsum Hok.
  destruct (cycle_run cfg w s report score n rows v Hreach Hsum)
    as (before & after & _ & _ & Hm & _).
  rewrite Hok in Hm.
  destruct (read_summary_inv _ _ _ _ _ Hsum) as (dm & _ & _ & Hscore & _).
  eexists; eexists. split; [exact Hm|].
  split; [reflexivity|]. split; [reflexivity|].
  intros r [<-|[<-|[]]]; cbn [batch_end_time batch_start_time model_version
                                data_drift_score timestamp];
    unfold timedelta_hours.
  - split; [reflexivity|]. split; [lia|]. split; [reflexivity|].
    split; [rewrite Hscore; destruct (py_bool _); auto|].
    split; [lia|]. intros Hmono. apply Hmono. lia.
  - split; [reflexivity|]. split; [lia|]. split; [reflexivity|].
    split; [auto|]. split; [lia|]. intros Hmono. apply Hmono. lia.
Qed.

Lemma metric_rows_carry_window_witness :
  reaches_recorder hook_config sample_world sample_state (sample_report 2 1)
  /\ read_summary (sample_report 2 1) = Returned (float_one, 2, 1, float_one)
  /\ fault_strikes (metrics_fault sample_world) 2 = false
  /\ exists d c,
       monitoring_metrics
         (snd (main_monitoring_job hook_config sample_world sample_state))
       = monitoring_metrics sample_state ++ [d; c]
       /\ batch_start_time d < batch_end_time d
       /\ batch_end_time c <= timestamp c.
Proof.
  split; [exact sample_reaches_recorder|]. split; [reflexivity|].
  split; [reflexivity|].
  destruct (metric_rows_carry_window hook_config sample_world sample_state
              (sample_report 2 1) float_one 2 1 float_one
              sample_reaches_recorder eq_refl eq_refl)
    as (d & c & Hm & _ & _ & Hrows).
  exists d, c. split; [exact Hm|]. split.
  - destruct (Hrows d (or_introl eq_refl)) as (_ & _ & _ & _ & Hpos & _).
    apply Hpos. reflexivity.
  - destruct (Hrows c (or_intror (or_introl eq_refl))) as (_ & _ & _ & _ & _ & Hmono).
    apply Hmono. intros i j Hij. unfold sample_world, sample_clock. cbn [clock]. lia.
Defined.

(** ** Lookbacks that leave no window *)

Lemma select_window_empty (table : list PredictionLog) (st en : datetime) :
  en < st -> select_window table st en = [].
Proof.
  intros Hlt. unfold select_window. induction table as [|r table IH]; [reflexivity|].
  cbn [filter]. rewrite IH.
  destruct (between st en r) eqn:Hb; [|reflexivity].
  apply between_spec in Hb. destruct Hb as (t & _ & Ht). lia.
Qed.

(** X6. With a negative lookback whose bounds can be represented, the window
    starts after it ends: the fetch returns a frame without rows whatever
    the production table holds, and the cycle writes nothing and alerts
    nobody. With a zero lookback the window is the single instant the clock
    was read. *)
Theorem degenerate_lookback (cfg : Config) (w : World) (s : State) :
  window_representable (clock w (ticks s)) (BATCH_HOURS cfg) = true ->
  (BATCH_HOURS cfg < 0 ->
   (exists df,
      fst (fetch_data_from_db w (BATCH_HOURS cfg) s)
        = Returned (df, clock w (ticks s) - timedelta_hours (BATCH_HOURS cfg),
                    clock w (ticks s))
      /\ df_len df = 0%nat)
   /\ clock w (ticks s) < clock w (ticks s) - timedelta_hours (BATCH_HOURS cfg)
   /\ df_len (fetched_frame w (BATCH_HOURS cfg) s) = 0%nat
   /\ monitoring_metrics (snd (main_monitoring_job cfg w s)) = monitoring_metrics s
   /\ alert_attempts (events_since s (snd (main_monitoring_job cfg w s))) = [])
  /\ (BATCH_HOURS cfg = 0 ->
      read_sql_fault w = None ->
      fetched_frame w (BATCH_HOURS cfg) s
      = frame_of_logs
          (filter (fun r => match prediction_time r with
                            | Some t => t =? clock w (ticks s)
                            | None => false
                            end) (prediction_logs s))).
Proof.
  intros Hrep.
  pose proof (window_start_representable _ _ Hrep) as Hst.
  split.
  - intros Hneg.
    assert (Hlt : clock w (ticks s)
                  < clock w (ticks s) - timedelta_hours (BATCH_HOURS cfg))
      by (unfold timedelta_hours; lia).
    assert (Hlen : df_len (fetched_frame w (BATCH_HOURS cfg) s) = 0%nat).
    { rewrite fetched_frame_eq, Hst. destruct (read_sql_fault w); [reflexivity|].
      rewrite select_window_empty; [reflexivity|exact Hlt]. }
    split.
    { destruct (fetch_run w (BATCH_HOURS cfg) s _ Hst) as (evs & Hrun & _).
      eexists. rewrite Hrun. split; [reflexivity|exact Hlen]. }
    split; [exact Hlt|]. split; [exact Hlen|].
    assert (Hno : forall report, ~ reaches_recorder cfg w s report).
    { intros report (_ & r & _ & H & _). unfold df_empty in H.
      rewrite Hlen in H. discriminate H. }
    destruct (main_without_recorder cfg w s Hno) as (evs & Htr & Ha & _ & _ & Hm).
    rewrite (events_since_app _ _ _ Htr). auto.
  - intros Hzero Hok. rewrite fetched_frame_eq, Hst, Hok, Hzero.
    unfold select_window, timedelta_hours. f_equal.
    apply filter_ext. intros r. unfold between.
    destruct (prediction_time r) as [t|]; [|reflexivity].
    destruct (Z.eqb_spec t (clock w (ticks s)));
      destruct (Z.leb_spec (clock w (ticks s) - 0 * 3600000000) t);
      destruct (Z.leb_spec t (clock w (ticks s))); cbn; try reflexivity; lia.
Qed.

Lemma degenerate_lookback_witness :
  window_representable (clock sample_world (ticks sample_state))
                       (BATCH_HOURS backwards_config) = true
  /\ BATCH_HOURS backwards_config < 0
  /\ df_len (fetched_frame sample_world (BATCH_HOURS backwards_config) sample_state)
     = 0%nat
  /\ monitoring_metrics
       (snd (main_monitoring_job backwards_config sample_world sample_state))
     = monitoring_metrics sample_state.
Proof.
  split; [reflexivity|]. split; [reflexivity|].
  pose proof (degenerate_lookback backwards_config sample_world sample_state eq_refl)
    as (Hneg & _).
  destruct (Hneg eq_refl) as (_ & _ & Hlen & Hm & _).
  split; assumption.
Defined.

(** ** The frames handed to the drift test *)

(** X7. Preparing a frame for the drift test keeps its rows and, in their
    order, all its columns except those named prediction; a declared feature
    the frame does not have is added after them as a column of missing
    values only. Nothing else is added or removed. *)
Theorem preparation_keeps_data (reference current : DataFrame) :
  let '(r, c, _) := drift_inputs reference current in
  (df_len r = df_len reference
   /\ df_data r
      = filter (fun col => negb (String.eqb (fst col) "prediction"))
               (df_data reference)
        ++ added_columns reference)
  /\ (df_len c = df_len current
      /\ df_data c
         = filter (fun col => negb (String.eqb (fst col) "prediction"))
                  (df_data current)
           ++ added_columns current).
Proof.
  destruct (drift_inputs_frames reference current) as (Hr & Hc).
  destruct (drift_inputs reference current) as [[r c] cm].
  cbn [fst snd] in Hr, Hc. subst r c. split; apply prepared_frame_data.
Qed.

(** X8. Preparing a prepared frame changes nothing: the drift inputs of the
    drift inputs are the same frames and the same column mapping. *)
Theorem preparation_idempotent (reference current : DataFrame) :
  let '(r, c, cm) := drift_inputs reference current in
  drift_inputs r c = (r, c, cm).
Proof.
  assert (H : forall df, prepared_frame (prepared_frame df) = prepared_frame df).
  { intros df.
    destruct (prepared_frame_columns df) as (Hp & H1 & H2).
    change (drop_prediction
              (ensure_column (ensure_column df "feature_1") "feature_2"))
      with (prepared_frame df) in Hp, H1, H2.
    set (df' := prepared_frame df) in *.
    unfold prepared_frame. cbn [fold_left required_features].
    unfold ensure_column at 2. rewrite H1.
    unfold ensure_column. rewrite H2.
    unfold drop_prediction. rewrite Hp. reflexivity. }
  pose proof (drift_inputs_frames reference current) as (Hr & Hc).
  destruct (drift_inputs reference current) as [[r c] cm] eqn:Hin.
  cbn [fst snd] in Hr, Hc.
  assert (Hcm : cm = mkMapping (Some ["feature_1"; "feature_2"]) None None)
    by (unfold drift_inputs in Hin; cbn in Hin; congruence).
  pose proof (drift_inputs_frames r c) as (Hr' & Hc').
  destruct (drift_inputs r c) as [[r' c'] cm'] eqn:Hin'.
  cbn [fst snd] in Hr', Hc'.
  assert (Hcm' : cm' = mkMapping (Some ["feature_1"; "feature_2"]) None None)
    by (unfold drift_inputs in Hin'; cbn in Hin'; congruence).
  subst. rewrite !H. reflexivity.
Qed.

(** ** Any number of cycles *)

Lemma paired_app (a b : list MonitoringMetric) :
  paired a = true -> paired (a ++ b) = paired b.
Proof.
  assert (H : forall n (l : list MonitoringMetric),
             (List.length l <= n)%nat -> paired l = true -> paired (l ++ b) = paired b).
  { induction n as [|n IH]; intros l Hlen Hp.
    - destruct l; [reflexivity|cbn in Hlen; lia].
    - destruct l as [|d [|c rest]]; [reflexivity|discriminate Hp|].
      cbn [paired app] in *. apply andb_true_iff in Hp. destruct Hp as (Hdc & Hrest).
      rewrite Hdc. cbn [andb]. apply IH; [cbn in Hlen; lia|exact Hrest]. }
  apply (H (List.length a)). lia.
Qed.

(** A table made of pairs is still one after any number of cycles. *)
Lemma run_cycles_paired (cfg : Config) (ws : list World) (s : State) :
  paired (monitoring_metrics s) = true ->
  paired (monitoring_metrics (run_cycles cfg ws s)) = true.
Proof.
  revert s. induction ws as [|w ws IH]; intros s Hs; [exact Hs|].
  cbn [run_cycles]. apply IH.
  destruct (main_appends_pair cfg w s) as (suffix & Hm & Hsuffix).
  rewrite Hm, paired_app by exact Hs.
  destruct Hsuffix as [->|(d & c & -> & Hd & Hc & _)]; [reflexivity|].
  cbn. rewrite Hd, Hc. reflexivity.
Qed.

(** X1. Over any number of cycles, in any worlds, the metrics table only
    grows at its end by summary/count pairs: the rows it had stay where
    they were, at most two rows are added per cycle, and a table made of
    pairs remains one. *)
Theorem cycles_append_pairs (cfg : Config) (ws : list World) (s : State) :
  exists suffix,
    monitoring_metrics (run_cycles cfg ws s) = monitoring_metrics s ++ suffix
    /\ paired suffix = true
    /\ (List.length suffix <= 2 * List.length ws)%nat
    /\ (paired (monitoring_metrics s) = true ->
        paired (monitoring_metrics (run_cycles cfg ws s)) = true).
Proof.
  revert s. induction ws as [|w ws IH]; intros s.
  - exists []. cbn. rewrite app_nil_r. auto.
  - cbn [run_cycles].
    destruct (main_appends_pair cfg w s) as (first & Hm & Hfirst).
    destruct (IH (snd (main_monitoring_job cfg w s))) as (more & Hmore & Hp & Hlen & _).
    assert (Hpf : paired first = true /\ (List.length first <= 2)%nat).
    { destruct Hfirst as [->|(d & c & -> & Hd & Hc & _)]; [cbn; auto|].
      cbn. rewrite Hd, Hc. cbn. auto. }
    destruct Hpf as (Hpf & Hlf).
    assert (Hps : paired (first ++ more) = true)
      by (rewrite paired_app; assumption).
    exists (first ++ more). rewrite Hmore, Hm, <- app_assoc.
    split; [reflexivity|]. split; [exact Hps|].
    split; [rewrite length_app; cbn [List.length]; lia|].
    intros Hs. rewrite paired_app; assumption.
Qed.

Lemma cycles_append_pairs_witness :
  paired (monitoring_metrics sample_state) = true
  /\ paired (monitoring_metrics
               (run_cycles hook_config [sample_world; flaky_world; sample_world]
                           sample_state)) = true.
Proof.
  split; [reflexivity|].
  destruct (cycles_append_pairs hook_config [sample_world; flaky_world; sample_world]
              sample_state) as (suffix & _ & _ & _ & Hp).
  exact (Hp eq_refl).
Defined.

(** ** The dashboard reads what the job wrote *)

Lemma paired_has_both (table : list MonitoringMetric) :
  paired table = true ->
  table <> [] ->
  (exists d, In d table /\ metric_name d = "data_drift_summary")
  /\ (exists c, In c table /\ metric_name c = "prediction_count").
Proof.
  destruct table as [|d [|c rest]]; [congruence|discriminate|].
  cbn [paired]. rewrite !andb_true_iff, !String.eqb_eq.
  intros ((Hd & Hc) & _) _. split; [exists d|exists c]; cbn; auto.
Qed.

Lemma iloc0_select (rows : list MonitoringMetric) (name : string)
      (r : MonitoringMetric) :
  In r rows -> metric_name r = name ->
  exists first,
    Dashboard.iloc0 (Dashboard.select_metric rows name) = Returned first
    /\ In first rows /\ metric_name first = name.
Proof.
  intros Hin Hname.
  assert (Hsel : In r (Dashboard.select_metric rows name)).
  { apply filter_In. split; [exact Hin|]. apply String.eqb_eq, Hname. }
  destruct (Dashboard.select_metric rows name) as [|first rest] eqn:Hs;
    [contradiction|].
  exists first. split; [reflexivity|].
  assert (Hf : In first (Dashboard.select_metric rows name))
    by (rewrite Hs; left; reflexivity).
  apply filter_In in Hf. destruct Hf as (Hf & Hn).
  split; [exact Hf|]. apply String.eqb_eq, Hn.
Qed.

(** X10. On a metrics table that only the job has written, starting from an
    empty one, the dashboard's two lookups cannot fail: whenever the query
    returns rows at all, in whatever order, there is a data_drift_summary
    row and a prediction_count row to take. *)
Theorem dashboard_lookups_succeed (cfg : Config) (ws : list World) (s : State)
        (metrics_df : list MonitoringMetric) :
  monitoring_metrics s = [] ->
  Permutation (monitoring_metrics (run_cycles cfg ws s)) metrics_df ->
  metrics_df <> [] ->
  exists d c,
    Dashboard.latest_drift metrics_df = Returned d
    /\ Dashboard.latest_count metrics_df = Returned c
    /\ metric_name d = "data_drift_summary"
    /\ metric_name c = "prediction_count".
Proof.
  intros Hempty Hperm Hne.
  assert (Hp : paired (monitoring_metrics (run_cycles cfg ws s)) = true)
    by (apply run_cycles_paired; rewrite Hempty; reflexivity).
  assert (Hne' : monitoring_metrics (run_cycles cfg ws s) <> []).
  { intros H. rewrite H in Hperm. apply Permutation_nil in Hperm. contradiction. }
  destruct (paired_has_both _ Hp Hne') as ((d0 & Hd0 & Hnd) & (c0 & Hc0 & Hnc)).
  destruct (iloc0_select metrics_df _ d0 (Permutation_in _ Hperm Hd0) Hnd)
    as (d & Hd & _ & Hdn).
  destruct (iloc0_select metrics_df _ c0 (Permutation_in _ Hperm Hc0) Hnc)
    as (c & Hc & _ & Hcn).
  exists d, c. auto.
Qed.

Lemma dashboard_lookups_succeed_witness :
  monitoring_metrics sample_state = []
  /\ monitoring_metrics (run_cycles hook_config [sample_world] sample_state) <> []
  /\ exists d c,
       Dashboard.latest_drift
         (monitoring_metrics (run_cycles hook_config [sample_world] sample_state))
       = Returned d
       /\ Dashboard.latest_count
            (monitoring_metrics (run_cycles hook_config [sample_world] sample_state))
          = Returned c.
Proof.
  assert (Hne : monitoring_metrics (run_cycles hook_config [sample_world] sample_state)
                <> []) by (vm_compute; discriminate).
  split; [reflexivity|]. split; [exact Hne|].
  destruct (dashboard_lookups_succeed hook_config [sample_world] sample_state
              (monitoring_metrics (run_cycles hook_config [sample_world] sample_state))
              eq_refl (Permutation_refl _) Hne)
    as (d & c & Hd & Hc & _).
  exists d, c. split; assumption.
Defined.

Lemma first_selected_is_newest (rows : list MonitoringMetric) (name : string)
      (d : MonitoringMetric) :
  Dashboard.newest_first rows ->
  Dashboard.iloc0 (Dashboard.select_metric rows name) = Returned d ->
  In d rows /\ metric_name d = name
  /\ forall r, In r rows -> metric_name r = name -> timestamp r <= timestamp d.
Proof.
  unfold Dashboard.newest_first, Dashboard.select_metric.
  induction rows as [|a rows IH]; intros Hsorted Hfirst; [discriminate Hfirst|].
  apply StronglySorted_inv in Hsorted. destruct Hsorted as (Hrest & Hall).
  cbn [filter] in Hfirst. destruct (String.eqb (metric_name a) name) eqn:Ha.
  - cbn in Hfirst. inversion Hfirst; subst a.
    split; [left; reflexivity|]. split; [apply String.eqb_eq, Ha|].
    intros r [<-|Hr] _; [lia|].
    rewrite Forall_forall in Hall. apply Hall, Hr.
  - destruct (IH Hrest Hfirst) as (Hin & Hname & Hmax).
    split; [right; exact Hin|]. split; [exact Hname|].
    intros r [<-|Hr] Hrn; [|apply Hmax; assumption].
    apply String.eqb_neq in Ha. contradiction.
Qed.

(** X11. When the query returns the rows newest first, the summary row and
    the count row the dashboard shows are the most recent of their kind: no
    row of the same name in the table has a later timestamp. *)
Theorem dashboard_shows_latest (metrics_df : list MonitoringMetric)
        (d c : MonitoringMetric) :
  Dashboard.newest_first metrics_df ->
  Dashboard.latest_drift metrics_df = Returned d ->
  Dashboard.latest_count metrics_df = Returned c ->
  (In d metrics_df /\ metric_name d = "data_drift_summary"
   /\ forall r, In r metrics_df -> metric_name r = "data_drift_summary" ->
                timestamp r <= timestamp d)
  /\ (In c metrics_df /\ metric_name c = "prediction_count"
      /\ forall r, In r metrics_df -> metric_name r = "prediction_count" ->
                   timestamp r <= timestamp c).
Proof.
  intros Hsorted Hd Hc.
  split; [exact (first_selected_is_newest _ _ _ Hsorted Hd)
         |exact (first_selected_is_newest _ _ _ Hsorted Hc)].
Qed.

Lemma dashboard_shows_latest_witness :
  Dashboard.newest_first Dashboard.sample_metrics
  /\ Dashboard.latest_drift Dashboard.sample_metrics
     = Returned (Dashboard.sample_metric "data_drift_summary" 3)
  /\ Dashboard.latest_count Dashboard.sample_metrics
     = Returned (Dashboard.sample_metric "prediction_count" 4)
  /\ forall r, In r Dashboard.sample_metrics ->
               metric_name r = "data_drift_summary" -> timestamp r <= 3.
Proof.
  assert (Hsorted : Dashboard.newest_first Dashboard.sample_metrics).
  { unfold Dashboard.newest_first, Dashboard.sample_metrics.
    repeat (constructor; [|repeat constructor; cbn [timestamp Dashboard.sample_metric]; lia]).
    constructor. }
  split; [exact Hsorted|]. split; [reflexivity|]. split; [reflexivity|].
  exact (proj2 (proj2 (proj1 (dashboard_shows_latest Dashboard.sample_metrics
                                (Dashboard.sample_metric "data_drift_summary" 3)
                                (Dashboard.sample_metric "prediction_count" 4)
                                Hsorted eq_refl eq_refl)))).
Defined.

(** ** The address of the prediction service *)

Lemma prefix_app (p s : string) : String.prefix p (p ++ s)%string = true.
Proof.
  induction p as [|a p IH]; [destruct s; reflexivity|].
  cbn. destruct (Ascii.ascii_dec a a) as [_|Hne]; [exact IH|contradiction Hne; reflexivity].
Qed.

(** X12. The address the dashboard calls always has a scheme: a host given
    with http:// or https:// is used as it is, any other host is wrapped
    into http://host:8000. Computing the address of an address gives the
    same address. *)
Theorem api_url_has_scheme (API_HOST : string) :
  Dashboard.has_scheme (Dashboard.API_URL API_HOST) = true
  /\ Dashboard.API_URL (Dashboard.API_URL API_HOST) = Dashboard.API_URL API_HOST
  /\ (Dashboard.has_scheme API_HOST = true -> Dashboard.API_URL API_HOST = API_HOST)
  /\ (Dashboard.has_scheme API_HOST = false ->
      Dashboard.API_URL API_HOST = ("http://" ++ API_HOST ++ ":8000")%string).
Proof.
  assert (Hkeep : forall h, Dashboard.has_scheme h = true -> Dashboard.API_URL h = h).
  { intros h. unfold Dashboard.has_scheme, Dashboard.API_URL.
    destruct (String.prefix "http://" h), (String.prefix "https://" h);
      cbn; congruence. }
  assert (Hwrap : forall h, Dashboard.has_scheme h = false ->
                            Dashboard.API_URL h = ("http://" ++ h ++ ":8000")%string).
  { intros h. unfold Dashboard.has_scheme, Dashboard.API_URL.
    destruct (String.prefix "http://" h), (String.prefix "https://" h);
      cbn; congruence. }
  assert (Hscheme : Dashboard.has_scheme (Dashboard.API_URL API_HOST) = true).
  { destruct (Dashboard.has_scheme API_HOST) eqn:H.
    - rewrite Hkeep; assumption.
    - rewrite Hwrap by assumption. unfold Dashboard.has_scheme.
      rewrite prefix_app. reflexivity. }
  split; [exact Hscheme|]. split; [apply Hkeep, Hscheme|].
  split; [apply Hkeep|apply Hwrap].
Qed.

Lemma api_url_has_scheme_witness :
  Dashboard.has_scheme "api" = false
  /\ Dashboard.API_URL "api" = "http://api:8000"
  /\ Dashboard.has_scheme "https://vigil.example" = true
  /\ Dashboard.API_URL "https://vigil.example" = "https://vigil.example".
Proof.
  pose proof (api_url_has_scheme "api") as (_ & _ & _ & Hwrap).
  pose proof (api_url_has_scheme "https://vigil.example") as (_ & _ & Hkeep & _).
  split; [reflexivity|]. split; [exact (Hwrap eq_refl)|].
  split; [reflexivity|exact (Hkeep eq_refl)].
Defined.

(** * Creating the tables *)

Lemma create_db_waits_app (a b : list CreateDb.event) :
  CreateDb.waits (a ++ b) = CreateDb.waits a ++ CreateDb.waits b.
Proof. unfold CreateDb.waits. apply flat_map_app. Qed.

Lemma create_db_calls_app (a b : list CreateDb.event) :
  CreateDb.calls (a ++ b) = (CreateDb.calls a + CreateDb.calls b)%nat.
Proof. unfold CreateDb.calls. rewrite filter_app, length_app. reflexivity. Qed.

(** The loop from turn [a] on: what it returns and how long it took. *)
Lemma attempts_run (create_all : nat -> result unit) (len a : nat) :
  (a + len = CreateDb.MAX_RETRIES)%nat ->
  (0 < len)%nat ->
  let (r, evs) := CreateDb.attempts create_all (seq a len) in
  (1 <= CreateDb.calls evs <= len)%nat
  /\ CreateDb.waits evs = repeat CreateDb.RETRY_DELAY (CreateDb.calls evs - 1)
  /\ (forall j, (a <= j < a + CreateDb.calls evs - 1)%nat ->
                create_all j = Raised OperationalError)
  /\ match create_all (a + CreateDb.calls evs - 1)%nat with
     | Returned _ => r = Returned tt
     | Raised e =>
         r = Raised e
         /\ (e = OperationalError -> CreateDb.calls evs = len)
     end.
Proof.
  revert a. induction len as [|len IH]; intros a Hsum Hpos; [lia|].
  cbn [seq CreateDb.attempts].
  destruct (create_all a) as [u|e] eqn:Ha.
  - cbn. replace (a + 1 - 1)%nat with a by lia. rewrite Ha.
    split; [lia|]. split; [reflexivity|]. split; [intros j Hj; lia|reflexivity].
  - destruct e; try (cbn; replace (a + 1 - 1)%nat with a by lia; rewrite Ha;
                     split; [lia|]; split; [reflexivity|];
                     split; [intros j Hj; lia|]; split; [reflexivity|discriminate]).
    destruct (a <? CreateDb.MAX_RETRIES - 1)%nat eqn:Hlt.
    + apply Nat.ltb_lt in Hlt.
      assert (Hlen : (0 < len)%nat) by lia.
      specialize (IH (S a) ltac:(lia) Hlen).
      destruct (CreateDb.attempts create_all (seq (S a) len)) as [r evs].
      destruct IH as (Hcalls & Hwaits & Hbefore & Hlast).
      rewrite !create_db_calls_app, !create_db_waits_app, Hwaits. cbn [CreateDb.calls
        CreateDb.waits filter flat_map List.length app Nat.add].
      change (CreateDb.calls evs) with
        (List.length (filter (fun e => match e with
                                       | CreateDb.CreateAll => true
                                       | _ => false
                                       end) evs)) in *.
      set (c := List.length _) in *.
      replace (a + S c - 1)%nat with (S a + c - 1)%nat by lia.
      split; [lia|]. split.
      * replace (S c - 1)%nat with (S (c - 1)) by lia. reflexivity.
      * split.
        -- intros j Hj. destruct (Nat.eq_dec j a) as [->|Hne]; [exact Ha|].
           apply Hbefore. lia.
        -- destruct (create_all (S a + c - 1)%nat) as [u|e]; [exact Hlast|].
           destruct Hlast as (Hr & He). split; [exact Hr|]. intros Hop.
           rewrite (He Hop). reflexivity.
    + apply Nat.ltb_ge in Hlt. unfold CreateDb.MAX_RETRIES in *.
      cbn. replace (a + 1 - 1)%nat with a by lia. rewrite Ha.
      split; [lia|]. split; [reflexivity|]. split; [intros j Hj; lia|].
      split; [reflexivity|]. intros _. lia.
Qed.

Lemma create_database_tables_run (create_all : nat -> result unit) :
  let (r, evs) := CreateDb.create_database_tables create_all in
  (1 <= CreateDb.calls evs <= CreateDb.MAX_RETRIES)%nat
  /\ CreateDb.waits evs = repeat CreateDb.RETRY_DELAY (CreateDb.calls evs - 1)
  /\ (forall j, (j < CreateDb.calls evs - 1)%nat ->
                create_all j = Raised OperationalError)
  /\ match create_all (CreateDb.calls evs - 1)%nat with
     | Returned _ => r = Returned tt
     | Raised e =>
         r = Raised e
         /\ (e = OperationalError -> CreateDb.calls evs = CreateDb.MAX_RETRIES)
     end.
Proof.
  unfold CreateDb.create_database_tables.
  pose proof (attempts_run create_all CreateDb.MAX_RETRIES 0 eq_refl
                ltac:(unfold CreateDb.MAX_RETRIES; lia)) as H.
  destruct (CreateDb.attempts create_all (seq 0 CreateDb.MAX_RETRIES)) as [r evs].
  destruct H as (Hc & Hw & Hb & Hl).
  change (CreateDb.calls (CreateDb.Print CreateDb.LogStarting :: evs))
    with (CreateDb.calls evs).
  change (CreateDb.waits (CreateDb.Print CreateDb.LogStarting :: evs))
    with (CreateDb.waits evs).
  cbn [Nat.add] in Hb, Hl.
  split; [exact Hc|]. split; [exact Hw|]. split; [|exact Hl].
  intros j Hj. apply Hb. lia.
Qed.

(** The turn at which the loop stops is the first whose outcome is not an
    [OperationalError]. *)
Lemma create_database_tables_stop (create_all : nat -> result unit) (k : nat) :
  (k < CreateDb.MAX_RETRIES)%nat ->
  (forall j, (j < k)%nat -> create_all j = Raised OperationalError) ->
  create_all k <> Raised OperationalError ->
  CreateDb.calls (snd (CreateDb.create_database_tables create_all)) = (k + 1)%nat.
Proof.
  intros Hk Hbefore Hsettled.
  pose proof (create_database_tables_run create_all) as H.
  destruct (CreateDb.create_database_tables create_all) as [r evs].
  destruct H as (Hc & _ & Hb & Hl). cbn [snd].
  set (c := CreateDb.calls evs) in *.
  destruct (Nat.lt_trichotomy (c - 1) k) as [Hlt|[Heq|Hgt]]; [|lia|].
  - rewrite (Hbefore _ Hlt) in Hl. destruct Hl as (_ & Hlen).
    specialize (Hlen eq_refl). lia.
  - contradiction Hsettled. apply Hb. exact Hgt.
Qed.






(** X16. The function returns normally exactly when one of the ten attempts
    succeeds and every attempt before it failed with an [OperationalError]. *)
Theorem create_db_returns_iff (create_all : nat -> result unit) :
  fst (CreateDb.create_database_tables create_all) = Returned tt
  <-> exists k, (k < 10)%nat
                /\ create_all k = Returned tt
                /\ forall j, (j < k)%nat -> create_all j = Raised OperationalError.
Proof.
  split.
  - intros Hret.
    pose proof (create_database_tables_run create_all) as H.
    destruct (CreateDb.create_database_tables create_all) as [r evs].
    destruct H as (Hc & _ & Hb & Hl). cbn [fst] in Hret. subst r.
    unfold CreateDb.MAX_RETRIES in Hc.
    exists (CreateDb.calls evs - 1)%nat. split; [lia|]. split; [|exact Hb].
    destruct (create_all (CreateDb.calls evs - 1)%nat) as [[]|e]; [reflexivity|].
    destruct Hl as (Hl & _). discriminate Hl.
  - intros (k & Hk & Hok & Hbefore).
    assert (Hans : create_all k <> Raised OperationalError)
      by (rewrite Hok; discriminate).
    pose proof (create_database_tables_stop create_all k Hk Hbefore Hans) as Hcalls.
    pose proof (create_database_tables_run create_all) as H.
    destruct (CreateDb.create_database_tables create_all) as [r evs].
    destruct H as (_ & _ & _ & Hl). cbn [fst snd] in *.
    rewrite Hcalls in Hl. replace (k + 1 - 1)%nat with k in Hl by lia.
    rewrite Hok in Hl. exact Hl.
Qed.

(** * Feeding production traffic *)

Lemma filter_length_split {A : Type} (p : A -> bool) (l : list A) :
  (List.length (filter p l) + List.length (filter (fun a => negb (p a)) l)
   = List.length l)%nat.
Proof.
  induction l as [|a l IH]; [reflexivity|].
  cbn [filter]. destruct (p a); cbn [negb List.length]; lia.
Qed.

Lemma filter_uniform {A : Type} (p : A -> bool) (b : bool) (l : list A) :
  Forall (fun a => p a = b) l ->
  List.length (filter p l) = (if b then List.length l else 0%nat).
Proof.
  induction 1 as [|a l Ha Hl IH]; [destruct b; reflexivity|].
  cbn [filter]. rewrite Ha. destruct b; cbn [List.length]; rewrite IH; reflexivity.
Qed.

Lemma answers_length (w : Feeder.World) (cfg : Feeder.Settings)
      (batch : list Feeder.ProductionRecord) (sent : nat) :
  List.length (Feeder.answers w cfg batch sent) = List.length batch.
Proof.
  revert sent. induction batch as [|record rest IH]; intros sent; [reflexivity|].
  cbn [Feeder.answers List.length]. rewrite IH. reflexivity.
Qed.

Lemma answers_uniform (w : Feeder.World) (cfg : Feeder.Settings)
      (batch : list Feeder.ProductionRecord) (sent : nat) (b : bool) :
  (forall i r, nth_error batch i = Some r ->
               Feeder.accepted
                 (Feeder.api_post w (sent + i) (Feeder.PREDICT_ENDPOINT cfg) r 5) = b) ->
  Forall (fun a => Feeder.accepted a = b) (Feeder.answers w cfg batch sent).
Proof.
  revert sent. induction batch as [|record rest IH]; intros sent H; [constructor|].
  cbn [Feeder.answers]. constructor.
  - specialize (H 0%nat record eq_refl). rewrite Nat.add_0_r in H. exact H.
  - apply IH. intros i r Hi. specialize (H (S i) r Hi).
    replace (S sent + i)%nat with (sent + S i)%nat by lia. exact H.
Qed.

(** The loop counts each record once, by the answer to its own request. *)
Lemma send_records_run (w : Feeder.World) (cfg : Feeder.Settings)
      (batch : list Feeder.ProductionRecord) (sent s0 f0 : nat) :
  let '(s, f, n, evs) := Feeder.send_records w cfg batch sent s0 f0 in
  s = (s0 + List.length (filter Feeder.accepted
                                (Feeder.answers w cfg batch sent)))%nat
  /\ f = (f0 + List.length (filter (fun a => negb (Feeder.accepted a))
                                   (Feeder.answers w cfg batch sent)))%nat
  /\ n = (sent + List.length batch)%nat
  /\ Feeder.posted evs = batch
  /\ Feeder.pauses evs = []
  /\ Feeder.batch_sizes evs = [].
Proof.
  revert sent s0 f0. induction batch as [|record rest IH]; intros sent s0 f0.
  - cbn. repeat split; lia.
  - set (a := Feeder.api_post w sent (Feeder.PREDICT_ENDPOINT cfg) record 5).
    assert (Hgen : forall s1 f1 said,
               s1 = (s0 + (if Feeder.accepted a then 1 else 0))%nat ->
               f1 = (f0 + (if Feeder.accepted a then 0 else 1))%nat ->
               Feeder.posted said = [] ->
               Feeder.pauses said = [] ->
               Feeder.batch_sizes said = [] ->
               let '(s, f, n, evs) :=
                 (let '(s, f, n, more) :=
                    Feeder.send_records w cfg rest (S sent) s1 f1 in
                  (s, f, n,
                   Feeder.Post (Feeder.PREDICT_ENDPOINT cfg) record 5 :: said ++ more)) in
               s = (s0 + List.length
                           (filter Feeder.accepted
                                   (Feeder.answers w cfg (record :: rest) sent)))%nat
               /\ f = (f0 + List.length
                              (filter (fun a => negb (Feeder.accepted a))
                                      (Feeder.answers w cfg (record :: rest) sent)))%nat
               /\ n = (sent + List.length (record :: rest))%nat
               /\ Feeder.posted evs = record :: rest
               /\ Feeder.pauses evs = []
               /\ Feeder.batch_sizes evs = []).
    { intros s1 f1 said Hs1 Hf1 Hp1 Hw1 Hb1.
      specialize (IH (S sent) s1 f1).
      destruct (Feeder.send_records w cfg rest (S sent) s1 f1) as [[[s f] n] more].
      destruct IH as (Hs & Hf & Hn & Hp & Hw & Hb).
      change (Feeder.Post (Feeder.PREDICT_ENDPOINT cfg) record 5 :: said ++ more)
        with ([Feeder.Post (Feeder.PREDICT_ENDPOINT cfg) record 5] ++ said ++ more).
      unfold Feeder.posted, Feeder.pauses, Feeder.batch_sizes in *.
      rewrite !flat_map_app, Hp, Hw, Hb, Hp1, Hw1, Hb1.
      cbn [flat_map app List.length Feeder.answers filter]. fold a.
      destruct (Feeder.accepted a); cbn [negb List.length];
        repeat split; try reflexivity; lia. }
    cbn [Feeder.send_records]. fold a.
    destruct a as [response|e] eqn:Hpost; cbn [Feeder.accepted] in Hgen.
    + destruct (status_code response =? 200) eqn:Hstatus.
      * apply (Hgen (S s0) f0 []); auto; lia.
      * apply (Hgen s0 (S f0) [_]); auto; lia.
    + destruct e; apply (Hgen s0 (S f0) [_]); auto; lia.
Qed.

(** X17. Sending a batch never raises and accounts for every record: each
    record is posted once, in order, and counted once, by the answer to its
    own request, as a success when that answer has status 200 and as a
    failure for any other status and for any exception. So the number of
    successes is the number of records answered with a 200 and the number of
    failures the number of the others; the two add up to the size of the
    batch; all records count as successes when every answer is a 200, and
    all as failures when none is. *)
Theorem send_batch_accounts_for_every_record (w : Feeder.World)
        (cfg : Feeder.Settings) (batch : list Feeder.ProductionRecord) (sent : nat) :
  let '(success_count, failure_count, sent', evs) :=
    Feeder.send_batch_to_api w cfg batch sent in
  success_count
  = List.length (filter Feeder.accepted (Feeder.answers w cfg batch sent))
  /\ failure_count
     = List.length (filter (fun a => negb (Feeder.accepted a))
                           (Feeder.answers w cfg batch sent))
  /\ (success_count + failure_count = List.length batch)%nat
  /\ sent' = (sent + List.length batch)%nat
  /\ Feeder.posted evs = batch
  /\ ((forall i r, nth_error batch i = Some r ->
                   Feeder.accepted
                     (Feeder.api_post w (sent + i) (Feeder.PREDICT_ENDPOINT cfg) r 5)
                   = true) ->
      success_count = List.length batch /\ failure_count = 0%nat)
  /\ ((forall i r, nth_error batch i = Some r ->
                   Feeder.accepted
                     (Feeder.api_post w (sent + i) (Feeder.PREDICT_ENDPOINT cfg) r 5)
                   = false) ->
      success_count = 0%nat /\ failure_count = List.length batch).
Proof.
  unfold Feeder.send_batch_to_api.
  pose proof (send_records_run w cfg batch sent 0 0) as H.
  destruct (Feeder.send_records w cfg batch sent 0 0) as [[[s f] n] evs].
  destruct H as (Hs & Hf & Hn & Hp & _ & _).
  cbn [Nat.add] in Hs, Hf.
  pose proof (filter_length_split Feeder.accepted (Feeder.answers w cfg batch sent))
    as Hsplit.
  rewrite answers_length in Hsplit.
  split; [exact Hs|]. split; [exact Hf|].
  split; [lia|]. split; [exact Hn|]. split; [exact Hp|]. split.
  - intros H. apply answers_uniform in H.
    apply (filter_uniform Feeder.accepted true) in H.
    rewrite answers_length in H. lia.
  - intros H. apply answers_uniform in H.
    apply (filter_uniform Feeder.accepted false) in H. lia.
Qed.

Lemma send_batch_accounts_for_every_record_witness :
  let batch := Feeder.generate_production_data Feeder.unreachable_world 3 in
  (forall i r, nth_error batch i = Some r ->
               Feeder.accepted
                 (Feeder.api_post Feeder.unreachable_world (0 + i)
                    (Feeder.PREDICT_ENDPOINT Feeder.default_settings) r 5) = false)
  /\ fst (fst (Feeder.send_batch_to_api Feeder.unreachable_world
                 Feeder.default_settings batch 0)) = (0%nat, 3%nat).
Proof.
  intros batch.
  assert (Hnone : forall i r, nth_error batch i = Some r ->
                    Feeder.accepted
                      (Feeder.api_post Feeder.unreachable_world (0 + i)
                         (Feeder.PREDICT_ENDPOINT Feeder.default_settings) r 5) = false)
    by (intros i r _; reflexivity).
  split; [exact Hnone|].
  pose proof (send_batch_accounts_for_every_record Feeder.unreachable_world
                Feeder.default_settings batch 0) as H.
  destruct (Feeder.send_batch_to_api Feeder.unreachable_world
              Feeder.default_settings batch 0) as [[[s f] n] evs].
  destruct H as (_ & _ & _ & _ & _ & _ & Hfail).
  destruct (Hfail Hnone) as (Hs & Hf). cbn [fst]. rewrite Hs, Hf. reflexivity.
Defined.

(** A batch of three with the second request refused: two successes and one
    failure, not three of either. *)
Example mixed_batch :
  let batch := Feeder.generate_production_data Feeder.alternating_world 3 in
  map Feeder.accepted
      (Feeder.answers Feeder.alternating_world Feeder.default_settings batch 0)
    = [true; false; true]
  /\ fst (fst (Feeder.send_batch_to_api Feeder.alternating_world
                 Feeder.default_settings batch 0)) = (2%nat, 1%nat).
Proof. split; reflexivity. Qed.










(** Three records in batches of two: a batch of two, then a batch of one. *)
Example uneven_simulation :
  Feeder.full_batches 3 2 = [2%nat; 1%nat]
  /\ Feeder.batch_sizes
       (snd (Feeder.simulate_production_traffic Feeder.steady_world
               (Feeder.mkSettings "http://api:8000" 3 2 1)))
     = [2%nat; 1%nat].
Proof. split; reflexivity. Qed.

Example default_simulation :
  let evs := snd (Feeder.simulate_production_traffic Feeder.steady_world
                    Feeder.default_settings) in
  Feeder.batch_sizes evs = repeat 10%nat 50
  /\ List.length (Feeder.pauses evs) = 49%nat
  /\ last evs (Feeder.Sleep 0) = Feeder.Print Feeder.LogLoggingSuccessful.
Proof. vm_compute. repeat split; reflexivity. Qed.

(** * Serving predictions *)

Lemma api_events_since (s s' : Api.State) (evs : list Api.event) :
  Api.trace s' = Api.trace s ++ evs -> Api.events_since s s' = evs.
Proof.
  intros H. unfold Api.events_since. rewrite H.
  rewrite skipn_app, skipn_all, Nat.sub_diag. reflexivity.
Qed.

Lemma log_and_respond_run (V : string) (w : Api.World)
      (request : Api.PredictionRequest) (p : Z) (s : Api.State) :
  let row := mkLog (Some (Api.request_feature_1 request))
                   (Some (Api.request_feature_2 request))
                   (Some p) None (Api.default_prediction_time w) (Some V) in
  let run := Api.log_and_respond V w request p s in
  exists evs,
    Api.trace (snd run) = Api.trace s ++ evs
    /\ (Api.logs (snd run) = Api.logs s
        \/ Api.logs (snd run) = Api.logs s ++ Api.pending s ++ [row])
    /\ match Api.fault_exn (Api.logging_fault w) with
       | None =>
           fst run = Api.Responded (Api.mkPrediction p V)
           /\ Api.logs (snd run) = Api.logs s ++ Api.pending s ++ [row]
           /\ Api.pending (snd run) = []
           /\ evs = [Api.Add row; Api.Commit; Api.Refresh; Api.Print (Api.LogLogged p)]
       | Some e =>
           if Api.is_sqlalchemy_error e
           then fst run = Api.Responded (Api.mkPrediction p V)
                /\ Api.pending (snd run) = []
                /\ exists before,
                     evs = before ++ [Api.Rollback; Api.Print (Api.LogLoggingFailed e)]
           else fst run = Api.Escaped e
                /\ filter (fun ev => match ev with Api.Rollback => true | _ => false end)
                          evs = []
       end
    /\ (match Api.logging_fault w with
        | Api.AddFails _ | Api.CommitFails _ => Api.logs (snd run) = Api.logs s
        | _ => Api.logs (snd run) = Api.logs s ++ Api.pending s ++ [row]
        end).
Proof.
  intros row run. unfold run, Api.log_and_respond, Api.log_prediction. fold row.
  destruct (Api.logging_fault w) as [|e|e|e]; cbn [Api.fault_exn].
  - eexists. cbn. split; [reflexivity|]. auto 10.
  - destruct (Api.is_sqlalchemy_error e); cbn [fst snd Api.say Api.trace Api.logs
                                                Api.pending];
      rewrite <- ?app_assoc; eexists; (split; [reflexivity|]);
      (split; [left; reflexivity|]); (split; [|reflexivity]).
    + split; [reflexivity|]. split; [reflexivity|]. exists [Api.Add row]. reflexivity.
    + split; reflexivity.
  - destruct (Api.is_sqlalchemy_error e); cbn [fst snd Api.say Api.trace Api.logs
                                                Api.pending];
      rewrite <- ?app_assoc; eexists; (split; [reflexivity|]);
      (split; [left; reflexivity|]); (split; [|reflexivity]).
    + split; [reflexivity|]. split; [reflexivity|].
      exists [Api.Add row; Api.Commit]. reflexivity.
    + split; reflexivity.
  - destruct (Api.is_sqlalchemy_error e); cbn [fst snd Api.say Api.trace Api.logs
                                                Api.pending];
      rewrite <- ?app_assoc; eexists; (split; [reflexivity|]);
      (split; [right; reflexivity|]); (split; [|reflexivity]).
    + split; [reflexivity|]. split; [reflexivity|].
      exists [Api.Add row; Api.Commit; Api.Refresh]. reflexivity.
    + split; reflexivity.
Qed.

(** The endpoint, once the model has answered [p]. *)
Lemma predict_and_log_predicted (V : string) (w : Api.World)
      (request : Api.PredictionRequest) (s : Api.State) (p : Z) :
  Api.predicted w request = Some p ->
  exists s0,
    Api.predict_and_log V w request s = Api.log_and_respond V w request p s0
    /\ Api.logs s0 = Api.logs s /\ Api.pending s0 = Api.pending s
    /\ exists said, Api.trace s0 = Api.trace s ++ said
                    /\ filter Api.is_session_call said = [].
Proof.
  unfold Api.predicted, Api.predict_and_log.
  destruct (Api.model w) as [predict|].
  - destruct (predict request) as [p'|e]; [|discriminate].
    intros H; inversion H; subst p'. exists s.
    split; [reflexivity|]. split; [reflexivity|]. split; [reflexivity|].
    exists []. rewrite app_nil_r. auto.
  - intros H; inversion H; subst p. eexists.
    split; [reflexivity|]. cbn. split; [reflexivity|]. split; [reflexivity|].
    eexists. split; reflexivity.
Qed.

(** X19. Logging is best effort. When the store fails with an SQLAlchemy
    error while the prediction is logged, at [add], [commit] or [refresh],
    the session is rolled back and the caller gets the same response as with
    a store that does not fail; a failure before the commit completes leaves
    the table as it was. Any other exception is not handled: it escapes the
    endpoint, and no rollback is made. *)
Theorem prediction_survives_logging_failure (V : string) (w : Api.World)
        (request : Api.PredictionRequest) (s : Api.State) (p : Z)
        (f : Api.log_fault) (e : exn) :
  Api.predicted w request = Some p ->
  Api.fault_exn f = Some e ->
  let failed := Api.predict_and_log V (Api.with_fault w f) request s in
  let clean := Api.predict_and_log V (Api.with_fault w Api.NoFault) request s in
  (Api.is_sqlalchemy_error e = true ->
   fst failed = Api.Responded (Api.mkPrediction p V)
   /\ fst failed = fst clean
   /\ Api.pending (snd failed) = []
   /\ (exists before,
         Api.events_since s (snd failed)
         = before ++ [Api.Rollback; Api.Print (Api.LogLoggingFailed e)])
   /\ (match f with
       | Api.RefreshFails _ => Api.logs (snd failed) = Api.logs (snd clean)
       | _ => Api.logs (snd failed) = Api.logs s
       end))
  /\ (Api.is_sqlalchemy_error e = false ->
      fst failed = Api.Escaped e
      /\ filter (fun ev => match ev with Api.Rollback => true | _ => false end)
                (Api.events_since s (snd failed)) = []).
Proof.
  intros Hp Hf failed clean.
  assert (Hpf : forall g, Api.predicted (Api.with_fault w g) request = Some p)
    by (intros g; exact Hp).
  destruct (predict_and_log_predicted V _ request s p (Hpf f))
    as (s0 & Hrun & Hl0 & Hp0 & said & Htr0 & Hsaid).
  destruct (predict_and_log_predicted V _ request s p (Hpf Api.NoFault))
    as (s1 & Hrun1 & Hl1 & Hp1 & said1 & Htr1 & _).
  pose proof (log_and_respond_run V (Api.with_fault w f) request p s0)
    as (evs & Htr & _ & Hcase & Hlogs).
  pose proof (log_and_respond_run V (Api.with_fault w Api.NoFault) request p s1)
    as (evs1 & _ & _ & Hcase1 & _).
  unfold failed, clean. rewrite Hrun, Hrun1.
  cbn [Api.with_fault Api.logging_fault Api.fault_exn Api.default_prediction_time]
    in Hcase, Hcase1, Hlogs |- *.
  rewrite Hf in Hcase. destruct Hcase1 as (Hret1 & Hlogs1 & _).
  assert (Hev : Api.events_since s
                  (snd (Api.log_and_respond V (Api.with_fault w f) request p s0))
                = said ++ evs).
  { apply api_events_since. rewrite Htr, Htr0, app_assoc. reflexivity. }
  rewrite Hev. split.
  - intros Hsql. rewrite Hsql in Hcase. destruct Hcase as (Hret & Hpend & before & Hb).
    rewrite Hret, Hret1. split; [reflexivity|]. split; [reflexivity|].
    split; [exact Hpend|]. split.
    + exists (said ++ before). rewrite Hb, app_assoc. reflexivity.
    + destruct f as [|e0|e0|e0]; try discriminate Hf;
        rewrite Hlogs; try exact Hl0.
      rewrite Hlogs1, Hl0, Hl1, Hp0, Hp1. reflexivity.
  - intros Hsql. rewrite Hsql in Hcase. destruct Hcase as (Hret & Hnone).
    split; [exact Hret|]. rewrite filter_app, Hnone, app_nil_r.
    clear - Hsaid. induction said as [|ev said IH]; [reflexivity|].
    cbn [filter] in *. destruct ev; cbn [Api.is_session_call] in Hsaid;
      try discriminate Hsaid; auto.
Qed.

Lemma prediction_survives_logging_failure_witness :
  Api.predicted Api.sample_world Api.sample_request = Some 1
  /\ Api.fault_exn (Api.CommitFails OperationalError) = Some OperationalError
  /\ Api.is_sqlalchemy_error OperationalError = true
  /\ fst (Api.predict_and_log "v1.0"
            (Api.with_fault Api.sample_world (Api.CommitFails OperationalError))
            Api.sample_request Api.empty_state)
     = Api.Responded (Api.mkPrediction 1 "v1.0")
  /\ Api.is_sqlalchemy_error TypeError = false
  /\ fst (Api.predict_and_log "v1.0"
            (Api.with_fault Api.sample_world (Api.AddFails TypeError))
            Api.sample_request Api.empty_state)
     = Api.Escaped TypeError.
Proof.
  split; [reflexivity|]. split; [reflexivity|]. split; [reflexivity|].
  pose proof (prediction_survives_logging_failure "v1.0" Api.sample_world
                Api.sample_request Api.empty_state 1
                (Api.CommitFails OperationalError) OperationalError
                eq_refl eq_refl) as (Hsql & _).
  pose proof (prediction_survives_logging_failure "v1.0" Api.sample_world
                Api.sample_request Api.empty_state 1
                (Api.AddFails TypeError) TypeError eq_refl eq_refl) as (_ & Hother).
  split; [exact (proj1 (Hsql eq_refl))|]. split; [reflexivity|].
  exact (proj1 (Hother eq_refl)).
Defined.

Lemma predict_and_log_unpredicted (V : string) (w : Api.World)
      (request : Api.PredictionRequest) (s : Api.State) :
  Api.predicted w request = None ->
  exists e,
    Api.predict_and_log V w request s
    = (Api.HTTPException 500 "Internal Model Prediction Error.",
       Api.say s [Api.Print (Api.LogPredictionError e)]).
Proof.
  unfold Api.predicted, Api.predict_and_log.
  destruct (Api.model w) as [predict|]; [|discriminate].
  destruct (predict request) as [p|e]; [discriminate|].
  intros _. exists e. reflexivity.
Qed.

(** X20. The endpoint answers with an [HTTPException] exactly when a model
    is loaded and fails on the request; the status is then 500, and the
    session has not been used: no row is added, committed or rolled back,
    and the table is as it was. Without a model the endpoint does not fail:
    it predicts 0. *)
Theorem model_failure_answers_500 (V : string) (w : Api.World)
        (request : Api.PredictionRequest) (s : Api.State) :
  let run := Api.predict_and_log V w request s in
  ((exists status detail, fst run = Api.HTTPException status detail)
   <-> Api.predicted w request = None)
  /\ (Api.predicted w request = None ->
      fst run = Api.HTTPException 500 "Internal Model Prediction Error."
      /\ Api.logs (snd run) = Api.logs s
      /\ Api.pending (snd run) = Api.pending s
      /\ filter Api.is_session_call (Api.events_since s (snd run)) = [])
  /\ (Api.model w = None -> Api.predicted w request = Some 0).
Proof.
  intros run.
  assert (Hnone : Api.predicted w request = None ->
                  fst run = Api.HTTPException 500 "Internal Model Prediction Error."
                  /\ Api.logs (snd run) = Api.logs s
                  /\ Api.pending (snd run) = Api.pending s
                  /\ filter Api.is_session_call (Api.events_since s (snd run)) = []).
  { intros H. destruct (predict_and_log_unpredicted V w request s H) as (e & Hrun).
    unfold run. rewrite Hrun. cbn [fst snd Api.say Api.logs Api.pending].
    repeat (split; [reflexivity|]).
    erewrite api_events_since by reflexivity. reflexivity. }
  split; [|split; [exact Hnone|]].
  - split.
    + intros (status & detail & Hret).
      destruct (Api.predicted w request) as [p|] eqn:Hp; [|reflexivity].
      exfalso.
      destruct (predict_and_log_predicted V w request s p Hp) as (s0 & Hrun & _).
      pose proof (log_and_respond_run V w request p s0) as (evs & _ & _ & Hcase & _).
      unfold run in Hret. rewrite Hrun in Hret.
      destruct (Api.fault_exn (Api.logging_fault w)) as [e|].
      * destruct (Api.is_sqlalchemy_error e); destruct Hcase as (Hc & _); congruence.
      * destruct Hcase as (Hc & _). congruence.
    + intros H. destruct (Hnone H) as (Hret & _). eauto.
  - intros Hm. unfold Api.predicted. rewrite Hm. reflexivity.
Qed.

Lemma model_failure_answers_500_witness :
  Api.predicted Api.broken_model_world Api.sample_request = None
  /\ fst (Api.predict_and_log "v1.0" Api.broken_model_world Api.sample_request
            Api.empty_state)
     = Api.HTTPException 500 "Internal Model Prediction Error."
  /\ Api.logs (snd (Api.predict_and_log "v1.0" Api.broken_model_world
                      Api.sample_request Api.empty_state)) = [].
Proof.
  split; [reflexivity|].
  pose proof (model_failure_answers_500 "v1.0" Api.broken_model_world
                Api.sample_request Api.empty_state) as (_ & Hnone & _).
  destruct (Hnone eq_refl) as (Hret & Hlogs & _).
  split; [exact Hret|exact Hlogs].
Defined.

(** X21. A request adds at most one row to the prediction log and removes
    none. The row carries the two features of the request, the configured
    model version and no label, and its prediction is the one in the
    response; a response always carries the prediction the model made (0
    without a model) and the configured model version. *)
Theorem logged_row_matches_response (V : string) (w : Api.World)
        (request : Api.PredictionRequest) (s : Api.State) :
  Api.pending s = [] ->
  let run := Api.predict_and_log V w request s in
  (Api.logs (snd run) = Api.logs s
   \/ exists row,
        Api.logs (snd run) = Api.logs s ++ [row]
        /\ feature_1 row = Some (Api.request_feature_1 request)
        /\ feature_2 row = Some (Api.request_feature_2 request)
        /\ target row = None
        /\ log_model_version row = Some V
        /\ Api.predicted w request = prediction row
        /\ forall r, fst run = Api.Responded r ->
                     prediction row = Some (Api.response_prediction r))
  /\ (forall r, fst run = Api.Responded r ->
                Api.predicted w request = Some (Api.response_prediction r)
                /\ Api.response_model_version r = V)
  /\ (Api.logging_fault w = Api.NoFault ->
      forall p, Api.predicted w request = Some p ->
                fst run = Api.Responded (Api.mkPrediction p V)
                /\ List.length (Api.logs (snd run)) = S (List.length (Api.logs s))).
Proof.
  intros Hpend run.
  destruct (Api.predicted w request) as [p|] eqn:Hp.
  - destruct (predict_and_log_predicted V w request s p Hp)
      as (s0 & Hrun & Hl0 & Hp0 & _).
    pose proof (log_and_respond_run V w request p s0)
      as (evs & _ & Hlogs & Hcase & _).
    unfold run. rewrite Hrun. rewrite Hl0, Hp0, Hpend in *. cbn [app] in *.
    assert (Hresp : forall r,
               fst (Api.log_and_respond V w request p s0) = Api.Responded r ->
               r = Api.mkPrediction p V).
    { intros r Hr. destruct (Api.fault_exn (Api.logging_fault w)) as [e|].
      - destruct (Api.is_sqlalchemy_error e); destruct Hcase as (Hc & _); congruence.
      - destruct Hcase as (Hc & _). congruence. }
    split; [|split].
    + destruct Hlogs as [Hsame|Hgrow]; [left; exact Hsame|right].
      eexists. split; [exact Hgrow|]. cbn.
      repeat (split; [reflexivity|]).
      intros r Hr. rewrite (Hresp r Hr). reflexivity.
    + intros r Hr. rewrite (Hresp r Hr). split; reflexivity.
    + intros Hok q Hq. inversion Hq; subst q. rewrite Hok in Hcase.
      cbn [Api.fault_exn] in Hcase. destruct Hcase as (Hret & Hgrow & _).
      split; [exact Hret|]. rewrite Hgrow, length_app. cbn. lia.
  - destruct (predict_and_log_unpredicted V w request s Hp) as (e & Hrun).
    unfold run. rewrite Hrun. cbn [fst snd Api.say Api.logs].
    split; [left; reflexivity|]. split; [intros r Hr; discriminate Hr|].
    intros _ q Hq. discriminate Hq.
Qed.

Lemma logged_row_matches_response_witness :
  Api.pending Api.empty_state = []
  /\ Api.logging_fault (Api.with_fault Api.sample_world Api.NoFault) = Api.NoFault
  /\ Api.predicted (Api.with_fault Api.sample_world Api.NoFault) Api.sample_request
     = Some 1
  /\ List.length
       (Api.logs (snd (Api.predict_and_log "v1.0"
                         (Api.with_fault Api.sample_world Api.NoFault)
                         Api.sample_request Api.empty_state))) = 1%nat.
Proof.
  split; [reflexivity|]. split; [reflexivity|]. split; [reflexivity|].
  pose proof (logged_row_matches_response "v1.0"
                (Api.with_fault Api.sample_world Api.NoFault)
                Api.sample_request Api.empty_state eq_refl) as (_ & _ & Hok).
  exact (proj2 (Hok eq_refl 1 eq_refl)).
Defined.
